(** * Plan My Outings: the backend's decision logic, embedded and verified

    A shallow embedding of [backend/main.py]: the scoring function, the
    centroid and Haversine helpers, the two candidate fetchers with their
    shared TTL cache, the suggestion pipeline, the poll ledger and the
    PlanPal dispatcher.

    Number model.  Python [int] is [Z].  Python [float] is read with exact
    arithmetic: as a rational ([Q]) where the code only adds, subtracts,
    multiplies, divides and compares, and as a real ([R]) in
    [calculate_distance], which calls [sin], [cos], [sqrt] and [atan2].
    Binary64 rounding is outside that reading.  Where rounding decides what
    the program answers, in the ranking of the assistant, the code is
    embedded a second time on binary64 numbers, operation by operation
    (module [Binary64]); the rating a row holds as a rational stands there
    for the binary64 number nearest to it.

    Storage model.  A table is the list of its rows in insertion order; the
    polls table is a finite map from the primary key to the row.  A
    [session.add] followed by [session.commit] writes a new row.  The vote
    ledger of a poll is a plain JSON column: a commit writes it only when
    the value assigned differs from the value loaded, and a dict changed in
    place and assigned back is the loaded value itself.  The JSONB
    [metadata] column of a suggestion is not read by any modelled function
    and is left out. *)

From Stdlib Require Import Floats.
From Stdlib Require Import ZArith QArith Reals Psatz.
From Stdlib Require Import String Ascii DecimalString List Sorted Permutation.
From stdpp Require Import base option list gmap strings.

Set Warnings "-inexact-float".

(* ===================================================================== *)
(** * Part I: definitions *)
(* ===================================================================== *)

(** ** Python semantics used by the code *)

Module Py.

(** [x or d] for an [Optional[float]]: [None] and zero are falsy. *)
Definition float_or (x : option Q) (d : Q) : Q :=
  match x with
  | Some v => if Qeq_bool v 0 then d else v
  | None => d
  end.

(** [x or d] for an [Optional[int]]. *)
Definition int_or (x : option Z) (d : Z) : Z :=
  match x with
  | Some v => if Z.eqb v 0 then d else v
  | None => d
  end.

(** [x or d] for an [Optional[str]]: [None] and the empty string are falsy. *)
Definition str_or (x : option string) (d : string) : string :=
  match x with
  | Some v => if String.eqb v EmptyString then d else v
  | None => d
  end.

(** Truth value of an [Optional[float]] in a comprehension filter. *)
Definition truthy_float (x : option Q) : bool :=
  match x with
  | Some v => negb (Qeq_bool v 0)
  | None => false
  end.

(** Truth value of an [Optional[str]] ([not api_key]). *)
Definition truthy_str (x : option string) : bool :=
  match x with
  | Some v => negb (String.eqb v EmptyString)
  | None => false
  end.

Definition Qlt_bool (a b : Q) : bool := negb (Qle_bool b a).

(** [max(a, b)]: the first argument wins unless the second is larger. *)
Definition max (a b : Q) : Q := if Qlt_bool a b then b else a.

(** [sum(l)]: left fold from the integer 0. *)
Definition sum (l : list Q) : Q := fold_left Qplus l 0%Q.

(** [len(l)] as a number. *)
Definition len {A} (l : list A) : Q := inject_Z (Z.of_nat (length l)).

(** [str.lower], on the ASCII letters. *)
Definition lower_ascii (c : ascii) : ascii :=
  let n := nat_of_ascii c in
  if (65 <=? n)%nat && (n <=? 90)%nat then ascii_of_nat (n + 32) else c.

Fixpoint lower (s : string) : string :=
  match s with
  | EmptyString => EmptyString
  | String c r => String (lower_ascii c) (lower r)
  end.

(** [needle in hay] on strings. *)
Fixpoint str_in (needle hay : string) : bool :=
  String.prefix needle hay ||
  match hay with
  | EmptyString => false
  | String _ r => str_in needle r
  end.

(** ['|'.join(args)] and the f-string of [get_cache_key]. *)
Fixpoint join (sep : string) (args : list string) : string :=
  match args with
  | [] => EmptyString
  | [a] => a
  | a :: rest => a ++ sep ++ join sep rest
  end.

(** [l.sort(key=..., reverse=True)]: Python's sort is stable, and with
    [reverse=True] elements with equal keys keep their original relative
    order.  Realised as a stable insertion sort on descending keys. *)
Section Sort.
Context {A : Type} (key : A -> Q).

Fixpoint insert_desc (x : A) (l : list A) : list A :=
  match l with
  | [] => [x]
  | y :: l' =>
      if Qlt_bool (key x) (key y) then y :: insert_desc x l'
      else x :: y :: l'
  end.

Fixpoint sort_desc (l : list A) : list A :=
  match l with
  | [] => []
  | x :: l' => insert_desc x (sort_desc l')
  end.
End Sort.

End Py.

(** ** Database rows and request bodies *)

Record Group := {
  g_id : Z;
  g_code : string;
  g_name : string;
  g_mood : option string;
  g_budget_level : option string
}.

Record Member := {
  m_group_id : Z;
  m_name : string;
  location_lat : option Q;
  location_lng : option Q
}.

Record Suggestion := {
  s_group_id : Z;
  s_type : string;
  source_id : option string;
  s_title : string;
  s_description : string;
  rating : option Q;
  price_estimate : option Z
}.

Record VoteEntry := {
  ve_member_id : Z;
  ve_emoji : string
}.

#[global] Instance VoteEntry_eq_dec : EqDecision VoteEntry.
Proof. solve_decision. Defined.

Record Poll := {
  p_group_id : Z;
  p_title : string;
  p_options : list (gmap string string);
  p_votes : gmap string (list VoteEntry)
}.

Record VoteRequest := {
  member_id : Z;
  option_id : string;
  emoji : string
}.

Record Store := {
  groups : list Group;
  members : list Member;
  suggestions : list Suggestion;
  polls : gmap Z Poll
}.

(** An endpoint either returns its body or raises [HTTPException]. *)
Inductive Response (A : Type) : Type :=
| Ok (body : A)
| HTTPException (status_code : Z) (detail : string).
Arguments Ok {A} body.
Arguments HTTPException {A} status_code detail.

(** ** Scoring engine *)

(** [budget_map.get(group_budget, 2000)] *)
Definition budget_map (group_budget : string) : option Z :=
  if String.eqb group_budget "low" then Some 1000%Z
  else if String.eqb group_budget "medium" then Some 2000%Z
  else if String.eqb group_budget "high" then Some 4000%Z
  else None.

Definition calculate_score (suggestion : Suggestion) (group_budget : string)
    (votes max_votes : Z) (distance_km max_distance : Q) : Q :=
  let rating_norm := (Py.float_or (rating suggestion) 3.5 / 5)%Q in
  let budget_limit := default 2000%Z (budget_map group_budget) in
  let price := Py.int_or (price_estimate suggestion) 1000 in
  let budget_match :=
    if (price <=? budget_limit)%Z then 1%Q
    else if Qle_bool (inject_Z price) (inject_Z budget_limit * 1.2) then 0.5%Q
    else 0.1%Q in
  let vote_score :=
    if (0 <? max_votes)%Z then (inject_Z votes / inject_Z max_votes)%Q
    else 0%Q in
  let proximity_score :=
    if Py.Qlt_bool 0 max_distance
    then Py.max 0 (1 - distance_km / max_distance)
    else 0.5%Q in
  (rating_norm * 0.5 + budget_match * 0.2 + vote_score * 0.2
   + proximity_score * 0.1)%Q.

(** The three-way budget test of [calculate_score], on its own. *)
Definition budget_match_of (price budget_limit : Z) : Q :=
  if (price <=? budget_limit)%Z then 1%Q
  else if Qle_bool (inject_Z price) (inject_Z budget_limit * 1.2) then 0.5%Q
  else 0.1%Q.

(** The weighted sum as the specification words it: the guards are tests
    for zero, the rating and price fall back when absent. *)
Module ScoreSpec.

Definition limit (budgetLevel : string) : Z :=
  if String.eqb budgetLevel "low" then 1000
  else if String.eqb budgetLevel "medium" then 2000
  else if String.eqb budgetLevel "high" then 4000
  else 2000.

Definition price (s : Suggestion) : Z :=
  match price_estimate s with
  | Some p => p
  | None => 1000
  end.

Definition rating_sub (s : Suggestion) : Q :=
  (Py.float_or (rating s) 3.5 / 5)%Q.

Definition budgetMatch (s : Suggestion) (budgetLevel : string) : Q :=
  if Qle_bool (inject_Z (price s)) (inject_Z (limit budgetLevel)) then 1%Q
  else if Qle_bool (inject_Z (price s)) (1.2 * inject_Z (limit budgetLevel))
       then 0.5%Q
       else 0.1%Q.

Definition popularity (votes maxVotes : Z) : Q :=
  if Z.eqb maxVotes 0 then 0%Q else (inject_Z votes / inject_Z maxVotes)%Q.

Definition proximity (distance maxDistance : Q) : Q :=
  if Qeq_bool maxDistance 0 then 0.5%Q
  else if Qle_bool (1 - distance / maxDistance) 0 then 0%Q
       else (1 - distance / maxDistance)%Q.

Definition score (s : Suggestion) (budgetLevel : string)
    (votes maxVotes : Z) (distance maxDistance : Q) : Q :=
  (0.5 * rating_sub s + 0.2 * budgetMatch s budgetLevel
   + 0.2 * popularity votes maxVotes
   + 0.1 * proximity distance maxDistance)%Q.

End ScoreSpec.

(** ** Geo utility *)

Definition radians (x : R) : R := (x * PI / 180)%R.

(** [math.atan2(y, x)] on the reals: the angle of the point [(x, y)]. *)
Definition atan2 (y x : R) : R :=
  if Rlt_dec 0 x then atan (y / x)
  else if Rlt_dec x 0 then
    (if Rle_dec 0 y then atan (y / x) + PI else atan (y / x) - PI)%R
  else if Rlt_dec 0 y then (PI / 2)%R
  else if Rlt_dec y 0 then (- PI / 2)%R
  else 0%R.

Definition calculate_distance (lat1 lng1 lat2 lng2 : R) : R :=
  let R := 6371%R in
  let dlat := radians (lat2 - lat1) in
  let dlng := radians (lng2 - lng1) in
  let a := ((sin (dlat / 2)) ^ 2
            + cos (radians lat1) * cos (radians lat2) * (sin (dlng / 2)) ^ 2)%R in
  let c := (2 * atan2 (sqrt a) (sqrt (1 - a)))%R in
  (R * c)%R.

(** The default location of [create_suggestions] and [fetch_google_places]. *)
Definition DEFAULT_LAT : Q := 12.9716%Q.
Definition DEFAULT_LNG : Q := 77.5946%Q.

(** The centroid block of [create_suggestions]:
    [lats = [m.location_lat for m in members if m.location_lat]], the same
    for [lngs], then the two conditional means. *)
Definition centroid (members : list Member) : Q * Q :=
  let lats :=
    omap location_lat
      (List.filter (fun m => Py.truthy_float (location_lat m)) members) in
  let lngs :=
    omap location_lng
      (List.filter (fun m => Py.truthy_float (location_lng m)) members) in
  let centroid_lat :=
    match lats with
    | [] => DEFAULT_LAT
    | _ :: _ => (Py.sum lats / Py.len lats)%Q
    end in
  let centroid_lng :=
    match lngs with
    | [] => DEFAULT_LNG
    | _ :: _ => (Py.sum lngs / Py.len lngs)%Q
    end in
  (centroid_lat, centroid_lng).

(** The centroid as the specification words it: the componentwise mean of
    the members whose coordinates are known, the default location when
    there is none. *)
Module CentroidSpec.

Definition located (members : list Member) : list (Q * Q) :=
  omap (fun m =>
          match location_lat m, location_lng m with
          | Some lat, Some lng => Some (lat, lng)
          | _, _ => None
          end) members.

Definition mean (xs : list Q) : Q := (Py.sum xs / Py.len xs)%Q.

Definition centroid (members : list Member) : Q * Q :=
  match located members with
  | [] => (DEFAULT_LAT, DEFAULT_LNG)
  | pts => (mean (map fst pts), mean (map snd pts))
  end.

End CentroidSpec.

(** ** External suggestion source adapter *)

(** A raw candidate is the provider's JSON object, restricted to the keys
    the backend reads; a field is [None] when the key is omitted. *)
Record Candidate := {
  c_name : option string;
  c_rating : option Q;
  c_price_level : option Z;
  c_place_id : option string;
  c_vicinity : option string;
  c_title : option string;
  c_vote_average : option Q;
  c_id : option Z;
  c_overview : option string
}.

Definition mock_place (name : string) (rating : Q) (price_level : Z)
    (place_id : string) : Candidate :=
  {| c_name := Some name; c_rating := Some rating;
     c_price_level := Some price_level; c_place_id := Some place_id;
     c_vicinity := None; c_title := None; c_vote_average := None;
     c_id := None; c_overview := None |}.

Definition mock_movie (title : string) (vote_average : Q) (id : Z)
    : Candidate :=
  {| c_name := None; c_rating := None; c_price_level := None;
     c_place_id := None; c_vicinity := None; c_title := Some title;
     c_vote_average := Some vote_average; c_id := Some id;
     c_overview := None |}.

Definition get_mock_places (mood budget_level : string) : list Candidate :=
  [ mock_place "Cubbon Park" 4.5 0 "mock_1";
    mock_place "Wonderla" 4.3 3 "mock_2";
    mock_place "Cafe Coffee Day" 4.0 1 "mock_3";
    mock_place "Lalbagh Botanical Garden" 4.6 0 "mock_4" ].

Definition get_mock_movies (mood : string) : list Candidate :=
  [ mock_movie "Zindagi Na Milegi Dobara" 8.1 12345;
    mock_movie "Dil Chahta Hai" 8.0 12346;
    mock_movie "Queen" 7.8 12347;
    mock_movie "3 Idiots" 8.4 12348 ].

(** The process-wide [cache] dictionary: key to (data, insertion time). *)
Abbreviation Cache := (gmap string (list Candidate * Q)).

Definition CACHE_TTL : Q := 1800.

(** [get_cached]: a fresh entry is returned, an expired one is deleted. *)
Definition get_cached (key : string) (now : Q) (cache : Cache)
    : option (list Candidate) * Cache :=
  match cache !! key with
  | Some (data, timestamp) =>
      if Py.Qlt_bool (now - timestamp) CACHE_TTL then (Some data, cache)
      else (None, delete key cache)
  | None => (None, cache)
  end.

Definition set_cache (key : string) (data : list Candidate) (now : Q)
    (cache : Cache) : Cache :=
  <[key := (data, now)]> cache.

(** What the awaited HTTP call yields: an exception of any kind (network
    error, timeout, undecodable or ill-shaped body), or a JSON object with
    its ["status"] and ["results"] keys, each possibly missing. *)
Inductive HttpOutcome :=
| HttpRaises
| HttpJson (status : option string) (results : option (list Candidate)).

Definition type_map (mood : string) : option string :=
  if String.eqb mood "adventurous" then Some "tourist_attraction"
  else if String.eqb mood "chill" then Some "cafe"
  else if String.eqb mood "romantic" then Some "restaurant"
  else if String.eqb mood "foodie" then Some "restaurant"
  else if String.eqb mood "fun_getaway" then Some "amusement_park"
  else None.

Definition genre_map (mood : string) : option Z :=
  if String.eqb mood "adventurous" then Some 12%Z
  else if String.eqb mood "chill" then Some 35%Z
  else if String.eqb mood "romantic" then Some 10749%Z
  else if String.eqb mood "foodie" then Some 99%Z
  else if String.eqb mood "fun_getaway" then Some 16%Z
  else None.

(** The process environment and the outside world of one request: the two
    credentials, the clock at the cache read and at the cache write, and
    the providers as functions of the query they are sent. *)
Record World := {
  GOOGLE_PLACES_KEY : option string;
  TMDB_API_KEY : option string;
  now_read : Q;
  now_write : Q;
  places_api : string -> string -> HttpOutcome;  (* location, type *)
  tmdb_api : Z -> HttpOutcome                     (* with_genres *)
}.

Section Adapter.

(** Library primitives left abstract: [hashlib.md5(..).hexdigest()] and
    [str] on a float. *)
Variable md5 : string -> string.
Variable str_float : Q -> string.

(** The text that [get_cache_key] digests: [f"{prefix}:{'|'.join(..)}"];
    the arguments are already passed through [str]. *)
Definition cache_key_content (prefix : string) (args : list string)
    : string :=
  (prefix ++ ":" ++ Py.join "|" args)%string.

Definition get_cache_key (prefix : string) (args : list string) : string :=
  md5 (cache_key_content prefix args).

Definition fetch_google_places (w : World) (mood budget_level : string)
    (lat lng : Q) (cache : Cache) : list Candidate * Cache :=
  let api_key := GOOGLE_PLACES_KEY w in
  if negb (Py.truthy_str api_key) then
    (get_mock_places mood budget_level, cache)
  else
    let cache_key :=
      get_cache_key "places"
        [mood; budget_level; str_float lat; str_float lng] in
    let '(cached, cache) := get_cached cache_key (now_read w) cache in
    match cached with
    | Some ((_ :: _) as data) => (data, cache)
    | _ =>
        let place_type := default "point_of_interest"%string (type_map mood) in
        let location := (str_float lat ++ "," ++ str_float lng)%string in
        match places_api w location place_type with
        | HttpJson (Some status) (Some results) =>
            if String.eqb status "OK" then
              (take 10 results,
               set_cache cache_key (take 10 results) (now_write w) cache)
            else (get_mock_places mood budget_level, cache)
        | _ => (get_mock_places mood budget_level, cache)
        end
    end.

Definition fetch_tmdb_movies (w : World) (mood : string) (cache : Cache)
    : list Candidate * Cache :=
  let api_key := TMDB_API_KEY w in
  if negb (Py.truthy_str api_key) then (get_mock_movies mood, cache)
  else
    let cache_key := get_cache_key "movies" [mood] in
    let '(cached, cache) := get_cached cache_key (now_read w) cache in
    match cached with
    | Some ((_ :: _) as data) => (data, cache)
    | _ =>
        let genre_id := default 28%Z (genre_map mood) in
        match tmdb_api w genre_id with
        | HttpJson _ (Some results) =>
            (take 10 results,
             set_cache cache_key (take 10 results) (now_write w) cache)
        | _ => (get_mock_movies mood, cache)
        end
    end.

End Adapter.

(** ** Suggestion ranking pipeline *)

(** [mapping.get(price_level or 1, 1000)] *)
Definition price_mapping (price_level : Z) : option Z :=
  if (price_level =? 0)%Z then Some 300%Z
  else if (price_level =? 1)%Z then Some 700%Z
  else if (price_level =? 2)%Z then Some 1500%Z
  else if (price_level =? 3)%Z then Some 3000%Z
  else if (price_level =? 4)%Z then Some 4500%Z
  else None.

Definition map_price_level_to_inr (price_level : option Z) : Z :=
  default 1000%Z (price_mapping (Py.int_or price_level 1)).

(** [str(movie.get("id"))] *)
Definition str_id (id : option Z) : string :=
  match id with
  | Some z => DecimalString.NilZero.string_of_int (Z.to_int z)
  | None => "None"
  end.

(** The body of the [for place in places[:4]] loop. *)
Definition place_to_suggestion (group_id : Z) (place : Candidate)
    : Suggestion :=
  {| s_group_id := group_id;
     s_type := "place";
     source_id := c_place_id place;
     s_title := default "Unknown Place"%string (c_name place);
     s_description := default EmptyString (c_vicinity place);
     rating := Some (default 4.0%Q (c_rating place));
     price_estimate := Some (map_price_level_to_inr (c_price_level place)) |}.

(** The body of the [for movie in movies[:4]] loop. *)
Definition movie_to_suggestion (group_id : Z) (movie : Candidate)
    : Suggestion :=
  {| s_group_id := group_id;
     s_type := "movie";
     source_id := Some (str_id (c_id movie));
     s_title := default "Unknown Movie"%string (c_title movie);
     s_description := default EmptyString (c_overview movie);
     rating := Some (default 7.0%Q (c_vote_average movie) / 2)%Q;
     price_estimate := Some 600%Z |}.

(** [select(Group).where(Group.code == code)).first()] *)
Definition group_by_code (code : string) (st : Store) : option Group :=
  List.find (fun g => String.eqb (g_code g) code) (groups st).

(** [select(Group).where(Group.id == group_id)).first()] *)
Definition group_by_id (group_id : Z) (st : Store) : option Group :=
  List.find (fun g => (g_id g =? group_id)%Z) (groups st).

Definition members_of (group_id : Z) (st : Store) : list Member :=
  List.filter (fun m => (m_group_id m =? group_id)%Z) (members st).

Definition suggestions_of (group_id : Z) (st : Store) : list Suggestion :=
  List.filter (fun s => (s_group_id s =? group_id)%Z) (suggestions st).

Definition add_suggestions (new : list Suggestion) (st : Store) : Store :=
  {| groups := groups st; members := members st;
     suggestions := suggestions st ++ new; polls := polls st |}.

Section Pipeline.

Variable md5 : string -> string.
Variable str_float : Q -> string.

Definition create_suggestions (w : World) (code source : string)
    (st : Store) (cache : Cache)
    : Response (list Suggestion) * Store * Cache :=
  match group_by_code code st with
  | None => (HTTPException 404 "Group not found", st, cache)
  | Some group =>
      let members := members_of (g_id group) st in
      let '(centroid_lat, centroid_lng) := centroid members in
      if String.eqb source "google" then
        let '(places, cache) :=
          fetch_google_places md5 str_float w
            (Py.str_or (g_mood group) "chill")
            (Py.str_or (g_budget_level group) "medium")
            centroid_lat centroid_lng cache in
        let new := map (place_to_suggestion (g_id group)) (take 4 places) in
        (Ok new, add_suggestions new st, cache)
      else if String.eqb source "tmdb" then
        let '(movies, cache) :=
          fetch_tmdb_movies md5 w (Py.str_or (g_mood group) "chill") cache in
        let new := map (movie_to_suggestion (g_id group)) (take 4 movies) in
        (Ok new, add_suggestions new st, cache)
      else (Ok [], st, cache)
  end.

(** The cache key a request for candidates of one kind ends up with, as a
    function of the five request parameters: [source] is ["google"] for
    places and ["tmdb"] for movies; the movie fetch is handed the mood
    only. *)
Definition fetch_cache_key (source mood budget_level : string) (lat lng : Q)
    : option string :=
  if String.eqb source "google" then
    Some (get_cache_key md5 "places"
            [mood; budget_level; str_float lat; str_float lng])
  else if String.eqb source "tmdb" then
    Some (get_cache_key md5 "movies" [mood])
  else None.

End Pipeline.

(** ** Poll and voting store *)

Definition set_votes (poll : Poll) (votes : gmap string (list VoteEntry))
    : Poll :=
  {| p_group_id := p_group_id poll; p_title := p_title poll;
     p_options := p_options poll; p_votes := votes |}.

Definition put_poll (poll_id : Z) (poll : Poll) (st : Store) : Store :=
  {| groups := groups st; members := members st;
     suggestions := suggestions st; polls := <[poll_id := poll]> (polls st) |}.

(** Truth value of a dict: it is not empty. *)
Definition dict_truthy (votes : gmap string (list VoteEntry)) : bool :=
  negb (bool_decide (votes = ∅)).

(** [poll.votes = votes; session.add(poll); session.commit()].  The unit of
    work compares the ledger it loaded with the ledger the attribute holds
    and writes the column when they differ.  When [votes] is the loaded
    dict itself ([same_object]), the entry appended to [votes] was appended
    to the loaded value too: the two are one object and nothing is
    written. *)
Definition commit_votes (poll_id : Z) (poll : Poll) (same_object : bool)
    (loaded votes : gmap string (list VoteEntry)) (st : Store) : Store :=
  let loaded := if same_object then votes else loaded in
  if bool_decide (votes = loaded) then st
  else put_poll poll_id (set_votes poll votes) st.

(** [POST /group/{code}/polls/{poll_id}/vote].  [votes = poll.votes or {}]
    is the loaded ledger itself when that is not empty, and a new dict when
    it is; [session.refresh(poll)] reads the stored row. *)
Definition vote_poll (code : string) (poll_id : Z) (req : VoteRequest)
    (st : Store) : Response Poll * Store :=
  match polls st !! poll_id with
  | None => (HTTPException 404 "Poll not found", st)
  | Some poll =>
      let loaded := p_votes poll in
      let same_object := dict_truthy loaded in
      let votes := if same_object then loaded else ∅ in
      let option_id := option_id req in
      let votes :=
        match votes !! option_id with
        | None => <[option_id := []]> votes
        | Some _ => votes
        end in
      let vote_entry :=
        {| ve_member_id := member_id req; ve_emoji := emoji req |} in
      let votes := alter (fun l => l ++ [vote_entry]) option_id votes in
      let st := commit_votes poll_id poll same_object loaded votes st in
      (Ok (default poll (polls st !! poll_id)), st)
  end.

(** ** Assistant dispatcher *)

(** A reply is one of the fixed texts, or a formatted text given here by
    the values that are substituted into it. *)
Inductive Reply :=
| Fixed (text : string)
| TopPicks (entries : list (nat * (Suggestion * Q)))
| Comparison (s1 s2 : Suggestion)
| ProsCons (s : Suggestion).

Definition NO_SUGGESTIONS : string :=
  "No suggestions available yet. Add some places or movies first!".
Definition NEED_TWO : string := "Need at least 2 suggestions to compare!".
Definition HELP : string :=
  "I can help with: suggest, compare, safety, proscons. Just mention me with @PlanPal!".
Definition nl : string := String (ascii_of_nat 10) EmptyString.
Definition SAFETY : string :=
  ("🚨 Safety tips:" ++ nl ++ "• Share live location with group" ++ nl
   ++ "• Keep emergency contacts handy" ++ nl
   ++ "• Travel in daylight when possible" ++ nl
   ++ "• Nearest police station: 2.3 km away")%string.

(** [enumerate(l, 1)] *)
Definition enumerate1 {A} (l : list A) : list (nat * A) :=
  imap (fun i x => (S i, x)) l.

(** [handle_planpal_query]; [None] is the [AttributeError] raised by
    [group.budget_level] when no group row has the given id. *)
Definition handle_planpal_query (group_id : Z) (text : string) (st : Store)
    : option Reply :=
  let text_lower := Py.lower text in
  let suggestions := suggestions_of group_id st in
  match suggestions with
  | [] => Some (Fixed NO_SUGGESTIONS)
  | _ :: _ =>
      let group := group_by_id group_id st in
      if Py.str_in "suggest" text_lower then
        match group with
        | None => None
        | Some group =>
            let scored :=
              map (fun s =>
                     (s, calculate_score s
                           (Py.str_or (g_budget_level group) "medium")
                           0 1 0 10))
                  suggestions in
            let scored := Py.sort_desc snd scored in
            let top3 := take 3 scored in
            Some (TopPicks (enumerate1 top3))
        end
      else if Py.str_in "safety" text_lower then Some (Fixed SAFETY)
      else if Py.str_in "compare" text_lower then
        match suggestions with
        | s1 :: s2 :: _ => Some (Comparison s1 s2)
        | _ => Some (Fixed NEED_TWO)
        end
      else if Py.str_in "proscons" text_lower || Py.str_in "pros" text_lower
      then
        match suggestions with
        | s :: _ => Some (ProsCons s)
        | [] => Some (Fixed HELP)
        end
      else Some (Fixed HELP)
  end.

(** ** Sample rows used by the concrete evaluations *)

Module Sample.

Definition suggestion (title : string) (r : option Q) (p : option Z)
    : Suggestion :=
  {| s_group_id := 1; s_type := "place"; source_id := None;
     s_title := title; s_description := EmptyString; rating := r;
     price_estimate := p |}.

(** Rated 5 and priced within every budget. *)
Definition top_rated : Suggestion := suggestion "Top" (Some 5%Q) (Some 500%Z).

(** No rating, priced far above the medium budget (1.2 * 2000 = 2400). *)
Definition far_over_budget : Suggestion :=
  suggestion "Pricey" None (Some 5000%Z).

Definition member (lat lng : option Q) : Member :=
  {| m_group_id := 1; m_name := "m"; location_lat := lat;
     location_lng := lng |}.

(** A member on the equator, at longitude 10. *)
Definition on_equator : Member := member (Some 0%Q) (Some 10%Q).

(** A member at latitude 0, longitude 0. *)
Definition at_origin : Member := member (Some 0%Q) (Some 0%Q).

End Sample.

(** ** The ranking of the assistant on binary64 numbers *)

(** Python's [float] is IEEE 754 binary64 and every operation rounds to the
    nearest number, ties to even.  The operations are those of
    [PrimFloat]; the reading of a row, of an [int] and of a quotient of two
    [int]s uses the rounding of [SpecFloat]. *)
Module Binary64.

Local Open Scope float_scope.

(** An [int] as an unrounded binary number. *)
Definition of_spec_int (z : Z) : spec_float :=
  match z with
  | Z0 => S754_zero false
  | Zpos p => S754_finite false p 0
  | Zneg p => S754_finite true p 0
  end.

(** The conversion of an [int] operand of a mixed operation. *)
Definition of_int (z : Z) : float :=
  SF2Prim (binary_normalize prec emax z 0 false).

(** [a / b] on two [int]s: the quotient rounded once.  [calculate_score]
    divides under the guard [max_votes > 0]. *)
Definition int_truediv (a b : Z) : float :=
  SF2Prim (SFdiv prec emax (of_spec_int a) (of_spec_int b)).

(** The number a [float] column holds for a row written with the value
    [q]: the binary64 number nearest to [q]. *)
Definition of_Q (q : Q) : float := int_truediv (Qnum q) (Zpos (Qden q)).

(** [x == x]: false on NaN only. *)
Definition is_number (x : float) : bool := x =? x.

(** [x or d] for an [Optional[float]]: [None], [0.0] and [-0.0] are
    falsy. *)
Definition float_or (x : option float) (d : float) : float :=
  match x with
  | Some v => if v =? 0 then d else v
  | None => d
  end.

(** [i <= x] for an [int] and a [float]: Python compares the exact
    values, so [i] is compared with the integer part of [x] rounded
    down. *)
Definition int_le_float (i : Z) (x : float) : bool :=
  match Prim2SF x with
  | S754_nan => false
  | S754_infinity s => negb s
  | S754_zero _ => (i <=? 0)%Z
  | S754_finite s m e => (i <=? Z.shiftl (if s then Zneg m else Zpos m) e)%Z
  end.

(** [max(0, x)]: the first argument stays unless the second is larger. *)
Definition max0 (x : float) : float := if 0 <? x then x else 0.

(** [calculate_score], each operation rounded as the program rounds it;
    the sum is taken from left to right. *)
Definition calculate_score (suggestion : Suggestion) (group_budget : string)
    (votes max_votes : Z) (distance_km max_distance : float) : float :=
  let rating_norm :=
    float_or (option_map of_Q (rating suggestion)) 3.5 / 5.0 in
  let budget_limit := default 2000%Z (budget_map group_budget) in
  let price := Py.int_or (price_estimate suggestion) 1000 in
  let budget_match :=
    if (price <=? budget_limit)%Z then 1.0
    else if int_le_float price (of_int budget_limit * 1.2) then 0.5
    else 0.1 in
  let vote_score :=
    if (0 <? max_votes)%Z then int_truediv votes max_votes else 0.0 in
  let proximity_score :=
    if 0 <? max_distance then max0 (1 - distance_km / max_distance)
    else 0.5 in
  rating_norm * 0.5 + budget_match * 0.2 + vote_score * 0.2
  + proximity_score * 0.1.

(** [l.sort(key=..., reverse=True)] on [float] keys, as in [Py.sort_desc]:
    an element moves past the elements whose key is smaller under [<]. *)
Section Sort.
Context {A : Type} (key : A -> float).

Fixpoint insert_desc (x : A) (l : list A) : list A :=
  match l with
  | [] => [x]
  | y :: l' =>
      if key x <? key y then y :: insert_desc x l'
      else x :: y :: l'
  end.

Fixpoint sort_desc (l : list A) : list A :=
  match l with
  | [] => []
  | x :: l' => insert_desc x (sort_desc l')
  end.
End Sort.

Inductive Reply :=
| Fixed (text : string)
| TopPicks (entries : list (nat * (Suggestion * float)))
| Comparison (s1 s2 : Suggestion)
| ProsCons (s : Suggestion).

(** The score the dispatcher gives a suggestion.  The call passes the
    [int]s 0, 1, 0 and 10; the last two are operands of [float]
    operations only. *)
Definition assistant_score (group : Group) (s : Suggestion) : float :=
  calculate_score s (Py.str_or (g_budget_level group) "medium")
    0 1 (of_int 0) (of_int 10).

(** [handle_planpal_query] with the scores in binary64. *)
Definition handle_planpal_query (group_id : Z) (text : string) (st : Store)
    : option Reply :=
  let text_lower := Py.lower text in
  let suggestions := suggestions_of group_id st in
  match suggestions with
  | [] => Some (Fixed NO_SUGGESTIONS)
  | _ :: _ =>
      let group := group_by_id group_id st in
      if Py.str_in "suggest" text_lower then
        match group with
        | None => None
        | Some group =>
            let scored :=
              map (fun s =>
                     (s, calculate_score s
                           (Py.str_or (g_budget_level group) "medium")
                           0 1 (of_int 0) (of_int 10)))
                  suggestions in
            let scored := sort_desc snd scored in
            let top3 := take 3 scored in
            Some (TopPicks (enumerate1 top3))
        end
      else if Py.str_in "safety" text_lower then Some (Fixed SAFETY)
      else if Py.str_in "compare" text_lower then
        match suggestions with
        | s1 :: s2 :: _ => Some (Comparison s1 s2)
        | _ => Some (Fixed NEED_TWO)
        end
      else if Py.str_in "proscons" text_lower || Py.str_in "pros" text_lower
      then
        match suggestions with
        | s :: _ => Some (ProsCons s)
        | [] => Some (Fixed HELP)
        end
      else Some (Fixed HELP)
  end.

(** The contract of a stable descending sort on [float] keys. *)
Definition descending {A} (key : A -> float) (a b : A) : Prop :=
  (key b <=? key a) = true.

Definition with_key {A} (key : A -> float) (q : float) (l : list A)
    : list A :=
  List.filter (fun x => key x =? q) l.

Definition stable_sorted_desc {A} (key : A -> float) (l sorted : list A)
    : Prop :=
  StronglySorted (descending key) sorted
  /\ forall q, with_key key q sorted = with_key key q l.

(** A group on the low budget with three suggestions.  The first two score
    0.59 in exact arithmetic; in binary64 the second scores higher. *)
Definition thrifty : Group :=
  {| g_id := 1; g_code := "LOW001"; g_name := "Thrifty";
     g_mood := None; g_budget_level := Some "low"%string |}.

Definition budget : Suggestion :=
  Sample.suggestion "Budget" (Some 2.9%Q) (Some 700%Z).
Definition fancy : Suggestion :=
  Sample.suggestion "Fancy" (Some 4.7%Q) (Some 3000%Z).
Definition plain : Suggestion :=
  Sample.suggestion "Plain" (Some 1.0%Q) (Some 700%Z).

Definition store : Store :=
  {| groups := [thrifty]; members := [];
     suggestions := [budget; fancy; plain]; polls := ∅ |}.

End Binary64.


(** A member whose coordinates the centroid block reads as intended: both
    absent, or both present and neither equal to zero. *)
Definition plainly_located (m : Member) : Prop :=
  match location_lat m, location_lng m with
  | Some lat, Some lng => ~ (lat == 0)%Q /\ ~ (lng == 0)%Q
  | None, None => True
  | _, _ => False
  end.

(** [no_bar s]: the separator ['|'] of [get_cache_key] does not occur in [s]. *)
Fixpoint no_bar (s : string) : bool :=
  match s with
  | EmptyString => true
  | String c r => negb (Ascii.eqb c "|") && no_bar r
  end.

(** A live fetch that succeeds: the credential is configured and the
    provider answers the query with a usable result list. *)
Definition places_live_success (str_float : Q -> string) (w : World)
    (mood : string) (lat lng : Q) (results : list Candidate) : Prop :=
  Py.truthy_str (GOOGLE_PLACES_KEY w) = true
  /\ places_api w (str_float lat ++ "," ++ str_float lng)%string
       (default "point_of_interest"%string (type_map mood))
     = HttpJson (Some "OK"%string) (Some results).

Definition movies_live_success (w : World) (mood : string)
    (results : list Candidate) : Prop :=
  Py.truthy_str (TMDB_API_KEY w) = true
  /\ exists status,
      tmdb_api w (default 28%Z (genre_map mood))
      = HttpJson status (Some results).

(** ** The contract of a stable descending sort *)

(** [descending key a b]: [a] may stand before [b]. *)
Definition descending {A} (key : A -> Q) (a b : A) : Prop :=
  (key b <= key a)%Q.

(** The elements whose key equals [q], in list order. *)
Definition with_key {A} (key : A -> Q) (q : Q) (l : list A) : list A :=
  List.filter (fun x => Qeq_bool (key x) q) l.

(** [sorted] is [l] sorted by descending key with ties in their original
    order: it is in descending order and, for every key, holds the same
    elements in the same order as [l]. *)
Definition stable_sorted_desc {A} (key : A -> Q) (l sorted : list A) : Prop :=
  StronglySorted (descending key) sorted
  /\ forall q, with_key key q sorted = with_key key q l.

(** A store with two groups: the first has four suggestions, two of them
    with the same score, and one poll; the second has nothing. *)
Module SampleStore.

Definition friday : Group :=
  {| g_id := 1; g_code := "ABC123"; g_name := "Friday Fun";
     g_mood := Some "chill"%string; g_budget_level := Some "low"%string |}.

Definition sunday : Group :=
  {| g_id := 2; g_code := "XYZ789"; g_name := "Sunday Trip";
     g_mood := None; g_budget_level := None |}.

Definition cafe : Suggestion :=
  Sample.suggestion "Cafe" (Some 4.0%Q) (Some 700%Z).
Definition park : Suggestion :=
  Sample.suggestion "Park" (Some 4.5%Q) (Some 700%Z).
Definition diner : Suggestion :=
  Sample.suggestion "Diner" (Some 4.0%Q) (Some 700%Z).
Definition resort : Suggestion :=
  Sample.suggestion "Resort" (Some 4.5%Q) (Some 3000%Z).

Definition where_to_go : Poll :=
  {| p_group_id := 1; p_title := "Where to go?";
     p_options :=
       [ {[ "id"%string := "opt1"%string ]};
         {[ "id"%string := "opt2"%string ]} ];
     p_votes :=
       {[ "opt1"%string := [ {| ve_member_id := 1; ve_emoji := "+1" |} ] ]} |}.

Definition store : Store :=
  {| groups := [friday; sunday]; members := [];
     suggestions := [cafe; park; diner; resort];
     polls := {[ 7%Z := where_to_go ]} |}.

(** A second vote on the first option, and a vote on an option the poll
    does not declare. *)
Definition second_vote : VoteRequest :=
  {| member_id := 2; option_id := "opt1"; emoji := "heart" |}.
Definition stray_vote : VoteRequest :=
  {| member_id := 2; option_id := "opt9"; emoji := "heart" |}.

(** No credential configured; the providers are never reached. *)
Definition offline : World :=
  {| GOOGLE_PLACES_KEY := None; TMDB_API_KEY := Some EmptyString;
     now_read := 0; now_write := 0;
     places_api := fun _ _ => HttpRaises; tmdb_api := fun _ => HttpRaises |}.

(** Both credentials configured, and both providers answering with the
    static lists. *)
Definition online : World :=
  {| GOOGLE_PLACES_KEY := Some "key-1"%string;
     TMDB_API_KEY := Some "key-2"%string;
     now_read := 100; now_write := 100;
     places_api := fun _ _ =>
       HttpJson (Some "OK"%string) (Some (get_mock_places "any" "any"));
     tmdb_api := fun _ => HttpJson None (Some (get_mock_movies "any")) |}.

Definition str_float (q : Q) : string := "0.0".

End SampleStore.

(** ** Further endpoints and helpers *)

(** The quantity [a] of [calculate_distance]: the haversine of the central
    angle. *)
Definition haversine_a (lat1 lng1 lat2 lng2 : R) : R :=
  (sin (radians (lat2 - lat1) / 2) ^ 2
   + cos (radians lat1) * cos (radians lat2)
     * sin (radians (lng2 - lng1) / 2) ^ 2)%R.

(** [GET /group/{code}/suggestions] *)
Definition get_suggestions (code : string) (st : Store)
    : Response (list Suggestion) :=
  match group_by_code code st with
  | None => HTTPException 404 "Group not found"
  | Some group => Ok (suggestions_of (g_id group) st)
  end.

(** The body of [POST /group/{code}/join]; like the member row, without the
    avatar reference. *)
Record JoinGroupRequest := {
  jr_name : string;
  jr_lat : option Q;
  jr_lng : option Q
}.

Definition add_member (m : Member) (st : Store) : Store :=
  {| groups := groups st; members := members st ++ [m];
     suggestions := suggestions st; polls := polls st |}.

(** [POST /group/{code}/join] *)
Definition join_group (code : string) (req : JoinGroupRequest) (st : Store)
    : Response Member * Store :=
  match group_by_code code st with
  | None => (HTTPException 404 "Group not found", st)
  | Some group =>
      let member :=
        {| m_group_id := g_id group; m_name := jr_name req;
           location_lat := jr_lat req; location_lng := jr_lng req |} in
      (Ok member, add_member member st)
  end.

Record CreatePollRequest := {
  cp_title : string;
  cp_options : list (gmap string string)
}.

(** [POST /group/{code}/polls]; [new_id] is the primary key the database
    gives the new row. *)
Definition create_poll (new_id : Z) (code : string) (req : CreatePollRequest)
    (st : Store) : Response (Z * Poll) * Store :=
  match group_by_code code st with
  | None => (HTTPException 404 "Group not found", st)
  | Some group =>
      let poll :=
        {| p_group_id := g_id group; p_title := cp_title req;
           p_options := cp_options req; p_votes := ∅ |} in
      (Ok (new_id, poll), put_poll new_id poll st)
  end.

(** A run of votes on one poll, each through [vote_poll], in order. *)
Fixpoint cast_votes (code : string) (poll_id : Z) (reqs : list VoteRequest)
    (st : Store) : Store :=
  match reqs with
  | [] => st
  | req :: rest => cast_votes code poll_id rest (vote_poll code poll_id req st).2
  end.

Definition entry_of (req : VoteRequest) : VoteEntry :=
  {| ve_member_id := member_id req; ve_emoji := emoji req |}.

(** The chat log table and the body of [POST /group/{code}/chat]. *)
Record ChatMessage := {
  cm_group_id : Z;
  cm_member_id : option Z;
  cm_message : string
}.

Record ChatRequest := {
  cr_member_id : Z;
  cr_message : string
}.

(** [POST /group/{code}/chat].  The outer [None] is an exception escaping
    from [handle_planpal_query]; the message is committed before the
    assistant is called.  The body is [bot_response]. *)
Definition post_chat (code : string) (req : ChatRequest) (st : Store)
    (log : list ChatMessage)
    : option (Response (option Reply)) * list ChatMessage :=
  match group_by_code code st with
  | None => (Some (HTTPException 404 "Group not found"), log)
  | Some group =>
      let message :=
        {| cm_group_id := g_id group; cm_member_id := Some (cr_member_id req);
           cm_message := cr_message req |} in
      let log := log ++ [message] in
      if Py.str_in "@PlanPal" (cr_message req) then
        match handle_planpal_query (g_id group) (cr_message req) st with
        | Some reply => (Some (Ok (Some reply)), log)
        | None => (None, log)
        end
      else (Some (Ok None), log)
  end.

(** [POST /bot/query] *)
Definition bot_query (group_id : Z) (text : string) (st : Store)
    : option Reply :=
  handle_planpal_query group_id text st.

(** Every cached list holds at most ten candidates. *)
Definition cache_bounded (cache : Cache) : Prop :=
  forall k data t, cache !! k = Some (data, t) -> (length data <= 10)%nat.

(** The score the assistant gives a suggestion of a group. *)
Definition assistant_score (group : Group) (s : Suggestion) : Q :=
  calculate_score s (Py.str_or (g_budget_level group) "medium") 0 1 0 10.


(** Whether the provider's answer is one the fetcher takes: for places a
    JSON object with status "OK" and a result list, for movies a JSON object
    with a result list. *)
Definition places_answer_usable (answer : HttpOutcome) : bool :=
  match answer with
  | HttpJson (Some status) (Some _) => String.eqb status "OK"
  | _ => false
  end.

Definition movies_answer_usable (answer : HttpOutcome) : bool :=
  match answer with
  | HttpJson _ (Some _) => true
  | _ => false
  end.

(** The query [fetch_google_places] sends for a mood and a location. *)
Definition places_query (str_float : Q -> string) (w : World) (mood : string)
    (lat lng : Q) : HttpOutcome :=
  places_api w (str_float lat ++ "," ++ str_float lng)%string
    (default "point_of_interest"%string (type_map mood)).

Definition movies_query (w : World) (mood : string) : HttpOutcome :=
  tmdb_api w (default 28%Z (genre_map mood)).

(** A cached value that [if cached:] lets through: a non-empty list. *)
Definition servable (cached : option (list Candidate)) : bool :=
  match cached with
  | Some (_ :: _) => true
  | _ => false
  end.


(** Requests, worlds and caches for the concrete runs of Part III. *)
Module SampleRuns.

Definition places_key : string := "places:chill|low|0.0|0.0".
Definition movies_key : string := "movies:chill".

(** Credentials configured, both providers failing, 200 seconds on. *)
Definition broken : World :=
  {| GOOGLE_PLACES_KEY := Some "key-1"%string;
     TMDB_API_KEY := Some "key-2"%string;
     now_read := 200; now_write := 200;
     places_api := fun _ _ => HttpRaises;
     tmdb_api := fun _ => HttpJson (Some "error"%string) None |}.

(** Credentials configured, the movie provider finding nothing. *)
Definition nothing_found : World :=
  {| GOOGLE_PLACES_KEY := Some "key-1"%string;
     TMDB_API_KEY := Some "key-2"%string;
     now_read := 200; now_write := 200;
     places_api := fun _ _ => HttpJson (Some "ZERO_RESULTS"%string) (Some []);
     tmdb_api := fun _ => HttpJson None (Some []) |}.

(** A cache filled at time 0 for the two requests. *)
Definition warm : Cache :=
  <[places_key := (get_mock_places "chill" "low", 0%Q)]>
    {[ movies_key := (get_mock_movies "chill", 0%Q) ]}.

(** A cache holding empty lists for the two requests. *)
Definition hollow : Cache :=
  <[places_key := ([], 0%Q)]> {[ movies_key := ([], 0%Q) ]}.

Definition asha : JoinGroupRequest :=
  {| jr_name := "Asha"; jr_lat := Some 12.5%Q; jr_lng := Some 77.5%Q |}.

Definition lunch : CreatePollRequest :=
  {| cp_title := "Lunch?";
     cp_options := [ {[ "id"%string := "a"%string ]};
                     {[ "id"%string := "b"%string ]} ] |}.

Definition vote (member : Z) (option : string) : VoteRequest :=
  {| member_id := member; option_id := option; emoji := "+1" |}.

Definition ask_compare : ChatRequest :=
  {| cr_member_id := 1; cr_message := "@PlanPal compare these" |}.

Definition small_talk : ChatRequest :=
  {| cr_member_id := 1; cr_message := "@planpal suggest" |}.

End SampleRuns.


(** The body of [GET /group/{code}]: the group row, then the members, the
    suggestions and the polls of the group.  The polls are given by primary
    key; the order of the list in the response is the database's. *)
Record GroupView := {
  gv_group : Group;
  gv_members : list Member;
  gv_suggestions : list Suggestion;
  gv_polls : gmap Z Poll
}.

Definition polls_of (group_id : Z) (st : Store) : gmap Z Poll :=
  filter (fun kv => p_group_id kv.2 = group_id) (polls st).

(** [GET /group/{code}] *)
Definition get_group (code : string) (st : Store) : Response GroupView :=
  match group_by_code code st with
  | None => HTTPException 404 "Group not found"
  | Some group =>
      Ok {| gv_group := group;
            gv_members := members_of (g_id group) st;
            gv_suggestions := suggestions_of (g_id group) st;
            gv_polls := polls_of (g_id group) st |}
  end.

Record CreateGroupRequest := {
  cg_name : string;
  cg_mood : option string;
  cg_budget_level : option string
}.

Definition add_group (g : Group) (st : Store) : Store :=
  {| groups := groups st ++ [g]; members := members st;
     suggestions := suggestions st; polls := polls st |}.

(** [POST /group]; [code] is the code [generate_code] drew and [new_id] the
    primary key the database gives the row.  The column [code] is declared
    unique: the commit of a row whose code is taken raises, which is the
    [None] here.  The body is the code, the link and the group row. *)
Definition create_group (base_url : string) (new_id : Z) (code : string)
    (req : CreateGroupRequest) (st : Store)
    : option (string * string * Group) * Store :=
  match group_by_code code st with
  | Some _ => (None, st)
  | None =>
      let group :=
        {| g_id := new_id; g_code := code; g_name := cg_name req;
           g_mood := cg_mood req; g_budget_level := cg_budget_level req |} in
      let link := (base_url ++ "/g/" ++ code)%string in
      (Some (code, link, group), add_group group st)
  end.

(* ===================================================================== *)
(** * Part II: theorems *)
(* ===================================================================== *)

(** ** Facts about the Python helpers *)

Lemma Qlt_bool_iff (a b : Q) : Py.Qlt_bool a b = true <-> (a < b)%Q.
Proof.
  unfold Py.Qlt_bool. rewrite negb_true_iff. split.
  - intros H. apply Qnot_le_lt. intros Hle.
    apply Qle_bool_iff in Hle. congruence.
  - intros H. destruct (Qle_bool b a) eqn:E; [|reflexivity].
    apply Qle_bool_iff in E. exfalso. exact (Qlt_not_le _ _ H E).
Qed.

Lemma Qlt_bool_false_iff (a b : Q) : Py.Qlt_bool a b = false <-> (b <= a)%Q.
Proof.
  unfold Py.Qlt_bool. rewrite negb_false_iff. apply Qle_bool_iff.
Qed.

Lemma Qle_bool_false_iff (a b : Q) : Qle_bool a b = false <-> (b < a)%Q.
Proof.
  split.
  - intros H. apply Qnot_le_lt. intros Hle.
    apply Qle_bool_iff in Hle. congruence.
  - intros H. destruct (Qle_bool a b) eqn:E; [|reflexivity].
    apply Qle_bool_iff in E. exfalso. exact (Qlt_not_le _ _ H E).
Qed.

Lemma Qeq_bool_false_iff (a b : Q) : Qeq_bool a b = false <-> ~ (a == b)%Q.
Proof.
  split.
  - intros H E. apply Qeq_bool_iff in E. congruence.
  - intros H. destruct (Qeq_bool a b) eqn:E; [|reflexivity].
    apply Qeq_bool_iff in E. contradiction.
Qed.

(** ** Scoring engine *)

Section Scoring.

Local Open Scope Q_scope.

Lemma limit_is_lookup (b : string) :
  default 2000%Z (budget_map b) = ScoreSpec.limit b.
Proof.
  unfold budget_map, ScoreSpec.limit.
  repeat (destruct (String.eqb b _); [reflexivity|]). reflexivity.
Qed.

Lemma limit_cases (b : string) :
  ScoreSpec.limit b = 1000%Z \/ ScoreSpec.limit b = 2000%Z
  \/ ScoreSpec.limit b = 4000%Z.
Proof.
  unfold ScoreSpec.limit.
  repeat (destruct (String.eqb b _); [tauto|]). tauto.
Qed.

Lemma budget_match_of_spec (p L : Z) :
  budget_match_of p L
  = if Qle_bool (inject_Z p) (inject_Z L) then 1
    else if Qle_bool (inject_Z p) (1.2 * inject_Z L) then 0.5 else 0.1.
Proof.
  unfold budget_match_of.
  assert (E1 : Qle_bool (inject_Z p) (inject_Z L) = (p <=? L)%Z).
  { destruct (p <=? L)%Z eqn:E.
    - apply Qle_bool_iff. rewrite <- Zle_Qle. lia.
    - apply Qle_bool_false_iff. rewrite <- Zlt_Qlt. lia. }
  rewrite E1.
  assert (E2 : Qle_bool (inject_Z p) (inject_Z L * 1.2)
               = Qle_bool (inject_Z p) (1.2 * inject_Z L)).
  { apply Qleb_comp; [reflexivity | ring]. }
  rewrite E2. reflexivity.
Qed.

(** A stored price of 0 is replaced by 1000, which no budget notices:
    every limit is at least 1000. *)
Lemma budget_match_price_or (s : Suggestion) (b : string) :
  budget_match_of (Py.int_or (price_estimate s) 1000) (ScoreSpec.limit b)
  = ScoreSpec.budgetMatch s b.
Proof.
  unfold ScoreSpec.budgetMatch, ScoreSpec.price, Py.int_or.
  rewrite <- budget_match_of_spec.
  destruct (price_estimate s) as [p|]; [|reflexivity].
  destruct (p =? 0)%Z eqn:E; [|reflexivity].
  apply Z.eqb_eq in E. subst p. unfold budget_match_of.
  destruct (limit_cases b) as [-> | [-> | ->]]; reflexivity.
Qed.

Lemma vote_score_spec (votes max_votes : Z) :
  (0 <= max_votes)%Z ->
  (if (0 <? max_votes)%Z then inject_Z votes / inject_Z max_votes else 0)
  = ScoreSpec.popularity votes max_votes.
Proof.
  intros H. unfold ScoreSpec.popularity.
  destruct (0 <? max_votes)%Z eqn:E1, (max_votes =? 0)%Z eqn:E2;
    try reflexivity; lia.
Qed.

Lemma proximity_score_spec (d max_d : Q) :
  0 <= max_d ->
  (if Py.Qlt_bool 0 max_d then Py.max 0 (1 - d / max_d) else 0.5)
  = ScoreSpec.proximity d max_d.
Proof.
  intros H. unfold ScoreSpec.proximity, Py.max.
  destruct (Py.Qlt_bool 0 max_d) eqn:E1.
  - apply Qlt_bool_iff in E1.
    destruct (Qeq_bool max_d 0) eqn:E2.
    + apply Qeq_bool_iff in E2. rewrite E2 in E1.
      exfalso. exact (Qlt_irrefl _ E1).
    + unfold Py.Qlt_bool. destruct (Qle_bool _ 0); reflexivity.
  - apply Qlt_bool_false_iff in E1.
    assert (E2 : Qeq_bool max_d 0 = true).
    { apply Qeq_bool_iff. apply Qle_antisym; assumption. }
    rewrite E2. reflexivity.
Qed.

Lemma calculate_score_unfold s b votes max_votes d max_d :
  calculate_score s b votes max_votes d max_d
  = Py.float_or (rating s) 3.5 / 5 * 0.5
    + budget_match_of (Py.int_or (price_estimate s) 1000) (ScoreSpec.limit b)
      * 0.2
    + (if (0 <? max_votes)%Z then inject_Z votes / inject_Z max_votes else 0)
      * 0.2
    + (if Py.Qlt_bool 0 max_d then Py.max 0 (1 - d / max_d) else 0.5) * 0.1.
Proof.
  unfold calculate_score. rewrite limit_is_lookup. reflexivity.
Qed.

(** The code's guards are [max_votes > 0] and [max_distance > 0]: below
    zero it takes the default branch, where the specification divides. *)
Lemma calculate_score_negative_max (s : Suggestion) (b : string)
    (votes max_votes : Z) (d max_d : Q) :
  (max_votes <= 0)%Z -> max_d <= 0 ->
  calculate_score s b votes max_votes d max_d
  == 0.5 * ScoreSpec.rating_sub s + 0.2 * ScoreSpec.budgetMatch s b + 0.05.
Proof.
  intros Hv Hd. rewrite calculate_score_unfold, budget_match_price_or.
  replace (0 <? max_votes)%Z with false by (symmetry; apply Z.ltb_ge; lia).
  replace (Py.Qlt_bool 0 max_d) with false
    by (symmetry; apply Qlt_bool_false_iff; assumption).
  unfold ScoreSpec.rating_sub. ring.
Qed.

(** C1 (as amended).  On non-negative maxima the score is the weighted sum
    0.5*(rating or 3.5)/5 + 0.2*budgetMatch + 0.2*popularity
    + 0.1*proximity, with the limit from low/medium/high (default 2000) and
    the price defaulting to 1000; a rating of 5, a price within budget,
    votes = maxVotes > 0 and distance 0 of a positive maximum score 1; an
    absent rating, a price above 1.2 times the limit, zero votes and a
    distance equal to a positive maximum score 0.37. *)
Theorem calculate_score_weighted_sum :
  (forall s b votes max_votes d max_d,
      (0 <= max_votes)%Z -> 0 <= max_d ->
      calculate_score s b votes max_votes d max_d
      == ScoreSpec.score s b votes max_votes d max_d)
  /\ (forall s b r votes max_d,
        rating s = Some r -> r == 5 ->
        (ScoreSpec.price s <= ScoreSpec.limit b)%Z ->
        (0 < votes)%Z -> 0 < max_d ->
        calculate_score s b votes votes 0 max_d == 1)
  /\ (forall s b max_votes d,
        rating s = None ->
        1.2 * inject_Z (ScoreSpec.limit b) < inject_Z (ScoreSpec.price s) ->
        0 < d ->
        calculate_score s b 0 max_votes d d == 0.37).
Proof.
  assert (Hsum : forall s b votes max_votes d max_d,
             (0 <= max_votes)%Z -> 0 <= max_d ->
             calculate_score s b votes max_votes d max_d
             == ScoreSpec.score s b votes max_votes d max_d).
  { intros s b votes max_votes d max_d Hv Hd.
    rewrite calculate_score_unfold, budget_match_price_or,
      vote_score_spec, proximity_score_spec by assumption.
    unfold ScoreSpec.score, ScoreSpec.rating_sub. ring. }
  split; [exact Hsum|]. split.
  - intros s b r votes max_d Hr Er Hp Hv Hd.
    rewrite Hsum by (try lia; apply Qlt_le_weak; assumption).
    unfold ScoreSpec.score, ScoreSpec.rating_sub, ScoreSpec.budgetMatch,
      ScoreSpec.popularity, ScoreSpec.proximity.
    rewrite Hr. cbn [Py.float_or].
    replace (Qeq_bool r 0) with false
      by (symmetry; apply Qeq_bool_false_iff; rewrite Er; discriminate).
    replace (Qle_bool (inject_Z (ScoreSpec.price s))
               (inject_Z (ScoreSpec.limit b))) with true
      by (symmetry; apply Qle_bool_iff; rewrite <- Zle_Qle; assumption).
    replace (votes =? 0)%Z with false by (symmetry; apply Z.eqb_neq; lia).
    replace (Qeq_bool max_d 0) with false
      by (symmetry; apply Qeq_bool_false_iff; intros E; rewrite E in Hd;
          exact (Qlt_irrefl _ Hd)).
    assert (Hq : 1 - 0 / max_d == 1) by (unfold Qdiv; ring).
    replace (Qle_bool (1 - 0 / max_d) 0) with false
      by (symmetry; apply Qle_bool_false_iff; rewrite Hq; reflexivity).
    rewrite Hq, Er.
    assert (Hvv : inject_Z votes / inject_Z votes == 1).
    { apply Qmult_inv_r. intros E.
      assert (votes = 0)%Z by (apply inject_Z_injective; exact E). lia. }
    rewrite Hvv. reflexivity.
  - intros s b max_votes d Hr Hp Hd.
    rewrite calculate_score_unfold, budget_match_price_or.
    unfold ScoreSpec.budgetMatch. rewrite Hr. cbn [Py.float_or].
    replace (Qle_bool (inject_Z (ScoreSpec.price s))
               (1.2 * inject_Z (ScoreSpec.limit b))) with false
      by (symmetry; apply Qle_bool_false_iff; assumption).
    replace (Qle_bool (inject_Z (ScoreSpec.price s))
               (inject_Z (ScoreSpec.limit b))) with false.
    2:{ symmetry. apply Qle_bool_false_iff.
        eapply Qle_lt_trans; [|exact Hp].
        assert (0 <= inject_Z (ScoreSpec.limit b)).
        { change 0 with (inject_Z 0). rewrite <- Zle_Qle.
          destruct (limit_cases b) as [-> | [-> | ->]]; lia. }
        lra. }
    replace (Py.Qlt_bool 0 d) with true
      by (symmetry; apply Qlt_bool_iff; assumption).
    assert (Hq : 1 - d / d == 0).
    { assert (d / d == 1).
      { apply Qmult_inv_r. intros E. rewrite E in Hd.
        exact (Qlt_irrefl _ Hd). }
      lra. }
    assert (Hm : Py.max 0 (1 - d / d) == 0).
    { unfold Py.max. destruct (Py.Qlt_bool 0 (1 - d / d)) eqn:E;
        [exact Hq | reflexivity]. }
    rewrite Hm.
    assert (Hvs : (if (0 <? max_votes)%Z
                   then inject_Z 0 / inject_Z max_votes else 0) == 0).
    { destruct (0 <? max_votes)%Z; [|reflexivity]. unfold Qdiv. ring. }
    rewrite Hvs. reflexivity.
Qed.

End Scoring.

(** Closes a goal between concrete rationals or integers by evaluation. *)
Ltac by_evaluation :=
  vm_compute; first [reflexivity | discriminate | congruence].

(** C1, the statement as written refuted: with no rating, a price above 1.2
    times the limit, zero votes and the distance at its positive maximum the
    score is not 0.36 (it is 0.5*0.7 + 0.2*0.1 = 0.37); and the weighted sum
    with its tests for zero is not the score when a maximum is negative,
    where the code takes the default branch. *)
Lemma score_far_over_budget_not_036 :
  (rating Sample.far_over_budget = None
   /\ (1.2 * inject_Z (ScoreSpec.limit "medium")
       < inject_Z (ScoreSpec.price Sample.far_over_budget))%Q
   /\ ~ (calculate_score Sample.far_over_budget "medium" 0 1 10 10 == 0.36)%Q)
  /\ ~ (calculate_score Sample.top_rated "medium" 1 (-1) 0 10
        == ScoreSpec.score Sample.top_rated "medium" 1 (-1) 0 10)%Q.
Proof.
  split; [split; [reflexivity|]; split; [by_evaluation|]|];
    intros H; vm_compute in H; discriminate H.
Qed.

(** C1 at concrete inputs: a mid-range request, the best case and the worst
    case. *)
Lemma calculate_score_weighted_sum_witness :
  (calculate_score Sample.top_rated "low" 2 3 4 8
   == ScoreSpec.score Sample.top_rated "low" 2 3 4 8)%Q
  /\ (calculate_score Sample.top_rated "medium" 3 3 0 10 == 1)%Q
  /\ (calculate_score Sample.far_over_budget "medium" 0 1 10 10 == 0.37)%Q.
Proof.
  destruct calculate_score_weighted_sum as [Hsum [Hbest Hworst]].
  split; [|split].
  - apply Hsum; [lia | by_evaluation].
  - apply (Hbest _ _ 5%Q); [reflexivity | reflexivity | by_evaluation | lia
                           | by_evaluation].
  - apply Hworst; [reflexivity | by_evaluation | by_evaluation].
Defined.

(** ** Price tiers and place normalisation *)

(** Tiers 1 to 4 are priced by the table, and an absent tier is priced as
    tier 1. *)
Lemma map_price_level_table :
  map_price_level_to_inr None = 700%Z
  /\ map_price_level_to_inr (Some 1%Z) = 700%Z
  /\ map_price_level_to_inr (Some 2%Z) = 1500%Z
  /\ map_price_level_to_inr (Some 3%Z) = 3000%Z
  /\ map_price_level_to_inr (Some 4%Z) = 4500%Z.
Proof. repeat split. Qed.

(** A tier outside the table is priced 1000. *)
Lemma map_price_level_unknown (t : Z) :
  (t < 0 \/ 4 < t)%Z -> map_price_level_to_inr (Some t) = 1000%Z.
Proof.
  intros H. unfold map_price_level_to_inr, Py.int_or, price_mapping.
  destruct (t =? 0)%Z eqn:E0; [lia|]. rewrite E0.
  destruct (t =? 1)%Z eqn:E1; [lia|].
  destruct (t =? 2)%Z eqn:E2; [lia|].
  destruct (t =? 3)%Z eqn:E3; [lia|].
  destruct (t =? 4)%Z eqn:E4; [lia|]. reflexivity.
Qed.

(** The rating of a normalised place is the provider's, or 4.0 when the
    provider omits it. *)
Lemma place_rating_default (group_id : Z) (place : Candidate) :
  rating (place_to_suggestion group_id place)
  = Some (match c_rating place with Some r => r | None => 4.0%Q end).
Proof. unfold place_to_suggestion. destruct (c_rating place); reflexivity. Qed.

(** C2, the code at the failing input: price tier 0 is priced 700, not the
    300 of the table, because [price_level or 1] turns tier 0 into tier 1;
    of the static places, the two tier-0 parks come out at 700. *)
Theorem price_tier_zero_priced_700 :
  price_mapping 0 = Some 300%Z
  /\ map_price_level_to_inr (Some 0%Z) = 700%Z
  /\ map (fun p => price_estimate (place_to_suggestion 1 p))
         (get_mock_places "chill" "low")
     = [Some 700%Z; Some 3000%Z; Some 700%Z; Some 700%Z].
Proof. repeat split. Qed.

(** ** Centroid *)

Section Centroid.

Local Open Scope Q_scope.

Lemma truthy_lats (members : list Member) :
  Forall plainly_located members ->
  omap location_lat
    (List.filter (fun m => Py.truthy_float (location_lat m)) members)
  = map fst (CentroidSpec.located members).
Proof.
  induction 1 as [|m l Hm _ IH]; [reflexivity|].
  unfold CentroidSpec.located in *.
  destruct m as [gid name [a|] [b|]]; unfold plainly_located in Hm;
    cbn in Hm; try contradiction; cbn.
  - destruct Hm as [Ha _]. apply Qeq_bool_false_iff in Ha. rewrite Ha.
    cbn. f_equal. exact IH.
  - exact IH.
Qed.

Lemma truthy_lngs (members : list Member) :
  Forall plainly_located members ->
  omap location_lng
    (List.filter (fun m => Py.truthy_float (location_lng m)) members)
  = map snd (CentroidSpec.located members).
Proof.
  induction 1 as [|m l Hm _ IH]; [reflexivity|].
  unfold CentroidSpec.located in *.
  destruct m as [gid name [a|] [b|]]; unfold plainly_located in Hm;
    cbn in Hm; try contradiction; cbn.
  - destruct Hm as [_ Hb]. apply Qeq_bool_false_iff in Hb. rewrite Hb.
    cbn. f_equal. exact IH.
  - exact IH.
Qed.

(** Away from zero coordinates and half-known positions the code computes
    the specified centroid: the mean of the located members, the default
    location when there is none. *)
Lemma centroid_is_mean (members : list Member) :
  Forall plainly_located members ->
  centroid members = CentroidSpec.centroid members.
Proof.
  intros H. unfold centroid, CentroidSpec.centroid, CentroidSpec.mean.
  rewrite (truthy_lats _ H), (truthy_lngs _ H).
  destruct (CentroidSpec.located members); reflexivity.
Qed.

Lemma sum_replicate (n : nat) (a acc : Q) :
  fold_left Qplus (replicate n a) acc == acc + inject_Z (Z.of_nat n) * a.
Proof.
  revert acc. induction n as [|n IH]; intros acc.
  - cbn. ring.
  - cbn [replicate fold_left]. rewrite IH.
    rewrite Nat2Z.inj_succ. unfold Z.succ. rewrite inject_Z_plus. ring.
Qed.

Lemma mean_replicate (n : nat) (a : Q) :
  CentroidSpec.mean (replicate (S n) a) == a.
Proof.
  unfold CentroidSpec.mean, Py.sum, Py.len.
  rewrite sum_replicate, length_replicate. field.
  intros E. change 0 with (inject_Z 0) in E.
  rewrite inject_Z_injective in E. lia.
Qed.

Lemma map_replicate {A B} (f : A -> B) (n : nat) (x : A) :
  map f (replicate n x) = replicate n (f x).
Proof. induction n as [|n IH]; [reflexivity|]. cbn. f_equal. exact IH. Qed.

Lemma located_replicate (n : nat) (a b : Q) :
  CentroidSpec.located (replicate n (Sample.member (Some a) (Some b)))
  = replicate n (a, b).
Proof.
  unfold CentroidSpec.located.
  induction n as [|n IH]; [reflexivity|]. cbn. f_equal. exact IH.
Qed.

(** Any number of members at one point with non-zero coordinates have that
    point as their centroid. *)
Lemma centroid_same_point (n : nat) (a b : Q) :
  ~ a == 0 -> ~ b == 0 ->
  let c := centroid (replicate (S n) (Sample.member (Some a) (Some b))) in
  fst c == a /\ snd c == b.
Proof.
  intros Ha Hb c. subst c. rewrite centroid_is_mean.
  - unfold CentroidSpec.centroid. rewrite located_replicate.
    cbn [replicate fst snd map]. rewrite !map_replicate. cbn [fst snd].
    split; apply (mean_replicate n).
  - apply Forall_replicate. unfold plainly_located. cbn. tauto.
Qed.

(** No located member at all: the default location. *)
Lemma centroid_nobody_located (members : list Member) :
  Forall (fun m => location_lat m = None /\ location_lng m = None) members ->
  centroid members = (DEFAULT_LAT, DEFAULT_LNG).
Proof.
  intros H. unfold centroid.
  assert (E : List.filter (fun m => Py.truthy_float (location_lat m)) members
              = []
              /\ List.filter (fun m => Py.truthy_float (location_lng m))
                   members = []).
  { induction H as [|m l [Hlat Hlng] _ IH]; [split; reflexivity|].
    cbn. rewrite Hlat, Hlng. exact IH. }
  destruct E as [-> ->]. reflexivity.
Qed.

(** C4, the code at the failing inputs: a coordinate equal to 0.0 is
    dropped by the truth test of the comprehension.  One member on the
    equator at longitude 10 yields the default latitude, where the mean is
    0; members at (0, 0) yield the default location, where the common
    point is (0, 0). *)
Theorem centroid_drops_zero_coordinates :
  (fst (centroid [Sample.on_equator]) == DEFAULT_LAT
   /\ snd (centroid [Sample.on_equator]) == 10
   /\ fst (CentroidSpec.centroid [Sample.on_equator]) == 0
   /\ snd (CentroidSpec.centroid [Sample.on_equator]) == 10)
  /\ (centroid [Sample.at_origin; Sample.at_origin]
      = (DEFAULT_LAT, DEFAULT_LNG)
      /\ CentroidSpec.located [Sample.at_origin; Sample.at_origin]
         = [(0, 0); (0, 0)]).
Proof. repeat split. Qed.

End Centroid.

(** ** Haversine distance *)

Section Haversine.

Local Open Scope R_scope.

Lemma haversine_term_even (x y : R) :
  sin (radians (x - y) / 2) ^ 2 = sin (radians (y - x) / 2) ^ 2.
Proof.
  replace (radians (x - y) / 2) with (- (radians (y - x) / 2))
    by (unfold radians; field).
  rewrite sin_neg. ring.
Qed.

Lemma atan2_0_1 : atan2 0 1 = 0.
Proof.
  unfold atan2. destruct (Rlt_dec 0 1) as [_|H]; [|exfalso; lra].
  replace (0 / 1) with 0 by field. apply atan_0.
Qed.

(** C9.  The distance is a function of the four coordinates alone, it is
    symmetric in the two points, and it is exactly zero when they
    coincide. *)
Theorem calculate_distance_symmetric_zero :
  (forall lat1 lng1 lat2 lng2,
      calculate_distance lat1 lng1 lat2 lng2
      = calculate_distance lat2 lng2 lat1 lng1)
  /\ (forall lat lng, calculate_distance lat lng lat lng = 0).
Proof.
  split.
  - intros lat1 lng1 lat2 lng2. unfold calculate_distance.
    rewrite (haversine_term_even lat2 lat1), (haversine_term_even lng2 lng1).
    rewrite (Rmult_comm (cos (radians lat1)) (cos (radians lat2))).
    reflexivity.
  - intros lat lng. unfold calculate_distance.
    replace (radians (lat - lat) / 2) with 0 by (unfold radians; field).
    replace (radians (lng - lng) / 2) with 0 by (unfold radians; field).
    rewrite sin_0.
    replace (0 ^ 2 + cos (radians lat) * cos (radians lat) * 0 ^ 2) with 0
      by ring.
    rewrite sqrt_0, Rminus_0_r, sqrt_1, atan2_0_1. ring.
Qed.

End Haversine.

(** ** Poll and voting store *)

Section Voting.

Implicit Types (st : Store) (poll : Poll) (req : VoteRequest).

Lemma dict_truthy_empty : dict_truthy ∅ = false.
Proof. reflexivity. Qed.

Lemma dict_truthy_nonempty (votes : gmap string (list VoteEntry)) :
  votes <> ∅ -> dict_truthy votes = true.
Proof.
  intros H. unfold dict_truthy. rewrite bool_decide_eq_false_2 by exact H.
  reflexivity.
Qed.

Lemma vote_poll_missing code poll_id req st :
  polls st !! poll_id = None ->
  vote_poll code poll_id req st = (HTTPException 404 "Poll not found", st).
Proof. intros H. unfold vote_poll. rewrite H. reflexivity. Qed.

(** The first vote on a poll, whose ledger is empty, is stored: the new
    dict differs from the loaded one. *)
Lemma vote_poll_first code poll_id req st poll :
  polls st !! poll_id = Some poll ->
  p_votes poll = ∅ ->
  vote_poll code poll_id req st
  = (Ok (set_votes poll
           {[ option_id req :=
                [ {| ve_member_id := member_id req; ve_emoji := emoji req |} ] ]}),
     put_poll poll_id
       (set_votes poll
          {[ option_id req :=
               [ {| ve_member_id := member_id req; ve_emoji := emoji req |} ] ]})
       st).
Proof.
  intros H Hempty. unfold vote_poll. rewrite H. cbv zeta.
  rewrite Hempty, dict_truthy_empty. cbv iota.
  rewrite lookup_empty. cbv iota.
  assert (E : alter
                (fun l => l ++ [ {| ve_member_id := member_id req;
                                    ve_emoji := emoji req |} ])
                (option_id req)
                (<[option_id req := []]> (∅ : gmap string (list VoteEntry)))
              = {[ option_id req :=
                     [ {| ve_member_id := member_id req;
                          ve_emoji := emoji req |} ] ]}).
  { apply map_eq. intros k. destruct (decide (k = option_id req)) as [->|Hne].
    - rewrite lookup_alter_eq, lookup_insert_eq, lookup_singleton_eq.
      reflexivity.
    - rewrite lookup_alter_ne, lookup_insert_ne, lookup_singleton_ne
        by congruence.
      reflexivity. }
  rewrite E. unfold commit_votes.
  rewrite bool_decide_eq_false_2 by apply insert_non_empty.
  cbn [polls put_poll]. rewrite lookup_insert_eq. reflexivity.
Qed.

(** A vote on a ledger that is not empty changes the loaded dict in place
    and assigns it back: nothing is written, and the answer is the stored
    poll as it was. *)
Lemma vote_poll_later code poll_id req st poll :
  polls st !! poll_id = Some poll ->
  p_votes poll <> ∅ ->
  vote_poll code poll_id req st = (Ok poll, st).
Proof.
  intros H Hne. unfold vote_poll. rewrite H. cbv zeta.
  rewrite (dict_truthy_nonempty _ Hne). cbv iota. unfold commit_votes.
  rewrite bool_decide_eq_true_2 by reflexivity. rewrite H. reflexivity.
Qed.

Lemma vote_poll_any_code code code' poll_id req st :
  vote_poll code poll_id req st = vote_poll code' poll_id req st.
Proof. reflexivity. Qed.

(** C7, the code at the failing input: the second vote on a poll.  Poll 7
    holds one entry under "opt1"; a vote by member 2 for "opt1" is answered
    with the poll as it was and the store is left as it was, so the entry
    is not appended.  The vote is lost because the loaded ledger is changed
    in place and assigned back, which the commit does not see as a change.
    The first vote on a new poll, whose ledger is empty, is stored, and a
    vote on the unknown poll id 9 is refused with 404 and no change. *)
Theorem vote_poll_loses_second_vote :
  p_votes SampleStore.where_to_go !! "opt1"%string
  = Some [ {| ve_member_id := 1; ve_emoji := "+1" |} ]
  /\ vote_poll "ABC123" 7 SampleStore.second_vote SampleStore.store
     = (Ok SampleStore.where_to_go, SampleStore.store)
  /\ (vote_poll "ABC123" 8 SampleStore.second_vote
        (create_poll 8 "ABC123" SampleRuns.lunch SampleStore.store).2).1
     = Ok {| p_group_id := 1; p_title := "Lunch?";
             p_options := cp_options SampleRuns.lunch;
             p_votes :=
               {[ "opt1"%string :=
                    [ {| ve_member_id := 2; ve_emoji := "heart" |} ] ]} |}
  /\ vote_poll "ABC123" 9 SampleStore.second_vote SampleStore.store
     = (HTTPException 404 "Poll not found", SampleStore.store).
Proof.
  split; [reflexivity|]. split.
  - apply vote_poll_later; [reflexivity|].
    intros E. apply (f_equal (fun m => m !! "opt1"%string)) in E.
    discriminate E.
  - split.
    + rewrite (vote_poll_first _ _ _ _
                 {| p_group_id := 1; p_title := "Lunch?";
                    p_options := cp_options SampleRuns.lunch;
                    p_votes := ∅ |}); reflexivity.
    + apply vote_poll_missing. reflexivity.
Qed.

(** C10, the code at the failing input.  The group code is never read: a
    vote is handled alike under every code.  Through the code "NOSUCH",
    which names no group, a vote on poll 7 is answered with success; but
    the poll's ledger is not empty, so the ledger is not changed: the
    answer is the poll as it was and the store is as it was. *)
Theorem vote_poll_any_code_loses_vote :
  (forall code code' poll_id req st,
      vote_poll code poll_id req st = vote_poll code' poll_id req st)
  /\ group_by_code "NOSUCH" SampleStore.store = None
  /\ vote_poll "NOSUCH" 7 SampleStore.stray_vote SampleStore.store
     = (Ok SampleStore.where_to_go, SampleStore.store)
  /\ p_votes SampleStore.where_to_go !! option_id SampleStore.stray_vote
     = None.
Proof.
  split; [intros; apply vote_poll_any_code|]. split; [reflexivity|].
  split; [|reflexivity].
  apply vote_poll_later; [reflexivity|].
  intros E. apply (f_equal (fun m => m !! "opt1"%string)) in E.
  discriminate E.
Qed.

End Voting.

(** ** Candidate fetch: fallback and cache writes *)

(** Reading the cache never adds or changes an entry: at most the expired
    entry of the key is evicted. *)
Lemma get_cached_shrinks key now (cache : Cache) k v :
  (get_cached key now cache).2 !! k = Some v -> cache !! k = Some v.
Proof.
  unfold get_cached. destruct (cache !! key) as [[data ts]|] eqn:E; cbn.
  - destruct (Py.Qlt_bool (now - ts) CACHE_TTL); cbn; [tauto|].
    intros H. apply lookup_delete_Some in H. tauto.
  - tauto.
Qed.

Section AdapterFacts.

Variable md5 : string -> string.
Variable str_float : Q -> string.

Implicit Types (w : World) (cache : Cache).

Lemma fetch_google_places_no_key w mood budget_level lat lng cache :
  Py.truthy_str (GOOGLE_PLACES_KEY w) = false ->
  fetch_google_places md5 str_float w mood budget_level lat lng cache
  = (get_mock_places mood budget_level, cache).
Proof. intros H. unfold fetch_google_places. rewrite H. reflexivity. Qed.

Lemma fetch_tmdb_movies_no_key w mood cache :
  Py.truthy_str (TMDB_API_KEY w) = false ->
  fetch_tmdb_movies md5 w mood cache = (get_mock_movies mood, cache).
Proof.
  clear str_float. intros H. unfold fetch_tmdb_movies. rewrite H.
  reflexivity.
Qed.

Lemma fetch_google_places_writes w mood budget_level lat lng cache k v :
  (fetch_google_places md5 str_float w mood budget_level lat lng cache).2
    !! k = Some v ->
  cache !! k = Some v
  \/ exists results,
      places_live_success str_float w mood lat lng results
      /\ k = get_cache_key md5 "places"
               [mood; budget_level; str_float lat; str_float lng]
      /\ v = (take 10 results, now_write w)
      /\ (fetch_google_places md5 str_float w mood budget_level lat lng
            cache).1 = take 10 results.
Proof.
  unfold fetch_google_places, places_live_success.
  destruct (Py.truthy_str (GOOGLE_PLACES_KEY w)) eqn:Ekey; cbn [negb];
    [|cbn; tauto].
  set (key := get_cache_key md5 "places" _).
  pose proof (get_cached_shrinks key (now_read w) cache k v) as Hread.
  destruct (get_cached key (now_read w) cache) as [cached cache1].
  cbn in Hread.
  destruct (places_api w _ _) as [|[status|] [results|]] eqn:Eapi;
    destruct cached as [[|c data]|]; cbn; auto.
  all: destruct (String.eqb status "OK") eqn:Es; cbn; auto.
  all: apply String.eqb_eq in Es; subst status; unfold set_cache; intros H.
  all: destruct (decide (k = key)) as [->|Hne];
    [ rewrite lookup_insert_eq in H; injection H as <-;
      right; exists results; auto
    | rewrite lookup_insert_ne in H by congruence; auto ].
Qed.

Lemma fetch_tmdb_movies_writes w mood cache k v :
  (fetch_tmdb_movies md5 w mood cache).2 !! k = Some v ->
  cache !! k = Some v
  \/ exists results,
      movies_live_success w mood results
      /\ k = get_cache_key md5 "movies" [mood]
      /\ v = (take 10 results, now_write w)
      /\ (fetch_tmdb_movies md5 w mood cache).1 = take 10 results.
Proof.
  clear str_float. unfold fetch_tmdb_movies, movies_live_success.
  destruct (Py.truthy_str (TMDB_API_KEY w)) eqn:Ekey; cbn [negb];
    [|cbn; tauto].
  set (key := get_cache_key md5 "movies" _).
  pose proof (get_cached_shrinks key (now_read w) cache k v) as Hread.
  destruct (get_cached key (now_read w) cache) as [cached cache1].
  cbn in Hread.
  destruct (tmdb_api w _) as [|status [results|]] eqn:Eapi;
    destruct cached as [[|c data]|]; cbn; auto.
  all: unfold set_cache; intros H.
  all: destruct (decide (k = key)) as [->|Hne];
    [ rewrite lookup_insert_eq in H; injection H as <-;
      right; exists results; eauto 10
    | rewrite lookup_insert_ne in H by congruence; auto ].
Qed.

End AdapterFacts.

(** C8.  With no credential configured (the variable unset or empty) each
    fetch returns the static dataset of its kind and hands the cache back
    unchanged; and whatever the configuration, an entry found in the cache
    after a fetch was there before, or the fetch was a successful live one
    and the entry is the one it stored. *)
Theorem fetch_fallback_and_cache_writes :
  forall (md5 : string -> string) (str_float : Q -> string) (w : World)
         (mood budget_level : string) (lat lng : Q) (cache : Cache),
    (Py.truthy_str (GOOGLE_PLACES_KEY w) = false ->
     fetch_google_places md5 str_float w mood budget_level lat lng cache
     = (get_mock_places mood budget_level, cache))
    /\ (Py.truthy_str (TMDB_API_KEY w) = false ->
        fetch_tmdb_movies md5 w mood cache = (get_mock_movies mood, cache))
    /\ (forall k v,
          (fetch_google_places md5 str_float w mood budget_level lat lng
             cache).2 !! k = Some v ->
          cache !! k = Some v
          \/ exists results,
              places_live_success str_float w mood lat lng results
              /\ k = get_cache_key md5 "places"
                       [mood; budget_level; str_float lat; str_float lng]
              /\ v = (take 10 results, now_write w)
              /\ (fetch_google_places md5 str_float w mood budget_level
                    lat lng cache).1 = take 10 results)
    /\ (forall k v,
          (fetch_tmdb_movies md5 w mood cache).2 !! k = Some v ->
          cache !! k = Some v
          \/ exists results,
              movies_live_success w mood results
              /\ k = get_cache_key md5 "movies" [mood]
              /\ v = (take 10 results, now_write w)
              /\ (fetch_tmdb_movies md5 w mood cache).1 = take 10 results).
Proof.
  intros. split; [apply fetch_google_places_no_key|].
  split; [apply fetch_tmdb_movies_no_key|].
  split; [apply fetch_google_places_writes | apply fetch_tmdb_movies_writes].
Qed.

(** ** Cache keys *)

Section CacheKeys.

Local Open Scope string_scope.

(** A text without the separator, followed by the separator, can be read
    back off the front of a joined text. *)
Lemma append_nil (x : string) : EmptyString ++ x = x.
Proof. reflexivity. Qed.

Lemma append_cons (c : ascii) (a x : string) :
  String c a ++ x = String c (a ++ x).
Proof. reflexivity. Qed.

Lemma split_at_bar (a a' r r' : string) :
  no_bar a = true -> no_bar a' = true ->
  a ++ "|" ++ r = a' ++ "|" ++ r' -> a = a' /\ r = r'.
Proof.
  revert a'. induction a as [|c a IH]; intros [|c' a'] Ha Ha' E;
    repeat (rewrite append_nil in E || rewrite append_cons in E).
  - injection E as ->. split; reflexivity.
  - injection E as <- _. cbn in Ha'. discriminate Ha'.
  - injection E as -> _. cbn in Ha. discriminate Ha.
  - injection E as -> E. cbn in Ha, Ha'.
    apply andb_true_iff in Ha as [_ Ha]. apply andb_true_iff in Ha' as [_ Ha'].
    destruct (IH a' Ha Ha' E) as [-> ->]. split; reflexivity.
Qed.

Lemma places_content (mood budget_level slat slng : string) :
  cache_key_content "places" [mood; budget_level; slat; slng]
  = "places:" ++ mood ++ "|" ++ budget_level ++ "|" ++ slat ++ "|" ++ slng.
Proof. reflexivity. Qed.

Lemma movies_content (mood : string) :
  cache_key_content "movies" [mood] = "movies:" ++ mood.
Proof. reflexivity. Qed.

Lemma places_content_inj (m b x y m' b' x' y' : string) :
  no_bar m = true -> no_bar b = true -> no_bar x = true ->
  no_bar m' = true -> no_bar b' = true -> no_bar x' = true ->
  cache_key_content "places" [m; b; x; y]
  = cache_key_content "places" [m'; b'; x'; y'] ->
  m = m' /\ b = b' /\ x = x' /\ y = y'.
Proof.
  intros Hm Hb Hx Hm' Hb' Hx' E. rewrite !places_content in E.
  repeat (rewrite append_nil in E || rewrite append_cons in E).
  injection E as E.
  apply split_at_bar in E as [-> E]; [|assumption..].
  apply split_at_bar in E as [-> E]; [|assumption..].
  apply split_at_bar in E as [-> ->]; [|assumption..].
  repeat split.
Qed.

(** The join is ambiguous when a parameter holds the separator: these two
    place requests differ in mood and in budget level and share a key,
    whatever the digest. *)
Lemma places_key_separator_clash (md5 : string -> string) (slat slng : string) :
  get_cache_key md5 "places" ["a|b"; "c"; slat; slng]
  = get_cache_key md5 "places" ["a"; "b|c"; slat; slng].
Proof. reflexivity. Qed.

(** Movie requests are keyed by the mood alone. *)
Lemma movie_key_mood_only (md5 : string -> string) (str_float : Q -> string)
    (mood b b' : string) (lat lng lat' lng' : Q) :
  fetch_cache_key md5 str_float "tmdb" mood b lat lng
  = fetch_cache_key md5 str_float "tmdb" mood b' lat' lng'.
Proof. reflexivity. Qed.

End CacheKeys.

(** C3, the statement as written refuted: it is not the case that two
    fetches of one kind that differ in one of mood, budget level, latitude
    and longitude always have different keys.  Two movie fetches for the
    mood "chill", one for a low budget at (0, 0) and one for a high budget
    at (1, 1), have the same key. *)
Lemma movie_fetches_share_cache_key :
  ~ (forall (md5 : string -> string) (str_float : Q -> string)
            (source mood b mood' b' : string) (lat lng lat' lng' : Q)
            (k k' : string),
        fetch_cache_key md5 str_float source mood b lat lng = Some k ->
        fetch_cache_key md5 str_float source mood' b' lat' lng' = Some k' ->
        mood <> mood' \/ b <> b' \/ ~ (lat == lat')%Q \/ ~ (lng == lng')%Q ->
        k <> k').
Proof.
  intros H.
  refine (H (fun s => s) (fun _ => "0.0"%string) "tmdb"%string
            "chill"%string "low"%string "chill"%string "high"%string
            0%Q 0%Q 1%Q 1%Q _ _ eq_refl eq_refl _ eq_refl).
  right. left. discriminate.
Qed.

(** C3 (as amended).  The key is the digest of a text built from the
    request: for a movie fetch the text is "movies:" and the mood, so movie
    fetches for one mood share their key whatever the budget level and the
    location; for a place fetch it is "places:" and the mood, the budget
    level, the latitude and the longitude joined by '|', and two place
    fetches whose mood, budget level and printed latitude hold no '|' and
    which differ in the mood, the budget level or the printed latitude or
    longitude have different texts.  A place text is never a movie text. *)
Theorem cache_key_parameters :
  forall (md5 : string -> string) (str_float : Q -> string),
    (forall mood b lat lng,
        fetch_cache_key md5 str_float "tmdb" mood b lat lng
        = Some (md5 ("movies:" ++ mood)%string))
    /\ (forall mood b b' lat lng lat' lng',
          fetch_cache_key md5 str_float "tmdb" mood b lat lng
          = fetch_cache_key md5 str_float "tmdb" mood b' lat' lng')
    /\ (forall mood b lat lng,
          fetch_cache_key md5 str_float "google" mood b lat lng
          = Some (md5 (cache_key_content "places"
                         [mood; b; str_float lat; str_float lng])))
    /\ (forall mood b lat lng mood' b' lat' lng',
          no_bar mood = true -> no_bar b = true ->
          no_bar (str_float lat) = true ->
          no_bar mood' = true -> no_bar b' = true ->
          no_bar (str_float lat') = true ->
          mood <> mood' \/ b <> b' \/ str_float lat <> str_float lat'
          \/ str_float lng <> str_float lng' ->
          cache_key_content "places"
            [mood; b; str_float lat; str_float lng]
          <> cache_key_content "places"
               [mood'; b'; str_float lat'; str_float lng'])
    /\ (forall mood b slat slng mood',
          cache_key_content "places" [mood; b; slat; slng]
          <> cache_key_content "movies" [mood']).
Proof.
  intros md5 str_float. split; [reflexivity|]. split; [reflexivity|].
  split; [reflexivity|]. split.
  - intros mood b lat lng mood' b' lat' lng' Hm Hb Hx Hm' Hb' Hx' Hdiff E.
    apply places_content_inj in E; [|assumption..].
    destruct E as (E1 & E2 & E3 & E4). tauto.
  - intros mood b slat slng mood' E. unfold cache_key_content in E.
    rewrite !append_cons in E. discriminate E.
Qed.

(** ** Stable descending sort *)

Section StableSort.

Context {A : Type} (key : A -> Q).

Local Open Scope Q_scope.

Lemma insert_desc_perm (x : A) (l : list A) :
  Permutation (Py.insert_desc key x l) (x :: l).
Proof.
  induction l as [|y l IH]; cbn; [reflexivity|].
  destruct (Py.Qlt_bool (key x) (key y)); [|reflexivity].
  rewrite IH. apply perm_swap.
Qed.


Lemma insert_desc_sorted (x : A) (l : list A) :
  StronglySorted (descending key) l ->
  StronglySorted (descending key) (Py.insert_desc key x l).
Proof.
  induction 1 as [|y l Hl IH Hy]; cbn.
  - constructor; constructor.
  - destruct (Py.Qlt_bool (key x) (key y)) eqn:E.
    + apply Qlt_bool_iff in E. constructor; [exact IH|].
      eapply Permutation_Forall; [symmetry; apply insert_desc_perm|].
      constructor; [|exact Hy]. unfold descending.
      apply Qlt_le_weak. exact E.
    + apply Qlt_bool_false_iff in E.
      constructor; [constructor; assumption|].
      constructor; [exact E|].
      eapply Forall_impl; [exact Hy|]. unfold descending. cbn.
      intros z Hz. eapply Qle_trans; eassumption.
Qed.

Lemma sort_desc_sorted (l : list A) :
  StronglySorted (descending key) (Py.sort_desc key l).
Proof.
  induction l as [|x l IH]; cbn; [constructor|].
  apply insert_desc_sorted. exact IH.
Qed.

(** Insertion passes only strictly larger keys, so among equal keys the
    inserted element comes first. *)
Lemma with_key_insert_desc (q : Q) (x : A) (l : list A) :
  with_key key q (Py.insert_desc key x l) = with_key key q (x :: l).
Proof.
  induction l as [|y l IH]; [reflexivity|]. cbn [Py.insert_desc].
  destruct (Py.Qlt_bool (key x) (key y)) eqn:E; [|reflexivity].
  apply Qlt_bool_iff in E. unfold with_key in *. cbn [List.filter] in *.
  rewrite IH.
  destruct (Qeq_bool (key x) q) eqn:Ex; [|reflexivity].
  destruct (Qeq_bool (key y) q) eqn:Ey; [|reflexivity].
  apply Qeq_bool_iff in Ex, Ey. rewrite Ex, Ey in E.
  exfalso. exact (Qlt_irrefl _ E).
Qed.

Lemma with_key_sort_desc (q : Q) (l : list A) :
  with_key key q (Py.sort_desc key l) = with_key key q l.
Proof.
  induction l as [|x l IH]; [reflexivity|]. cbn [Py.sort_desc].
  rewrite with_key_insert_desc. unfold with_key in *. cbn [List.filter].
  rewrite IH. reflexivity.
Qed.

Lemma sort_desc_stable (l : list A) :
  stable_sorted_desc key l (Py.sort_desc key l).
Proof. split; [apply sort_desc_sorted | intros q; apply with_key_sort_desc]. Qed.

Lemma with_key_head (x : A) (l : list A) :
  with_key key (key x) (x :: l) = x :: with_key key (key x) l.
Proof.
  unfold with_key. cbn [List.filter].
  replace (Qeq_bool (key x) (key x)) with true; [reflexivity|].
  symmetry. apply Qeq_bool_iff. reflexivity.
Qed.

Lemma with_key_In (q : Q) (x : A) (l : list A) :
  In x (with_key key q l) -> In x l.
Proof. unfold with_key. intros H. apply filter_In in H. tauto. Qed.

(** The contract determines the result: two descending lists with the
    same elements in the same order under every key are equal.  So the
    insertion sort of the model returns the list every stable sort
    returns. *)
Lemma stable_sorted_desc_unique (l1 l2 : list A) :
  StronglySorted (descending key) l1 ->
  StronglySorted (descending key) l2 ->
  (forall q, with_key key q l1 = with_key key q l2) ->
  l1 = l2.
Proof.
  intros H1. revert l2. induction H1 as [|x l1 Hl1 IH Hx]; intros l2 H2 Heq.
  - destruct l2 as [|y l2]; [reflexivity|].
    specialize (Heq (key y)). rewrite with_key_head in Heq. discriminate Heq.
  - destruct H2 as [|y l2 Hl2 Hy].
    { specialize (Heq (key x)). rewrite with_key_head in Heq.
      discriminate Heq. }
    assert (Hxy : key x <= key y).
    { pose proof (Heq (key x)) as E. rewrite with_key_head in E.
      assert (Hin : In x (y :: l2)).
      { apply (with_key_In (key x)). rewrite <- E. left. reflexivity. }
      destruct Hin as [->|Hin]; [apply Qle_refl|].
      rewrite Forall_forall in Hy.
      apply Hy, list_elem_of_In. exact Hin. }
    assert (Hyx : key y <= key x).
    { pose proof (Heq (key y)) as E. rewrite (with_key_head y) in E.
      assert (Hin : In y (x :: l1)).
      { apply (with_key_In (key y)). rewrite E. left. reflexivity. }
      destruct Hin as [->|Hin]; [apply Qle_refl|].
      rewrite Forall_forall in Hx.
      apply Hx, list_elem_of_In. exact Hin. }
    assert (Ekey : key y == key x) by (apply Qle_antisym; assumption).
    assert (x = y).
    { pose proof (Heq (key x)) as E. rewrite with_key_head in E.
      unfold with_key in E. cbn [List.filter] in E.
      replace (Qeq_bool (key y) (key x)) with true in E
        by (symmetry; apply Qeq_bool_iff; exact Ekey).
      congruence. }
    subst y. f_equal. apply IH; [exact Hl2|].
    intros q. specialize (Heq q). unfold with_key in *.
    cbn [List.filter] in Heq.
    destruct (Qeq_bool (key x) q); congruence.
Qed.

Lemma stable_sort_is_sort_desc (l sorted : list A) :
  stable_sorted_desc key l sorted -> sorted = Py.sort_desc key l.
Proof.
  intros [Hs Hk]. apply stable_sorted_desc_unique;
    [exact Hs | apply sort_desc_sorted|].
  intros q. rewrite Hk, with_key_sort_desc. reflexivity.
Qed.

End StableSort.

(** ** Order of binary64 numbers *)

Section Binary64Order.

Local Open Scope float_scope.

Ltac compare_cases :=
  repeat match goal with
         | s : bool |- _ => destruct s
         end;
  cbn; try (intros; reflexivity); try (intros; discriminate);
  change (Pos.compare_cont Eq) with Pos.compare;
  repeat match goal with
         | |- context [(?a ?= ?b)%Z] => destruct (Z.compare_spec a b)
         | |- context [(?a ?= ?b)%positive] =>
             destruct (Pos.compare_spec a b)
         end;
  cbn; intros; try reflexivity; try discriminate; try lia.

Ltac by_spec_float :=
  unfold Binary64.is_number;
  rewrite ?FloatAxioms.ltb_spec, ?FloatAxioms.leb_spec,
    ?FloatAxioms.eqb_spec;
  repeat match goal with
         | |- context [Prim2SF ?x] => generalize (Prim2SF x); intro
         end;
  unfold SFltb, SFleb, SFeqb;
  repeat match goal with
         | f : spec_float |- _ => destruct f
         end;
  compare_cases.

Lemma binary64_ltb_leb (x y : float) : (x <? y) = true -> (x <=? y) = true.
Proof. by_spec_float. Qed.

Lemma binary64_leb_total (x y : float) :
  Binary64.is_number x = true -> Binary64.is_number y = true ->
  (x <? y) = false -> (y <=? x) = true.
Proof. by_spec_float. Qed.

Lemma binary64_leb_trans (x y z : float) :
  (x <=? y) = true -> (y <=? z) = true -> (x <=? z) = true.
Proof. by_spec_float. Qed.

Lemma binary64_ltb_eqb_apart (x y q : float) :
  (x <? y) = true -> (x =? q) = true -> (y =? q) = true -> False.
Proof. by_spec_float. Qed.

Lemma binary64_eqb_of_leb (x y : float) :
  (x <=? y) = true -> (y <=? x) = true -> (x =? y) = true.
Proof. by_spec_float. Qed.

Lemma binary64_eqb_is_number (x q : float) :
  (x =? q) = true -> Binary64.is_number x = true.
Proof. by_spec_float. Qed.

Lemma binary64_eqb_trans (x y z : float) :
  (x =? y) = true -> (y =? z) = true -> (x =? z) = true.
Proof. by_spec_float. Qed.

Lemma binary64_eqb_sym (x y : float) : (x =? y) = (y =? x).
Proof. by_spec_float. Qed.

End Binary64Order.

(** ** Stable descending sort on binary64 keys *)

Section Binary64Sort.

Context {A : Type} (key : A -> float).

Local Open Scope float_scope.

Lemma binary64_insert_desc_perm (x : A) (l : list A) :
  Permutation (Binary64.insert_desc key x l) (x :: l).
Proof.
  induction l as [|y l IH]; cbn; [reflexivity|].
  destruct (key x <? key y); [|reflexivity].
  rewrite IH. apply perm_swap.
Qed.

Lemma binary64_sort_desc_perm (l : list A) :
  Permutation (Binary64.sort_desc key l) l.
Proof.
  induction l as [|x l IH]; cbn; [reflexivity|].
  rewrite binary64_insert_desc_perm. apply perm_skip. exact IH.
Qed.

Lemma binary64_insert_desc_sorted (x : A) (l : list A) :
  Binary64.is_number (key x) = true ->
  Forall (fun x => Binary64.is_number (key x) = true) l ->
  StronglySorted (Binary64.descending key) l ->
  StronglySorted (Binary64.descending key) (Binary64.insert_desc key x l).
Proof.
  intros Hx Hn Hs. induction Hs as [|y l Hl IH Hy]; cbn.
  - constructor; constructor.
  - apply Forall_cons_1 in Hn as [Hny Hn].
    destruct (key x <? key y) eqn:E.
    + constructor; [exact (IH Hn)|].
      eapply Permutation_Forall;
        [symmetry; apply binary64_insert_desc_perm|].
      constructor; [|exact Hy]. apply binary64_ltb_leb. exact E.
    + assert (Hyx : (key y <=? key x) = true)
        by (apply binary64_leb_total; assumption).
      constructor; [constructor; assumption|].
      constructor; [exact Hyx|].
      eapply Forall_impl; [exact Hy|]. unfold Binary64.descending. cbn.
      intros z Hz. eapply binary64_leb_trans; eassumption.
Qed.

Lemma binary64_sort_desc_sorted (l : list A) :
  Forall (fun x => Binary64.is_number (key x) = true) l ->
  StronglySorted (Binary64.descending key) (Binary64.sort_desc key l).
Proof.
  induction l as [|x l IH]; intros Hn; cbn; [constructor|].
  apply Forall_cons_1 in Hn as [Hx Hn].
  apply binary64_insert_desc_sorted; [exact Hx | | exact (IH Hn)].
  eapply Permutation_Forall; [symmetry; apply binary64_sort_desc_perm|].
  exact Hn.
Qed.

(** Insertion passes only strictly larger keys, so among equal keys the
    inserted element comes first. *)
Lemma binary64_with_key_insert_desc (q : float) (x : A) (l : list A) :
  Binary64.with_key key q (Binary64.insert_desc key x l)
  = Binary64.with_key key q (x :: l).
Proof.
  induction l as [|y l IH]; [reflexivity|]. cbn [Binary64.insert_desc].
  destruct (key x <? key y) eqn:E; [|reflexivity].
  unfold Binary64.with_key in *. cbn [List.filter] in *. rewrite IH.
  destruct (key x =? q) eqn:Ex; [|reflexivity].
  destruct (key y =? q) eqn:Ey; [|reflexivity].
  exfalso. exact (binary64_ltb_eqb_apart _ _ _ E Ex Ey).
Qed.

Lemma binary64_with_key_sort_desc (q : float) (l : list A) :
  Binary64.with_key key q (Binary64.sort_desc key l)
  = Binary64.with_key key q l.
Proof.
  induction l as [|x l IH]; [reflexivity|]. cbn [Binary64.sort_desc].
  rewrite binary64_with_key_insert_desc. unfold Binary64.with_key in *.
  cbn [List.filter]. rewrite IH. reflexivity.
Qed.

Lemma binary64_sort_desc_stable (l : list A) :
  Forall (fun x => Binary64.is_number (key x) = true) l ->
  Binary64.stable_sorted_desc key l (Binary64.sort_desc key l).
Proof.
  intros Hn. split; [apply binary64_sort_desc_sorted; exact Hn|].
  intros q. apply binary64_with_key_sort_desc.
Qed.

Lemma binary64_with_key_head (x : A) (l : list A) :
  Binary64.is_number (key x) = true ->
  Binary64.with_key key (key x) (x :: l)
  = x :: Binary64.with_key key (key x) l.
Proof.
  intros Hx. unfold Binary64.with_key. cbn [List.filter].
  unfold Binary64.is_number in Hx. rewrite Hx. reflexivity.
Qed.

Lemma binary64_with_key_In (q : float) (x : A) (l : list A) :
  In x (Binary64.with_key key q l) -> In x l.
Proof. unfold Binary64.with_key. intros H. apply filter_In in H. tauto. Qed.

(** The contract determines the result on keys that are numbers: two
    descending lists with the same elements in the same order under every
    key are equal.  So the insertion sort returns the list every stable
    sort returns. *)
Lemma binary64_stable_sorted_desc_unique (l1 l2 : list A) :
  Forall (fun x => Binary64.is_number (key x) = true) l1 ->
  Forall (fun x => Binary64.is_number (key x) = true) l2 ->
  StronglySorted (Binary64.descending key) l1 ->
  StronglySorted (Binary64.descending key) l2 ->
  (forall q, Binary64.with_key key q l1 = Binary64.with_key key q l2) ->
  l1 = l2.
Proof.
  intros Hn1 Hn2 H1. revert Hn1 l2 Hn2.
  induction H1 as [|x l1 Hl1 IH Hx]; intros Hn1 l2 Hn2 H2 Heq.
  - destruct l2 as [|y l2]; [reflexivity|].
    apply Forall_cons_1 in Hn2 as [Hny _].
    specialize (Heq (key y)).
    rewrite (binary64_with_key_head y _ Hny) in Heq. discriminate Heq.
  - apply Forall_cons_1 in Hn1 as [Hnx Hn1].
    destruct H2 as [|y l2 Hl2 Hy].
    { specialize (Heq (key x)).
      rewrite (binary64_with_key_head x _ Hnx) in Heq. discriminate Heq. }
    apply Forall_cons_1 in Hn2 as [Hny Hn2].
    assert (Hxy : (key x <=? key y) = true).
    { pose proof (Heq (key x)) as E.
      rewrite (binary64_with_key_head x _ Hnx) in E.
      assert (Hin : In x (y :: l2)).
      { apply (binary64_with_key_In (key x)). rewrite <- E. left.
        reflexivity. }
      destruct Hin as [->|Hin].
      - apply binary64_leb_total; [assumption | assumption|].
        destruct (key x <? key x) eqn:El; [|reflexivity].
        exfalso. exact (binary64_ltb_eqb_apart _ _ _ El Hnx Hnx).
      - rewrite Forall_forall in Hy. apply Hy, list_elem_of_In. exact Hin. }
    assert (Hyx : (key y <=? key x) = true).
    { pose proof (Heq (key y)) as E.
      rewrite (binary64_with_key_head y _ Hny) in E.
      assert (Hin : In y (x :: l1)).
      { apply (binary64_with_key_In (key y)). rewrite E. left. reflexivity. }
      destruct Hin as [->|Hin].
      - apply binary64_leb_total; [assumption | assumption|].
        destruct (key y <? key y) eqn:El; [|reflexivity].
        exfalso. exact (binary64_ltb_eqb_apart _ _ _ El Hny Hny).
      - rewrite Forall_forall in Hx. apply Hx, list_elem_of_In. exact Hin. }
    assert (Ekey : (key y =? key x) = true)
      by (apply binary64_eqb_of_leb; assumption).
    assert (x = y).
    { pose proof (Heq (key x)) as E.
      rewrite (binary64_with_key_head x _ Hnx) in E.
      unfold Binary64.with_key in E. cbn [List.filter] in E.
      rewrite Ekey in E. congruence. }
    subst y. f_equal. apply IH; [exact Hn1 | exact Hn2 | exact Hl2|].
    intros q. specialize (Heq q). unfold Binary64.with_key in *.
    cbn [List.filter] in Heq.
    destruct (key x =? q); congruence.
Qed.

Lemma binary64_stable_sort_is_sort_desc (l sorted : list A) :
  Forall (fun x => Binary64.is_number (key x) = true) l ->
  Forall (fun x => Binary64.is_number (key x) = true) sorted ->
  Binary64.stable_sorted_desc key l sorted ->
  sorted = Binary64.sort_desc key l.
Proof.
  intros Hn Hns [Hs Hk]. apply binary64_stable_sorted_desc_unique;
    [exact Hns | | exact Hs | apply binary64_sort_desc_sorted; exact Hn|].
  - eapply Permutation_Forall; [symmetry; apply binary64_sort_desc_perm|].
    exact Hn.
  - intros q. rewrite Hk, binary64_with_key_sort_desc. reflexivity.
Qed.

End Binary64Sort.

(** ** No score of the assistant is NaN *)

Section Binary64Numbers.

Local Open Scope Z_scope.

Lemma iter_pos_invariant {T} (P : T -> Prop) (f : T -> T) :
  (forall x, P x -> P (f x)) ->
  forall p x, P x -> P (SpecFloat.iter_pos f p x).
Proof.
  intros Hf. induction p as [p IH|p IH|]; intros x Hx; cbn; auto.
Qed.

Lemma shr_1_nonneg (mrs : shr_record) :
  0 <= shr_m mrs -> 0 <= shr_m (shr_1 mrs).
Proof.
  destruct mrs as [m r s]. cbn.
  destruct m as [|[p|p|]|[p|p|]]; cbn; lia.
Qed.

Lemma shr_fexp_nonneg (m e : Z) (l : location) :
  0 <= m -> 0 <= shr_m (fst (shr_fexp prec emax m e l)).
Proof.
  intros Hm. unfold shr_fexp, shr.
  assert (H0 : 0 <= shr_m (shr_record_of_loc m l))
    by (destruct l as [|[]]; exact Hm).
  destruct (fexp prec emax (Zdigits2 m + e) - e) as [|p|p]; cbn [fst];
    [exact H0 | | exact H0].
  apply (iter_pos_invariant (fun mrs => 0 <= shr_m mrs));
    [exact shr_1_nonneg | exact H0].
Qed.

Lemma round_nearest_even_nonneg (m : Z) (l : location) :
  0 <= m -> 0 <= round_nearest_even m l.
Proof.
  intros Hm. unfold round_nearest_even.
  destruct l as [|[]]; [| destruct (Z.even m) | |]; lia.
Qed.

(** Rounding a non-negative mantissa gives a zero, a finite number or an
    infinity. *)
Lemma binary_round_aux_number (sx : bool) (mx ex : Z) (lx : location) :
  0 <= mx -> binary_round_aux prec emax sx mx ex lx <> S754_nan.
Proof.
  intros Hm. unfold binary_round_aux.
  pose proof (shr_fexp_nonneg mx ex lx Hm) as H1.
  destruct (shr_fexp prec emax mx ex lx) as [mrs' e']. cbn [fst] in H1.
  pose proof (shr_fexp_nonneg _ e' loc_Exact
                (round_nearest_even_nonneg _ (loc_of_shr_record mrs') H1))
    as H2.
  destruct (shr_fexp prec emax _ e' loc_Exact) as [mrs'' e''].
  cbn [fst] in H2.
  destruct (shr_m mrs'') as [|m|m]; [discriminate | | lia].
  destruct (e'' <=? emax - prec); discriminate.
Qed.

Lemma binary_round_number (sx : bool) (mx : positive) (ex : Z) :
  binary_round prec emax sx mx ex <> S754_nan.
Proof.
  unfold binary_round. destruct (shl_align mx ex _) as [mz ez].
  apply binary_round_aux_number. lia.
Qed.

Lemma binary_normalize_number (m e : Z) (szero : bool) :
  binary_normalize prec emax m e szero <> S754_nan.
Proof.
  destruct m; cbn; [discriminate | apply binary_round_number..].
Qed.

Lemma SFmul_number (x y : spec_float) :
  x <> S754_nan ->
  (exists s m e, y = S754_finite s m e) ->
  SF64mul x y <> S754_nan.
Proof.
  intros Hx (s & m & e & ->).
  destruct x; cbn; try discriminate; [congruence|].
  apply binary_round_aux_number. lia.
Qed.

Lemma SFadd_number (x y : spec_float) :
  x <> S754_nan ->
  (exists s, y = S754_zero s) \/ (exists s m e, y = S754_finite s m e) ->
  SF64add x y <> S754_nan.
Proof.
  intros Hx [(s & ->)|(s & m & e & ->)];
    destruct x as [sx|sx| |sx mx ex]; cbn; try discriminate;
    try congruence.
  - destruct sx, s; discriminate.
  - apply binary_normalize_number.
Qed.

Lemma SFdiv_number (x y : spec_float) :
  x <> S754_nan ->
  (exists s m e, y = S754_finite s m e) ->
  SF64div x y <> S754_nan.
Proof.
  intros Hx (s & m & e & ->).
  destruct x as [sx|sx| |sx mx ex]; cbn; try discriminate; [congruence|].
  unfold SFdiv_core_binary.
  set (m' := match _ with Z0 => _ | Zpos _ => _ | Zneg _ => _ end).
  assert (Hm' : 0 <= m').
  { unfold m'. destruct (_ - _ - _) as [|p|p]; [lia | | lia].
    apply Z.shiftl_nonneg. lia. }
  pose proof (Z.div_pos m' (Z.pos m) Hm' eq_refl) as Hq.
  unfold Z.div in Hq.
  destruct (Z.div_eucl m' (Z.pos m)) as [q r]. cbn [fst] in Hq.
  apply binary_round_aux_number. exact Hq.
Qed.

Lemma is_number_spec (x : float) :
  Binary64.is_number x = true <-> Prim2SF x <> S754_nan.
Proof.
  unfold Binary64.is_number. rewrite FloatAxioms.eqb_spec.
  destruct (Prim2SF x) as [s|s| |s m e]; cbn.
  - split; [discriminate | reflexivity].
  - split; [discriminate | destruct s; reflexivity].
  - split; [discriminate | congruence].
  - split; [discriminate|]. intros _. unfold SFeqb. cbn.
    rewrite Z.compare_refl.
    change (Pos.compare_cont Eq m m) with (Pos.compare m m).
    rewrite Pos.compare_refl. destruct s; reflexivity.
Qed.

Lemma SF2Prim_number (x : spec_float) :
  x <> S754_nan -> Prim2SF (SF2Prim x) <> S754_nan.
Proof.
  intros Hx. destruct x as [s|s| |s m e]; [| |congruence|].
  - destruct s; vm_compute; discriminate.
  - destruct s; vm_compute; discriminate.
  - unfold SF2Prim.
    assert (H : Prim2SF (Z.ldexp (of_uint63 (Uint63.of_Z (Z.pos m))) e)
                <> S754_nan).
    { rewrite Z_ldexp_spec, of_uint63_spec.
      destruct (binary_normalize prec emax _ 0 false) as [s'|s'| |s' m' e']
        eqn:E; cbn; try discriminate.
      - exfalso. exact (binary_normalize_number _ _ _ E).
      - apply binary_round_number. }
    destruct s; [|exact H]. rewrite opp_spec.
    destruct (Prim2SF _); cbn; congruence.
Qed.

End Binary64Numbers.

Section Binary64Scores.

Local Open Scope float_scope.

Lemma binary64_mul_number (x c : float) :
  Binary64.is_number x = true ->
  (exists s m e, Prim2SF c = S754_finite s m e) ->
  Binary64.is_number (x * c) = true.
Proof.
  rewrite !is_number_spec, mul_spec. apply SFmul_number.
Qed.

Lemma binary64_div_number (x c : float) :
  Binary64.is_number x = true ->
  (exists s m e, Prim2SF c = S754_finite s m e) ->
  Binary64.is_number (x / c) = true.
Proof.
  rewrite !is_number_spec, div_spec. apply SFdiv_number.
Qed.

Lemma binary64_add_number (x c : float) :
  Binary64.is_number x = true ->
  (exists s, Prim2SF c = S754_zero s)
  \/ (exists s m e, Prim2SF c = S754_finite s m e) ->
  Binary64.is_number (x + c) = true.
Proof.
  rewrite !is_number_spec, add_spec. apply SFadd_number.
Qed.

(** The number read from a rating column is never NaN. *)
Lemma binary64_of_Q_number (q : Q) :
  Binary64.is_number (Binary64.of_Q q) = true.
Proof.
  apply is_number_spec. unfold Binary64.of_Q, Binary64.int_truediv.
  apply SF2Prim_number. apply SFdiv_number.
  - destruct (Qnum q); discriminate.
  - cbn. eauto.
Qed.

(** No suggestion scores NaN: the rating read from the row is a number,
    and every later operand is a finite constant. *)
Lemma binary64_assistant_score_number (group : Group) (s : Suggestion) :
  Binary64.is_number (Binary64.assistant_score group s) = true.
Proof.
  unfold Binary64.assistant_score, Binary64.calculate_score.
  set (v := Binary64.float_or _ _).
  assert (Hv : Binary64.is_number v = true).
  { unfold v, Binary64.float_or.
    destruct (rating s) as [r|]; cbn [option_map]; [|reflexivity].
    destruct (Binary64.of_Q r =? 0); [reflexivity|].
    apply binary64_of_Q_number. }
  clearbody v.
  set (bm := if (_ <=? _)%Z then _ else _).
  assert (Hbm : bm = 1.0 \/ bm = 0.5 \/ bm = 0.1).
  { unfold bm. destruct (_ <=? _)%Z; [tauto|].
    destruct (Binary64.int_le_float _ _); tauto. }
  clearbody bm.
  apply binary64_add_number; [|right; vm_compute; eauto].
  apply binary64_add_number; [|left; vm_compute; eauto].
  apply binary64_add_number.
  - apply binary64_mul_number; [|vm_compute; eauto].
    apply binary64_div_number; [exact Hv | vm_compute; eauto].
  - right. destruct Hbm as [->|[->| ->]]; vm_compute; eauto.
Qed.

End Binary64Scores.

(** ** Assistant dispatcher *)

Section Assistant.

Local Open Scope Q_scope.


Lemma binary64_handle_suggest (group_id : Z) (text : string) (st : Store)
    (group : Group) :
  Py.str_in "suggest" (Py.lower text) = true ->
  group_by_id group_id st = Some group ->
  suggestions_of group_id st <> [] ->
  Binary64.handle_planpal_query group_id text st
  = Some (Binary64.TopPicks (enumerate1 (take 3 (Binary64.sort_desc snd
      (map (fun s => (s, Binary64.assistant_score group s))
           (suggestions_of group_id st)))))).
Proof.
  intros Hs Hg Hne. unfold Binary64.handle_planpal_query.
  destruct (suggestions_of group_id st) as [|s l]; [congruence|].
  rewrite Hs, Hg. reflexivity.
Qed.

(** C5.  The scores are the binary64 numbers the program computes.  A
    query whose lowercased text contains "suggest", for an existing group
    with at least three persisted suggestions, is answered with exactly
    three entries numbered 1 to 3: the first three of the suggestions
    ranked by descending score, suggestions with equal scores staying in
    their persisted order. *)
Theorem suggest_lists_top_three :
  forall group_id text st group,
    Py.str_in "suggest" (Py.lower text) = true ->
    group_by_id group_id st = Some group ->
    (3 <= length (suggestions_of group_id st))%nat ->
    exists ranked e1 e2 e3,
      Binary64.handle_planpal_query group_id text st
      = Some (Binary64.TopPicks [(1%nat, e1); (2%nat, e2); (3%nat, e3)])
      /\ take 3 ranked = [e1; e2; e3]
      /\ Permutation ranked
           (map (fun s => (s, Binary64.assistant_score group s))
                (suggestions_of group_id st))
      /\ Binary64.stable_sorted_desc snd
           (map (fun s => (s, Binary64.assistant_score group s))
                (suggestions_of group_id st))
           ranked.
Proof.
  intros group_id text st group Hs Hg Hlen.
  rewrite (binary64_handle_suggest _ _ _ _ Hs Hg)
    by (destruct (suggestions_of group_id st); [cbn in Hlen; lia | congruence]).
  set (scored := map _ (suggestions_of group_id st)).
  assert (Hns : Forall (fun e => Binary64.is_number (snd e) = true) scored).
  { unfold scored. rewrite Forall_map. apply Forall_forall. intros s _.
    apply binary64_assistant_score_number. }
  assert (Hl : (3 <= length (Binary64.sort_desc snd scored))%nat).
  { rewrite (Permutation_length (binary64_sort_desc_perm snd scored)).
    unfold scored. rewrite length_map. exact Hlen. }
  exists (Binary64.sort_desc snd scored).
  destruct (Binary64.sort_desc snd scored) as [|e1 [|e2 [|e3 rest]]] eqn:E;
    cbn in Hl; try lia.
  exists e1, e2, e3. split; [reflexivity|]. split; [reflexivity|].
  rewrite <- E.
  split; [apply binary64_sort_desc_perm | apply binary64_sort_desc_stable].
  exact Hns.
Qed.

(** C6.  With no persisted suggestion for the group the reply is the
    fixed text, whatever the message says; neither the keywords nor the
    group row are looked at. *)
Theorem no_suggestions_short_circuit :
  forall group_id text st,
    suggestions_of group_id st = [] ->
    handle_planpal_query group_id text st = Some (Fixed NO_SUGGESTIONS).
Proof.
  intros group_id text st H. unfold handle_planpal_query. rewrite H.
  reflexivity.
Qed.

End Assistant.

(** ** The theorems at concrete inputs *)

Example suggest_binary64_ranking :
  match Binary64.handle_planpal_query 1 "@PlanPal SUGGEST something"
          Binary64.store with
  | Some (Binary64.TopPicks entries) =>
      map (fun e => (fst e, s_title (fst (snd e)), snd (snd e))) entries
  | _ => []
  end
  = [ (1%nat, "Fancy"%string, 0.5900000000000001%float);
      (2%nat, "Budget"%string, 0.59%float);
      (3%nat, "Plain"%string, 0.4%float) ].
Proof. vm_compute. reflexivity. Qed.

Lemma suggest_lists_top_three_witness :
  exists e1 e2 e3,
    Binary64.handle_planpal_query 1 "@PlanPal SUGGEST something"
      Binary64.store
    = Some (Binary64.TopPicks [(1%nat, e1); (2%nat, e2); (3%nat, e3)]).
Proof.
  destruct (suggest_lists_top_three 1 "@PlanPal SUGGEST something"
              Binary64.store Binary64.thrifty)
    as (ranked & e1 & e2 & e3 & H & _).
  - reflexivity.
  - reflexivity.
  - cbn. lia.
  - exists e1, e2, e3. exact H.
Defined.

Lemma no_suggestions_short_circuit_witness :
  handle_planpal_query 2 "@PlanPal suggest safety compare pros"
    SampleStore.store
  = Some (Fixed NO_SUGGESTIONS).
Proof. apply no_suggestions_short_circuit. reflexivity. Defined.

Lemma fetch_fallback_and_cache_writes_witness :
  (fetch_google_places (fun s => s) SampleStore.str_float SampleStore.offline
     "chill" "low" 0 0 ∅
   = (get_mock_places "chill" "low", ∅)
   /\ fetch_tmdb_movies (fun s => s) SampleStore.offline "chill" ∅
      = (get_mock_movies "chill", ∅))
  /\ (exists results,
        places_live_success SampleStore.str_float SampleStore.online
          "chill" 0 0 results
        /\ (fetch_google_places (fun s => s) SampleStore.str_float
              SampleStore.online "chill" "low" 0 0 ∅).1 = take 10 results)
  /\ (exists results,
        movies_live_success SampleStore.online "chill" results
        /\ (fetch_tmdb_movies (fun s => s) SampleStore.online "chill" ∅).1
           = take 10 results).
Proof.
  split; [|split].
  - destruct (fetch_fallback_and_cache_writes (fun s => s)
                SampleStore.str_float SampleStore.offline
                "chill"%string "low"%string 0%Q 0%Q ∅) as (Hp & Hm & _).
    split; [apply Hp; reflexivity | apply Hm; reflexivity].
  - destruct (fetch_fallback_and_cache_writes (fun s => s)
                SampleStore.str_float SampleStore.online
                "chill"%string "low"%string 0%Q 0%Q ∅) as (_ & _ & Hw & _).
    destruct (Hw "places:chill|low|0.0|0.0"%string
                (take 10 (get_mock_places "chill" "low"), 100%Q))
      as [Hold | (results & Hlive & _ & _ & Hres)].
    + reflexivity.
    + discriminate Hold.
    + exists results. split; assumption.
  - destruct (fetch_fallback_and_cache_writes (fun s => s)
                SampleStore.str_float SampleStore.online
                "chill"%string "low"%string 0%Q 0%Q ∅) as (_ & _ & _ & Hw).
    destruct (Hw "movies:chill"%string
                (take 10 (get_mock_movies "chill"), 100%Q))
      as [Hold | (results & Hlive & _ & _ & Hres)].
    + reflexivity.
    + discriminate Hold.
    + exists results. split; assumption.
Defined.

Lemma cache_key_parameters_witness :
  cache_key_content "places" ["chill"; "low"; "0.0"; "0.0"]%string
  <> cache_key_content "places" ["chill"; "high"; "0.0"; "0.0"]%string.
Proof.
  destruct (cache_key_parameters (fun s => s) SampleStore.str_float)
    as (_ & _ & _ & Hdiff & _).
  apply (Hdiff "chill"%string "low"%string 0%Q 0%Q
               "chill"%string "high"%string 0%Q 0%Q);
    try reflexivity.
  right. left. discriminate.
Defined.

(* ===================================================================== *)
(** * Part III: further properties of the code *)
(* ===================================================================== *)

(** ** Scoring: range and monotonicity *)

Section ScoreRange.

Local Open Scope Q_scope.

Lemma budget_match_of_range (p L : Z) :
  0.1 <= budget_match_of p L <= 1.
Proof.
  unfold budget_match_of.
  destruct (p <=? L)%Z; [split; by_evaluation|].
  destruct (Qle_bool _ _); split; by_evaluation.
Qed.

Lemma rating_norm_range (r : option Q) :
  match r with Some v => 0 <= v <= 5 | None => True end ->
  0 <= Py.float_or r 3.5 / 5 <= 1.
Proof.
  intros H. unfold Py.float_or. destruct r as [v|].
  - destruct (Qeq_bool v 0); [split; by_evaluation|].
    destruct H as [H0 H5]. split.
    + apply Qle_shift_div_l; [reflexivity | lra].
    + apply Qle_shift_div_r; [reflexivity | lra].
  - split; by_evaluation.
Qed.

Lemma vote_score_range (votes max_votes : Z) :
  (0 <= votes <= max_votes)%Z ->
  0 <= (if (0 <? max_votes)%Z then inject_Z votes / inject_Z max_votes else 0)
  <= 1.
Proof.
  intros [H0 H1]. destruct (0 <? max_votes)%Z eqn:E; [|split; by_evaluation].
  apply Z.ltb_lt in E.
  assert (Hm : 0 < inject_Z max_votes)
    by (change 0 with (inject_Z 0); rewrite <- Zlt_Qlt; exact E).
  assert (Hv : 0 <= inject_Z votes)
    by (change 0 with (inject_Z 0); rewrite <- Zle_Qle; exact H0).
  assert (Hvm : inject_Z votes <= inject_Z max_votes)
    by (rewrite <- Zle_Qle; exact H1).
  split.
  - apply Qle_shift_div_l; [exact Hm | lra].
  - apply Qle_shift_div_r; [exact Hm | lra].
Qed.

Lemma max0_range (x : Q) : x <= 1 -> 0 <= Py.max 0 x <= 1.
Proof.
  intros H. unfold Py.max. destruct (Py.Qlt_bool 0 x) eqn:E.
  - apply Qlt_bool_iff in E. split; [apply Qlt_le_weak; exact E | exact H].
  - split; by_evaluation.
Qed.

Lemma proximity_score_range (d max_d : Q) :
  0 <= d ->
  0 <= (if Py.Qlt_bool 0 max_d then Py.max 0 (1 - d / max_d) else 0.5) <= 1.
Proof.
  intros Hd. destruct (Py.Qlt_bool 0 max_d) eqn:E; [|split; by_evaluation].
  apply Qlt_bool_iff in E. apply max0_range.
  assert (0 <= d / max_d) by (apply Qle_shift_div_l; [exact E | lra]).
  lra.
Qed.

(** X1.  For a rating that is absent or within 0..5, a vote count between 0
    and the maximum and a non-negative distance, the score lies between 0.02
    and 1, whatever the price, the budget level and the maximum distance. *)
Theorem calculate_score_bounds :
  forall s b votes max_votes d max_d,
    match rating s with Some v => 0 <= v <= 5 | None => True end ->
    (0 <= votes <= max_votes)%Z -> 0 <= d ->
    0.02 <= calculate_score s b votes max_votes d max_d <= 1.
Proof.
  intros s b votes max_votes d max_d Hr Hv Hd.
  rewrite calculate_score_unfold.
  pose proof (rating_norm_range (rating s) Hr) as H1.
  pose proof (budget_match_of_range
                (Py.int_or (price_estimate s) 1000) (ScoreSpec.limit b)) as H2.
  pose proof (vote_score_range votes max_votes Hv) as H3.
  pose proof (proximity_score_range d max_d Hd) as H4.
  lra.
Qed.

Lemma Qdiv_le_compat_pos (a b c : Q) : 0 < c -> a <= b -> a / c <= b / c.
Proof.
  intros Hc Hab. unfold Qdiv. apply Qmult_le_compat_r; [exact Hab|].
  apply Qlt_le_weak, Qinv_lt_0_compat. exact Hc.
Qed.

Lemma max0_monotone (x y : Q) : x <= y -> Py.max 0 x <= Py.max 0 y.
Proof.
  intros H. unfold Py.max.
  destruct (Py.Qlt_bool 0 x) eqn:Ex, (Py.Qlt_bool 0 y) eqn:Ey;
    try apply Qlt_bool_iff in Ex; try apply Qlt_bool_iff in Ey;
    try apply Qlt_bool_false_iff in Ex; try apply Qlt_bool_false_iff in Ey;
    lra.
Qed.

(** X2.  With everything else fixed, more votes never lower the score and a
    larger distance never raises it. *)
Theorem calculate_score_monotone :
  forall s b votes votes' max_votes d d' max_d,
    (votes <= votes')%Z -> d' <= d ->
    calculate_score s b votes max_votes d max_d
    <= calculate_score s b votes' max_votes d' max_d.
Proof.
  intros s b votes votes' max_votes d d' max_d Hv Hd.
  rewrite !calculate_score_unfold.
  assert (H1 : (if (0 <? max_votes)%Z
                then inject_Z votes / inject_Z max_votes else 0)
               <= (if (0 <? max_votes)%Z
                   then inject_Z votes' / inject_Z max_votes else 0)).
  { destruct (0 <? max_votes)%Z eqn:E; [|apply Qle_refl].
    apply Z.ltb_lt in E. apply Qdiv_le_compat_pos.
    - change 0 with (inject_Z 0). rewrite <- Zlt_Qlt. exact E.
    - rewrite <- Zle_Qle. exact Hv. }
  assert (H2 : (if Py.Qlt_bool 0 max_d then Py.max 0 (1 - d / max_d) else 0.5)
               <= (if Py.Qlt_bool 0 max_d
                   then Py.max 0 (1 - d' / max_d) else 0.5)).
  { destruct (Py.Qlt_bool 0 max_d) eqn:E; [|apply Qle_refl].
    apply Qlt_bool_iff in E. apply max0_monotone.
    pose proof (Qdiv_le_compat_pos d' d max_d E Hd). lra. }
  lra.
Qed.

Lemma budget_match_of_antitone (p p' L : Z) :
  (p <= p')%Z -> budget_match_of p' L <= budget_match_of p L.
Proof.
  intros H. rewrite !budget_match_of_spec.
  assert (Hq : inject_Z p <= inject_Z p') by (rewrite <- Zle_Qle; exact H).
  destruct (Qle_bool (inject_Z p) (inject_Z L)) eqn:E1,
           (Qle_bool (inject_Z p') (inject_Z L)) eqn:E1',
           (Qle_bool (inject_Z p) (1.2 * inject_Z L)) eqn:E2,
           (Qle_bool (inject_Z p') (1.2 * inject_Z L)) eqn:E2';
    try apply Qle_bool_iff in E1; try apply Qle_bool_iff in E1';
    try apply Qle_bool_iff in E2; try apply Qle_bool_iff in E2';
    try apply Qle_bool_false_iff in E1; try apply Qle_bool_false_iff in E1';
    try apply Qle_bool_false_iff in E2; try apply Qle_bool_false_iff in E2';
    try by_evaluation; exfalso; lra.
Qed.

(** X3.  Of two suggestions with the same rating, the one with the lower
    stored price never scores lower, for every budget level; the stored
    price 0, which the code replaces by 1000, is no exception. *)
Theorem calculate_score_cheaper_not_worse :
  forall s s' p p' b votes max_votes d max_d,
    rating s = rating s' ->
    price_estimate s = Some p -> price_estimate s' = Some p' -> (p <= p')%Z ->
    calculate_score s' b votes max_votes d max_d
    <= calculate_score s b votes max_votes d max_d.
Proof.
  intros s s' p p' b votes max_votes d max_d Hr Hp Hp' Hle.
  rewrite !calculate_score_unfold, Hr, Hp, Hp'.
  assert (H : budget_match_of (Py.int_or (Some p') 1000) (ScoreSpec.limit b)
              <= budget_match_of (Py.int_or (Some p) 1000) (ScoreSpec.limit b)).
  { unfold Py.int_or.
    destruct (Z.eqb_spec p 0) as [E|E], (Z.eqb_spec p' 0) as [E'|E']; subst.
    - apply Qle_refl.
    - assert (Hone : budget_match_of 1000 (ScoreSpec.limit b) = 1).
      { destruct (limit_cases b) as [-> | [-> | ->]]; reflexivity. }
      rewrite Hone. apply (budget_match_of_range p').
    - assert (Hone : budget_match_of p (ScoreSpec.limit b) = 1).
      { unfold budget_match_of.
        replace (p <=? ScoreSpec.limit b)%Z with true; [reflexivity|].
        symmetry. apply Z.leb_le.
        destruct (limit_cases b) as [-> | [-> | ->]]; lia. }
      rewrite Hone. apply (budget_match_of_range 1000).
    - apply budget_match_of_antitone. exact Hle. }
  lra.
Qed.

(** X4.  The assistant scores every suggestion with 0 of 1 votes and
    distance 0 of 10, so its score is 0.1 + 0.1 * (rating or 3.5)
    + 0.2 * budgetMatch: it depends on the rating, the price and the group's
    budget level only, and two suggestions that agree on rating and price
    get the same score. *)
Theorem assistant_score_closed_form :
  forall group s,
    assistant_score group s
    == 0.1 + 0.1 * Py.float_or (rating s) 3.5
       + 0.2 * ScoreSpec.budgetMatch s
                 (Py.str_or (g_budget_level group) "medium").
Proof.
  intros group s. unfold assistant_score.
  rewrite calculate_score_unfold, budget_match_price_or.
  change (if (0 <? 1)%Z then inject_Z 0 / inject_Z 1 else 0) with (0 / 1).
  change (if Py.Qlt_bool 0 10 then Py.max 0 (1 - 0 / 10) else 0.5)
    with (Py.max 0 (1 - 0 / 10)).
  assert (E : Py.max 0 (1 - 0 / 10) == 1) by by_evaluation.
  rewrite E. field.
Qed.

End ScoreRange.

(** X5.  Whatever tier the provider sends, and also when it sends none, a
    place is priced 700, 1500, 3000, 4500 or 1000: the table's 300 is never
    the result. *)
Theorem map_price_level_range :
  forall price_level,
    In (map_price_level_to_inr price_level) [700; 1500; 3000; 4500; 1000]%Z
    /\ map_price_level_to_inr price_level <> 300%Z.
Proof.
  intros price_level.
  assert (H : In (map_price_level_to_inr price_level)
                [700; 1500; 3000; 4500; 1000]%Z).
  { unfold map_price_level_to_inr, Py.int_or, price_mapping.
    destruct price_level as [t|]; [|cbn; tauto].
    destruct (t =? 0)%Z eqn:E0; [cbn; tauto|]. rewrite E0.
    destruct (t =? 1)%Z; [cbn; tauto|].
    destruct (t =? 2)%Z; [cbn; tauto|].
    destruct (t =? 3)%Z; [cbn; tauto|].
    destruct (t =? 4)%Z; cbn; tauto. }
  split; [exact H|]. intros E. rewrite E in H. cbn in H.
  repeat (destruct H as [H|H]; [discriminate H|]). exact H.
Qed.

(** ** Haversine distance: arc length *)

Section HaversineRange.

Local Open Scope R_scope.

Lemma calculate_distance_unfold (lat1 lng1 lat2 lng2 : R) :
  calculate_distance lat1 lng1 lat2 lng2
  = 6371 * (2 * atan2 (sqrt (haversine_a lat1 lng1 lat2 lng2))
                      (sqrt (1 - haversine_a lat1 lng1 lat2 lng2))).
Proof. reflexivity. Qed.

Lemma atan2_of_angle (x : R) :
  0 <= x < PI / 2 -> atan2 (sqrt (sin x ^ 2)) (sqrt (1 - sin x ^ 2)) = x.
Proof.
  intros [H0 H1]. pose proof PI_RGT_0 as Hpi.
  assert (Hs : 0 <= sin x) by (apply sin_ge_0; lra).
  assert (Hc : 0 < cos x) by (apply cos_gt_0; lra).
  replace (1 - sin x ^ 2) with (Rsqr (cos x)).
  2:{ pose proof (sin2_cos2 x) as H. rewrite (Rsqr_pow2 (sin x)) in H. lra. }
  rewrite <- Rsqr_pow2, !sqrt_Rsqr by lra.
  unfold atan2. destruct (Rlt_dec 0 (cos x)) as [_|Hn]; [|contradiction].
  change (sin x / cos x) with (tan x). apply atan_tan. lra.
Qed.

(** X7.  Along a meridian, and along the equator, the distance is the arc
    length: 6371 km times the angle in radians, for two points less than
    180 degrees apart. *)
Theorem calculate_distance_arc_length :
  (forall lat1 lat2 lng,
      0 <= lat2 - lat1 < 180 ->
      calculate_distance lat1 lng lat2 lng = 6371 * radians (lat2 - lat1))
  /\ (forall lng1 lng2,
        0 <= lng2 - lng1 < 180 ->
        calculate_distance 0 lng1 0 lng2 = 6371 * radians (lng2 - lng1)).
Proof.
  pose proof PI_RGT_0 as Hpi.
  assert (Hhalf : forall t, 0 <= t < 180 -> 0 <= radians t / 2 < PI / 2).
  { intros t [H0 H1]. unfold radians. split; nra. }
  split.
  - intros lat1 lat2 lng H. rewrite calculate_distance_unfold.
    unfold haversine_a.
    replace (radians (lng - lng) / 2) with 0 by (unfold radians; field).
    rewrite sin_0.
    replace (sin (radians (lat2 - lat1) / 2) ^ 2
             + cos (radians lat1) * cos (radians lat2) * 0 ^ 2)
      with (sin (radians (lat2 - lat1) / 2) ^ 2) by ring.
    rewrite atan2_of_angle by (apply Hhalf; exact H). field.
  - intros lng1 lng2 H. rewrite calculate_distance_unfold.
    unfold haversine_a.
    replace (radians (0 - 0) / 2) with 0 by (unfold radians; field).
    replace (radians 0) with 0 by (unfold radians; field).
    rewrite sin_0, cos_0.
    replace (0 ^ 2 + 1 * 1 * sin (radians (lng2 - lng1) / 2) ^ 2)
      with (sin (radians (lng2 - lng1) / 2) ^ 2) by ring.
    rewrite atan2_of_angle by (apply Hhalf; exact H). field.
Qed.

End HaversineRange.

(** ** The TTL cache *)

Section CacheFacts.

Implicit Types (cache : Cache) (data : list Candidate).

(** X8.  A value stored at time [t] is read back unchanged, and the cache
    left as it is, at every time less than 1800 seconds later; from 1800
    seconds on the read misses and removes the entry. *)
Theorem cache_round_trip :
  forall key data (t now : Q) cache,
    ((now - t < CACHE_TTL)%Q ->
     get_cached key now (set_cache key data t cache)
     = (Some data, set_cache key data t cache))
    /\ ((CACHE_TTL <= now - t)%Q ->
        get_cached key now (set_cache key data t cache)
        = (None, delete key cache)).
Proof.
  intros key data t now cache. unfold get_cached, set_cache.
  rewrite lookup_insert_eq. split; intros H.
  - apply Qlt_bool_iff in H. rewrite H. reflexivity.
  - apply Qlt_bool_false_iff in H. rewrite H.
    rewrite delete_insert_eq. reflexivity.
Qed.

(** X9.  A read touches no other key, and a miss is final: after a read
    that returned nothing, a read of the same key returns nothing at every
    clock value and leaves the cache as the first read left it. *)
Theorem cache_read_effects :
  forall key (now : Q) cache,
    (forall k, k <> key ->
               (get_cached key now cache).2 !! k = cache !! k)
    /\ ((get_cached key now cache).1 = None ->
        forall now',
          get_cached key now' (get_cached key now cache).2
          = (None, (get_cached key now cache).2)).
Proof.
  intros key now cache. unfold get_cached.
  destruct (cache !! key) as [[data t]|] eqn:E.
  - destruct (Py.Qlt_bool (now - t) CACHE_TTL); cbn.
    + split; [reflexivity | discriminate].
    + split.
      * intros k Hk. apply lookup_delete_ne. congruence.
      * intros _ now'. rewrite lookup_delete_eq. reflexivity.
  - cbn. split; [reflexivity|]. intros _ now'. rewrite E. reflexivity.
Qed.

End CacheFacts.

(** ** The fetchers: cache hits, provider failures, bounded results *)

Section FetchFacts.

Variable md5 : string -> string.
Variable str_float : Q -> string.

Implicit Types (w : World) (cache : Cache).

Lemma fetch_google_places_with_key w mood budget_level lat lng cache :
  Py.truthy_str (GOOGLE_PLACES_KEY w) = true ->
  fetch_google_places md5 str_float w mood budget_level lat lng cache
  = (let key := get_cache_key md5 "places"
                  [mood; budget_level; str_float lat; str_float lng] in
     let cached := (get_cached key (now_read w) cache).1 in
     let cache1 := (get_cached key (now_read w) cache).2 in
     match cached with
     | Some ((_ :: _) as data) => (data, cache1)
     | _ =>
         match places_query str_float w mood lat lng with
         | HttpJson (Some status) (Some results) =>
             if String.eqb status "OK" then
               (take 10 results,
                set_cache key (take 10 results) (now_write w) cache1)
             else (get_mock_places mood budget_level, cache1)
         | _ => (get_mock_places mood budget_level, cache1)
         end
     end).
Proof.
  intros H. unfold fetch_google_places, places_query. rewrite H. cbn [negb].
  destruct (get_cached _ (now_read w) cache) as [cached cache1].
  reflexivity.
Qed.

Lemma fetch_tmdb_movies_with_key w mood cache :
  Py.truthy_str (TMDB_API_KEY w) = true ->
  fetch_tmdb_movies md5 w mood cache
  = (let key := get_cache_key md5 "movies" [mood] in
     let cached := (get_cached key (now_read w) cache).1 in
     let cache1 := (get_cached key (now_read w) cache).2 in
     match cached with
     | Some ((_ :: _) as data) => (data, cache1)
     | _ =>
         match movies_query w mood with
         | HttpJson _ (Some results) =>
             (take 10 results,
              set_cache key (take 10 results) (now_write w) cache1)
         | _ => (get_mock_movies mood, cache1)
         end
     end).
Proof.
  clear str_float.
  intros H. unfold fetch_tmdb_movies, movies_query. rewrite H. cbn [negb].
  destruct (get_cached _ (now_read w) cache) as [cached cache1].
  reflexivity.
Qed.

Lemma get_cached_fresh key (now t : Q) (data : list Candidate) cache :
  cache !! key = Some (data, t) -> (now - t < CACHE_TTL)%Q ->
  get_cached key now cache = (Some data, cache).
Proof.
  intros H Ht. unfold get_cached. rewrite H.
  apply Qlt_bool_iff in Ht. rewrite Ht. reflexivity.
Qed.

End FetchFacts.

Lemma fetch_served_from_cache_aux
    (md5 : string -> string) (str_float : Q -> string) (w : World)
    (mood budget_level : string) (lat lng : Q) (cache : Cache)
    (c : Candidate) (data : list Candidate) (t : Q) :
  (now_read w - t < CACHE_TTL)%Q ->
  (Py.truthy_str (GOOGLE_PLACES_KEY w) = true ->
   cache !! get_cache_key md5 "places"
              [mood; budget_level; str_float lat; str_float lng]
   = Some (c :: data, t) ->
   fetch_google_places md5 str_float w mood budget_level lat lng cache
   = (c :: data, cache))
  /\ (Py.truthy_str (TMDB_API_KEY w) = true ->
      cache !! get_cache_key md5 "movies" [mood] = Some (c :: data, t) ->
      fetch_tmdb_movies md5 w mood cache = (c :: data, cache)).
Proof.
  intros Ht. split; intros Hkey Hc.
  - rewrite fetch_google_places_with_key by exact Hkey. cbv zeta.
    rewrite (get_cached_fresh _ _ _ _ _ Hc Ht). reflexivity.
  - rewrite fetch_tmdb_movies_with_key by exact Hkey. cbv zeta.
    rewrite (get_cached_fresh _ _ _ _ _ Hc Ht). reflexivity.
Qed.

(** X10.  With the credential configured, a non-empty list cached for the
    request less than 1800 seconds ago is the result, the cache stays as it
    is, and the provider's answer plays no part. *)
Theorem fetch_served_from_cache :
  forall (md5 : string -> string) (str_float : Q -> string) (w : World)
         (mood budget_level : string) (lat lng : Q) (cache : Cache)
         (c : Candidate) (data : list Candidate) (t : Q),
    (now_read w - t < CACHE_TTL)%Q ->
    (Py.truthy_str (GOOGLE_PLACES_KEY w) = true ->
     cache !! get_cache_key md5 "places"
                [mood; budget_level; str_float lat; str_float lng]
     = Some (c :: data, t) ->
     fetch_google_places md5 str_float w mood budget_level lat lng cache
     = (c :: data, cache))
    /\ (Py.truthy_str (TMDB_API_KEY w) = true ->
        cache !! get_cache_key md5 "movies" [mood] = Some (c :: data, t) ->
        fetch_tmdb_movies md5 w mood cache = (c :: data, cache)).
Proof.
  intros md5 str_float w mood budget_level lat lng cache c data t Ht.
  split; intros Hkey Hc.
  - rewrite fetch_google_places_with_key by exact Hkey. cbv zeta.
    unfold get_cached. rewrite Hc.
    apply Qlt_bool_iff in Ht. rewrite Ht. reflexivity.
  - rewrite fetch_tmdb_movies_with_key by exact Hkey. cbv zeta.
    unfold get_cached. rewrite Hc.
    apply Qlt_bool_iff in Ht. rewrite Ht. reflexivity.
Qed.

(** X11.  With the credential configured and nothing servable in the
    cache, an unusable answer of the provider (an exception, for places a
    missing or non-"OK" status, a missing result list) yields the static
    list of the kind, and the cache is what the read left: nothing is
    stored. *)
Theorem fetch_falls_back_on_failure :
  forall (md5 : string -> string) (str_float : Q -> string) (w : World)
         (mood budget_level : string) (lat lng : Q) (cache : Cache),
    (Py.truthy_str (GOOGLE_PLACES_KEY w) = true ->
     let key := get_cache_key md5 "places"
                  [mood; budget_level; str_float lat; str_float lng] in
     servable (get_cached key (now_read w) cache).1 = false ->
     places_answer_usable (places_query str_float w mood lat lng) = false ->
     fetch_google_places md5 str_float w mood budget_level lat lng cache
     = (get_mock_places mood budget_level,
        (get_cached key (now_read w) cache).2))
    /\ (Py.truthy_str (TMDB_API_KEY w) = true ->
        let key := get_cache_key md5 "movies" [mood] in
        servable (get_cached key (now_read w) cache).1 = false ->
        movies_answer_usable (movies_query w mood) = false ->
        fetch_tmdb_movies md5 w mood cache
        = (get_mock_movies mood, (get_cached key (now_read w) cache).2)).
Proof.
  intros md5 str_float w mood budget_level lat lng cache.
  split; intros Hkey key Hs Hu.
  - rewrite fetch_google_places_with_key by exact Hkey. cbv zeta. fold key.
    destruct (get_cached key (now_read w) cache).1 as [[|c data]|];
      try discriminate Hs;
      destruct (places_query str_float w mood lat lng)
        as [|[status|] [results|]]; cbn in Hu; try reflexivity;
      rewrite Hu; reflexivity.
  - rewrite fetch_tmdb_movies_with_key by exact Hkey. cbv zeta. fold key.
    destruct (get_cached key (now_read w) cache).1 as [[|c data]|];
      try discriminate Hs;
      destruct (movies_query w mood) as [|status [results|]];
      cbn in Hu; try discriminate Hu; reflexivity.
Qed.

Lemma take_10_nonempty (results : list Candidate) :
  results <> [] -> servable (Some (take 10 results)) = true.
Proof. destruct results; [congruence | reflexivity]. Qed.

Lemma servable_take_10 (results : list Candidate) :
  results <> [] ->
  exists c data, take 10 results = c :: data.
Proof. destruct results as [|c r]; [congruence|]. cbn. eauto. Qed.

(** X12.  After a live fetch that succeeded with a non-empty result, a
    second fetch for the same request less than 1800 seconds after the
    write returns the same list (at most ten candidates) from the cache and
    leaves the cache as it is, whatever the provider would answer then. *)
Theorem fetch_again_within_ttl :
  forall (md5 : string -> string) (str_float : Q -> string) (w1 w2 : World)
         (mood budget_level : string) (lat lng : Q) (cache : Cache)
         (results : list Candidate),
    results <> [] ->
    (now_read w2 - now_write w1 < CACHE_TTL)%Q ->
    (Py.truthy_str (GOOGLE_PLACES_KEY w1) = true ->
     Py.truthy_str (GOOGLE_PLACES_KEY w2) = true ->
     servable (get_cached
                 (get_cache_key md5 "places"
                    [mood; budget_level; str_float lat; str_float lng])
                 (now_read w1) cache).1 = false ->
     places_query str_float w1 mood lat lng
     = HttpJson (Some "OK"%string) (Some results) ->
     let first :=
       fetch_google_places md5 str_float w1 mood budget_level lat lng cache in
     first.1 = take 10 results
     /\ fetch_google_places md5 str_float w2 mood budget_level lat lng first.2
        = (take 10 results, first.2))
    /\ (Py.truthy_str (TMDB_API_KEY w1) = true ->
        Py.truthy_str (TMDB_API_KEY w2) = true ->
        servable (get_cached (get_cache_key md5 "movies" [mood])
                    (now_read w1) cache).1 = false ->
        (exists status,
            movies_query w1 mood = HttpJson status (Some results)) ->
        let first := fetch_tmdb_movies md5 w1 mood cache in
        first.1 = take 10 results
        /\ fetch_tmdb_movies md5 w2 mood first.2 = (take 10 results, first.2)).
Proof.
  intros md5 str_float w1 w2 mood budget_level lat lng cache results Hne Ht.
  destruct (servable_take_10 results Hne) as (c & data & Etake).
  split.
  - intros Hk1 Hk2 Hs Hq first.
    assert (E : first
                = (take 10 results,
                   set_cache
                     (get_cache_key md5 "places"
                        [mood; budget_level; str_float lat; str_float lng])
                     (take 10 results) (now_write w1)
                     (get_cached
                        (get_cache_key md5 "places"
                           [mood; budget_level; str_float lat; str_float lng])
                        (now_read w1) cache).2)).
    { unfold first. rewrite fetch_google_places_with_key by exact Hk1.
      cbv zeta. rewrite Hq.
      destruct (get_cached _ (now_read w1) cache).1 as [[|c0 d0]|];
        try discriminate Hs; reflexivity. }
    rewrite E. cbn [fst snd]. split; [reflexivity|].
    rewrite Etake.
    eapply (proj1 (fetch_served_from_cache_aux md5 str_float w2 mood
                     budget_level lat lng _ c data (now_write w1) Ht));
      [exact Hk2 | apply lookup_insert_eq].
  - intros Hk1 Hk2 Hs [status Hq] first.
    assert (E : first
                = (take 10 results,
                   set_cache (get_cache_key md5 "movies" [mood])
                     (take 10 results) (now_write w1)
                     (get_cached (get_cache_key md5 "movies" [mood])
                        (now_read w1) cache).2)).
    { unfold first. rewrite fetch_tmdb_movies_with_key by exact Hk1.
      cbv zeta. rewrite Hq.
      destruct (get_cached _ (now_read w1) cache).1 as [[|c0 d0]|];
        try discriminate Hs; reflexivity. }
    rewrite E. cbn [fst snd]. split; [reflexivity|].
    rewrite Etake.
    eapply (proj2 (fetch_served_from_cache_aux md5 str_float w2 mood
                     budget_level lat lng _ c data (now_write w1) Ht));
      [exact Hk2 | apply lookup_insert_eq].
Qed.

Lemma get_cached_from_cache key (now : Q) (cache : Cache)
    (data : list Candidate) :
  (get_cached key now cache).1 = Some data ->
  exists t, cache !! key = Some (data, t).
Proof.
  unfold get_cached. destruct (cache !! key) as [[d t]|]; [|discriminate].
  destruct (Py.Qlt_bool (now - t) CACHE_TTL); cbn; [|discriminate].
  intros [= ->]. eauto.
Qed.

Lemma cache_bounded_read key (now : Q) (cache : Cache) :
  cache_bounded cache -> cache_bounded (get_cached key now cache).2.
Proof.
  intros H k data t Hk. apply get_cached_shrinks in Hk. eapply H. exact Hk.
Qed.

Lemma cache_bounded_write key (results : list Candidate) (now : Q)
    (cache : Cache) :
  cache_bounded cache ->
  cache_bounded (set_cache key (take 10 results) now cache).
Proof.
  intros H k data t Hk. unfold set_cache in Hk.
  destruct (decide (k = key)) as [->|Hne].
  - rewrite lookup_insert_eq in Hk. injection Hk as <- _.
    rewrite length_take. lia.
  - rewrite lookup_insert_ne in Hk by congruence. eapply H. exact Hk.
Qed.

(** X13.  If every cached list holds at most ten candidates, which is so
    for the empty cache, then each fetch returns at most ten candidates and
    leaves a cache of which the same is true. *)
Theorem fetch_results_bounded :
  forall (md5 : string -> string) (str_float : Q -> string) (w : World)
         (mood budget_level : string) (lat lng : Q) (cache : Cache),
    cache_bounded cache ->
    ((length (fetch_google_places md5 str_float w mood budget_level lat lng
                cache).1 <= 10)%nat
     /\ cache_bounded
          (fetch_google_places md5 str_float w mood budget_level lat lng
             cache).2)
    /\ ((length (fetch_tmdb_movies md5 w mood cache).1 <= 10)%nat
        /\ cache_bounded (fetch_tmdb_movies md5 w mood cache).2).
Proof.
  intros md5 str_float w mood budget_level lat lng cache Hb. split.
  - destruct (Py.truthy_str (GOOGLE_PLACES_KEY w)) eqn:Hkey.
    + rewrite fetch_google_places_with_key by exact Hkey. cbv zeta.
      set (key := get_cache_key md5 "places" _).
      pose proof (cache_bounded_read key (now_read w) cache Hb) as Hb1.
      pose proof (get_cached_from_cache key (now_read w) cache) as Hfrom.
      destruct (get_cached key (now_read w) cache).1 as [[|c data]|].
      2:{ destruct (Hfrom _ eq_refl) as [t Ht]. split; [|exact Hb1].
          eapply Hb. exact Ht. }
      all: destruct (places_query str_float w mood lat lng)
             as [|[status|] [results|]]; cbn; try (split; [lia | exact Hb1]).
      all: destruct (String.eqb status "OK"); cbn;
        [ split; [rewrite length_take; lia | apply cache_bounded_write, Hb1]
        | split; [lia | exact Hb1] ].
    + rewrite fetch_google_places_no_key by exact Hkey. cbn.
      split; [lia | exact Hb].
  - destruct (Py.truthy_str (TMDB_API_KEY w)) eqn:Hkey.
    + rewrite fetch_tmdb_movies_with_key by exact Hkey. cbv zeta.
      set (key := get_cache_key md5 "movies" _).
      pose proof (cache_bounded_read key (now_read w) cache Hb) as Hb1.
      pose proof (get_cached_from_cache key (now_read w) cache) as Hfrom.
      destruct (get_cached key (now_read w) cache).1 as [[|c data]|].
      2:{ destruct (Hfrom _ eq_refl) as [t Ht]. split; [|exact Hb1].
          eapply Hb. exact Ht. }
      all: destruct (movies_query w mood) as [|status [results|]]; cbn;
        [ split; [lia | exact Hb1]
        | split; [rewrite length_take; lia | apply cache_bounded_write, Hb1]
        | split; [lia | exact Hb1] ].
    + rewrite fetch_tmdb_movies_no_key by exact Hkey. cbn.
      split; [lia | exact Hb].
Qed.

Lemma get_cached_deleted key (now : Q) (cache : Cache) :
  get_cached key now (delete key cache) = (None, delete key cache).
Proof. unfold get_cached. rewrite lookup_delete_eq. reflexivity. Qed.

Lemma get_cached_empty_entry key (now t : Q) (cache : Cache) :
  cache !! key = Some ([], t) ->
  servable (get_cached key now cache).1 = false.
Proof.
  intros H. unfold get_cached. rewrite H.
  destruct (Py.Qlt_bool (now - t) CACHE_TTL); reflexivity.
Qed.

(** X14.  An empty result list of the movie provider is returned as it is,
    not replaced by the static list; and a cached empty list is never
    served: with such an entry for the request, either fetch returns what it
    returns when the entry is not there. *)
Theorem empty_result_not_served :
  forall (md5 : string -> string) (str_float : Q -> string) (w : World)
         (mood budget_level : string) (lat lng : Q) (cache : Cache) (t : Q),
    (Py.truthy_str (TMDB_API_KEY w) = true ->
     servable (get_cached (get_cache_key md5 "movies" [mood])
                 (now_read w) cache).1 = false ->
     (exists status, movies_query w mood = HttpJson status (Some [])) ->
     (fetch_tmdb_movies md5 w mood cache).1 = [])
    /\ (cache !! get_cache_key md5 "movies" [mood] = Some ([], t) ->
        (fetch_tmdb_movies md5 w mood cache).1
        = (fetch_tmdb_movies md5 w mood
             (delete (get_cache_key md5 "movies" [mood]) cache)).1)
    /\ (cache !! get_cache_key md5 "places"
                   [mood; budget_level; str_float lat; str_float lng]
        = Some ([], t) ->
        (fetch_google_places md5 str_float w mood budget_level lat lng cache).1
        = (fetch_google_places md5 str_float w mood budget_level lat lng
             (delete (get_cache_key md5 "places"
                        [mood; budget_level; str_float lat; str_float lng])
                cache)).1).
Proof.
  intros md5 str_float w mood budget_level lat lng cache t.
  split; [|split].
  - intros Hkey Hs [status Hq].
    rewrite fetch_tmdb_movies_with_key by exact Hkey. cbv zeta. rewrite Hq.
    destruct (get_cached _ (now_read w) cache).1 as [[|c data]|];
      try discriminate Hs; reflexivity.
  - intros Hc. destruct (Py.truthy_str (TMDB_API_KEY w)) eqn:Hkey.
    + rewrite !fetch_tmdb_movies_with_key by exact Hkey. cbv zeta.
      rewrite get_cached_deleted. cbn [fst snd].
      pose proof (get_cached_empty_entry _ (now_read w) _ _ Hc) as Hs.
      destruct (get_cached _ (now_read w) cache).1 as [[|c data]|];
        try discriminate Hs;
        destruct (movies_query w mood) as [|status [results|]]; reflexivity.
    + rewrite !fetch_tmdb_movies_no_key by exact Hkey. reflexivity.
  - intros Hc. destruct (Py.truthy_str (GOOGLE_PLACES_KEY w)) eqn:Hkey.
    + rewrite !fetch_google_places_with_key by exact Hkey. cbv zeta.
      rewrite get_cached_deleted. cbn [fst snd].
      pose proof (get_cached_empty_entry _ (now_read w) _ _ Hc) as Hs.
      destruct (get_cached _ (now_read w) cache).1 as [[|c data]|];
        try discriminate Hs;
        destruct (places_query str_float w mood lat lng)
          as [|[status|] [results|]]; try reflexivity;
        destruct (String.eqb status "OK"); reflexivity.
    + rewrite !fetch_google_places_no_key by exact Hkey. reflexivity.
Qed.

(** ** The suggestion pipeline *)

Section PipelineFacts.

Variable md5 : string -> string.
Variable str_float : Q -> string.

Implicit Types (w : World) (st : Store) (cache : Cache).

Lemma add_suggestions_nil st : add_suggestions [] st = st.
Proof. destruct st. unfold add_suggestions. cbn. rewrite app_nil_r. reflexivity. Qed.

Lemma suggestions_of_add (group_id : Z) (new : list Suggestion) st :
  suggestions_of group_id (add_suggestions new st)
  = suggestions_of group_id st
    ++ List.filter (fun s => (s_group_id s =? group_id)%Z) new.
Proof. unfold suggestions_of, add_suggestions. cbn. apply List.filter_app. Qed.

Lemma filter_own_group (group_id : Z) (new : list Suggestion) :
  Forall (fun s => s_group_id s = group_id) new ->
  List.filter (fun s => (s_group_id s =? group_id)%Z) new = new.
Proof.
  induction 1 as [|s l Hs _ IH]; [reflexivity|]. cbn.
  rewrite Hs, Z.eqb_refl, IH. reflexivity.
Qed.

Lemma filter_other_group (group_id other : Z) (new : list Suggestion) :
  other <> group_id ->
  Forall (fun s => s_group_id s = group_id) new ->
  List.filter (fun s => (s_group_id s =? other)%Z) new = [].
Proof.
  intros Hne. induction 1 as [|s l Hs _ IH]; [reflexivity|]. cbn.
  rewrite Hs. destruct (Z.eqb_spec group_id other); [congruence | exact IH].
Qed.

(** What [create_suggestions] returns for an existing group: the new rows
    and the caches. *)
Lemma create_suggestions_found w code source st cache group :
  group_by_code code st = Some group ->
  exists new cache',
    create_suggestions md5 str_float w code source st cache
    = (Ok new, add_suggestions new st, cache')
    /\ (length new <= 4)%nat
    /\ Forall (fun s => s_group_id s = g_id group
                        /\ is_Some (rating s) /\ is_Some (price_estimate s)
                        /\ (source = "google"%string /\ s_type s = "place"%string
                            \/ source = "tmdb"%string
                               /\ s_type s = "movie"%string
                               /\ price_estimate s = Some 600%Z))
         new.
Proof.
  intros Hg. unfold create_suggestions. rewrite Hg.
  destruct (centroid (members_of (g_id group) st)) as [clat clng].
  destruct (String.eqb_spec source "google") as [->|Hng].
  - destruct (fetch_google_places _ _ _ _ _ _ _ _) as [places cache'].
    eexists _, _. split; [reflexivity|]. split.
    + rewrite length_map, length_take. lia.
    + apply Forall_forall. intros s Hs. apply list_elem_of_In in Hs.
      apply in_map_iff in Hs as (p & <- & _). cbn. eauto 10.
  - destruct (String.eqb_spec source "tmdb") as [->|Hnt].
    + destruct (fetch_tmdb_movies _ _ _ _) as [movies cache'].
      eexists _, _. split; [reflexivity|]. split.
      * rewrite length_map, length_take. lia.
      * apply Forall_forall. intros s Hs. apply list_elem_of_In in Hs.
        apply in_map_iff in Hs as (p & <- & _). cbn. eauto 10.
    + exists [], cache. rewrite add_suggestions_nil.
      split; [reflexivity|]. split; [cbn; lia | constructor].
Qed.

End PipelineFacts.

(** X15.  For an existing group, [create_suggestions] answers with the rows
    it adds: at most four, each of the group, each with a rating and a
    price, of type "place" for the source "google" and of type "movie"
    priced 600 for "tmdb".  The rows are appended to the suggestions table;
    groups, members, polls and the earlier suggestions are as before. *)
Theorem create_suggestions_appends_at_most_four :
  forall (md5 : string -> string) (str_float : Q -> string) (w : World)
         (code source : string) (st : Store) (cache : Cache) (group : Group),
    group_by_code code st = Some group ->
    exists new st' cache',
      create_suggestions md5 str_float w code source st cache
      = (Ok new, st', cache')
      /\ (length new <= 4)%nat
      /\ Forall (fun s => s_group_id s = g_id group
                          /\ is_Some (rating s) /\ is_Some (price_estimate s)
                          /\ (source = "google"%string
                              /\ s_type s = "place"%string
                              \/ source = "tmdb"%string
                                 /\ s_type s = "movie"%string
                                 /\ price_estimate s = Some 600%Z))
           new
      /\ suggestions st' = suggestions st ++ new
      /\ groups st' = groups st /\ members st' = members st
      /\ polls st' = polls st.
Proof.
  intros md5 str_float w code source st cache group Hg.
  destruct (create_suggestions_found md5 str_float w code source st cache
              group Hg) as (new & cache' & E & Hlen & Hall).
  exists new, (add_suggestions new st), cache'. repeat split; assumption.
Qed.

(** X16.  For a code that names no group [create_suggestions] raises 404,
    and for a source other than "google" and "tmdb" it answers with no rows;
    in both cases the store and the cache are untouched and no provider is
    asked. *)
Theorem create_suggestions_nothing_to_do :
  forall (md5 : string -> string) (str_float : Q -> string) (w : World)
         (code source : string) (st : Store) (cache : Cache),
    (group_by_code code st = None ->
     create_suggestions md5 str_float w code source st cache
     = (HTTPException 404 "Group not found", st, cache))
    /\ (forall group,
          group_by_code code st = Some group ->
          source <> "google"%string -> source <> "tmdb"%string ->
          create_suggestions md5 str_float w code source st cache
          = (Ok [], st, cache)).
Proof.
  intros md5 str_float w code source st cache. split.
  - intros H. unfold create_suggestions. rewrite H. reflexivity.
  - intros group H Hg Ht. unfold create_suggestions. rewrite H.
    destruct (centroid _) as [clat clng].
    destruct (String.eqb_spec source "google"); [contradiction|].
    destruct (String.eqb_spec source "tmdb"); [contradiction|]. reflexivity.
Qed.

Lemma group_by_code_add_suggestions code new st :
  group_by_code code (add_suggestions new st) = group_by_code code st.
Proof. reflexivity. Qed.

(** X17.  Reading after writing: once [create_suggestions] has answered
    with new rows for a group, [get_suggestions] for that group returns the
    rows it returned before followed by the new ones, and for a group with
    another id it returns what it returned before. *)
Theorem get_suggestions_after_create :
  forall (md5 : string -> string) (str_float : Q -> string) (w : World)
         (code source : string) (st st' : Store) (cache cache' : Cache)
         (group : Group) (new : list Suggestion),
    group_by_code code st = Some group ->
    create_suggestions md5 str_float w code source st cache
    = (Ok new, st', cache') ->
    get_suggestions code st' = Ok (suggestions_of (g_id group) st ++ new)
    /\ (forall code' group',
          group_by_code code' st = Some group' ->
          g_id group' <> g_id group ->
          get_suggestions code' st' = get_suggestions code' st).
Proof.
  intros md5 str_float w code source st st' cache cache' group new Hg E.
  destruct (create_suggestions_found md5 str_float w code source st cache
              group Hg) as (new0 & cache0 & E0 & _ & Hall).
  rewrite E0 in E. injection E as <- <- <-.
  assert (Hown : Forall (fun s => s_group_id s = g_id group) new0).
  { eapply Forall_impl; [exact Hall|]. cbn. tauto. }
  split.
  - unfold get_suggestions. rewrite group_by_code_add_suggestions, Hg.
    rewrite suggestions_of_add, filter_own_group by exact Hown. reflexivity.
  - intros code' group' Hg' Hne. unfold get_suggestions.
    rewrite group_by_code_add_suggestions, Hg'.
    rewrite suggestions_of_add, (filter_other_group (g_id group)), app_nil_r
      by assumption.
    reflexivity.
Qed.

(** ** Joining a group *)

(** X18.  Joining through a code that names no group raises 404 and leaves
    the store as it is.  Joining an existing group adds one member row
    carrying the request's name and coordinates: it becomes the last member
    of that group, the members of groups with another id are as before, and
    no other table changes. *)
Theorem join_group_adds_member :
  forall (code : string) (req : JoinGroupRequest) (st : Store),
    (group_by_code code st = None ->
     join_group code req st = (HTTPException 404 "Group not found", st))
    /\ (forall group,
          group_by_code code st = Some group ->
          let member :=
            {| m_group_id := g_id group; m_name := jr_name req;
               location_lat := jr_lat req; location_lng := jr_lng req |} in
          let st' := (join_group code req st).2 in
          (join_group code req st).1 = Ok member
          /\ members_of (g_id group) st'
             = members_of (g_id group) st ++ [member]
          /\ (forall other, other <> g_id group ->
                            members_of other st' = members_of other st)
          /\ groups st' = groups st /\ suggestions st' = suggestions st
          /\ polls st' = polls st).
Proof.
  intros code req st. split.
  - intros H. unfold join_group. rewrite H. reflexivity.
  - intros group H member st'. unfold st', join_group. rewrite H. cbn.
    split; [reflexivity|]. unfold members_of. cbn.
    rewrite !List.filter_app. cbn. rewrite Z.eqb_refl.
    split; [reflexivity|]. split; [|auto].
    intros other Hne. rewrite List.filter_app. cbn.
    destruct (Z.eqb_spec (g_id group) other); [congruence|].
    apply app_nil_r.
Qed.

(** ** Polls: creation and runs of votes *)

Section PollFacts.

Implicit Types (st : Store) (poll : Poll) (req : VoteRequest).

(** X19.  Creating a poll through a code that names no group raises 404 and
    stores nothing.  For an existing group the poll is stored under the new
    key with the request's title and options and an empty ledger, the other
    polls are untouched, and a first vote on it, through any code, yields
    the ledger with that single entry under the voted option. *)
Theorem create_poll_then_vote :
  forall (new_id : Z) (code : string) (req : CreatePollRequest) (st : Store),
    (group_by_code code st = None ->
     create_poll new_id code req st
     = (HTTPException 404 "Group not found", st))
    /\ (forall group vcode vreq,
          group_by_code code st = Some group ->
          polls st !! new_id = None ->
          let poll :=
            {| p_group_id := g_id group; p_title := cp_title req;
               p_options := cp_options req; p_votes := ∅ |} in
          let st1 := (create_poll new_id code req st).2 in
          (create_poll new_id code req st).1 = Ok (new_id, poll)
          /\ polls st1 !! new_id = Some poll
          /\ (forall other, other <> new_id ->
                            polls st1 !! other = polls st !! other)
          /\ (vote_poll vcode new_id vreq st1).1
             = Ok (set_votes poll {[ option_id vreq := [entry_of vreq] ]})).
Proof.
  intros new_id code req st. split.
  - intros H. unfold create_poll. rewrite H. reflexivity.
  - intros group vcode vreq H Hfresh poll st1.
    assert (E : create_poll new_id code req st
                = (Ok (new_id, poll), put_poll new_id poll st)).
    { unfold create_poll. rewrite H. reflexivity. }
    unfold st1. rewrite E. cbn [fst snd].
    assert (Hl : polls (put_poll new_id poll st) !! new_id = Some poll)
      by (cbn; apply lookup_insert_eq).
    split; [reflexivity|]. split; [exact Hl|]. split.
    + intros other Hne. cbn. apply lookup_insert_ne. congruence.
    + rewrite (vote_poll_first _ _ _ _ _ Hl eq_refl). reflexivity.
Qed.

Lemma cast_votes_nonempty code poll_id (reqs : list VoteRequest) st poll :
  polls st !! poll_id = Some poll -> p_votes poll <> ∅ ->
  cast_votes code poll_id reqs st = st.
Proof.
  intros H Hne. induction reqs as [|req reqs IH]; [reflexivity|].
  cbn [cast_votes]. rewrite (vote_poll_later _ _ _ _ _ H Hne). exact IH.
Qed.

(** X20.  Of a run of votes on an existing poll at most one is stored.  If
    the ledger is not empty, the store after the run is the store before
    it.  If the ledger is empty, the store after the run holds the poll
    with the entry of the first request alone: every later vote of the run
    is answered with success and dropped. *)
Theorem cast_votes_stores_first_vote_only :
  forall (code : string) (poll_id : Z) (reqs : list VoteRequest)
         (st : Store) (poll : Poll),
    polls st !! poll_id = Some poll ->
    (p_votes poll <> ∅ -> cast_votes code poll_id reqs st = st)
    /\ (p_votes poll = ∅ ->
        forall req rest, reqs = req :: rest ->
          cast_votes code poll_id reqs st
          = put_poll poll_id
              (set_votes poll {[ option_id req := [entry_of req] ]}) st).
Proof.
  intros code poll_id reqs st poll H. split.
  - intros Hne. apply (cast_votes_nonempty _ _ _ _ _ H Hne).
  - intros Hempty req rest ->. cbn [cast_votes].
    rewrite (vote_poll_first _ _ _ _ _ H Hempty). cbn [snd].
    apply (cast_votes_nonempty _ _ _ _
             (set_votes poll {[ option_id req := [entry_of req] ]})).
    + cbn. apply lookup_insert_eq.
    + cbn. apply insert_non_empty.
Qed.

End PollFacts.

(** ** The assistant: ranking of any number of suggestions, dispatch order,
    chat *)

Section AssistantFacts.

Local Open Scope Q_scope.







Lemma prefix_app_l (a b s : string) :
  String.prefix (a ++ b) s = true -> String.prefix a s = true.
Proof.
  revert s. induction a as [|c a IH]; intros s H.
  - destruct s; reflexivity.
  - change (String c a ++ b)%string with (String c (a ++ b)) in H.
    destruct s as [|d s]; [discriminate H|].
    cbn [String.prefix] in H |- *.
    destruct (ascii_dec c d); [apply IH; exact H | discriminate H].
Qed.

Lemma prefix_proscons_pros (s : string) :
  String.prefix "proscons" s = true -> String.prefix "pros" s = true.
Proof. apply (prefix_app_l "pros" "cons"). Qed.

Lemma str_in_proscons_pros (s : string) :
  Py.str_in "proscons" s = true -> Py.str_in "pros" s = true.
Proof.
  induction s as [|c s IH].
  - cbn. discriminate.
  - cbn [Py.str_in]. intros H. apply orb_true_iff in H as [H|H].
    + apply orb_true_iff. left. apply prefix_proscons_pros. exact H.
    + apply orb_true_iff. right. apply IH. exact H.
Qed.

(** X23.  Dispatch order for a group that has suggestions, when the
    lowercased text does not contain "suggest": "safety" wins over
    "compare" and "pros"; then "compare" answers with the first two
    persisted suggestions, or with the fixed text when there is only one;
    then "pros" answers for the first persisted suggestion; otherwise the
    help text.  The group row is never needed, and the test for "proscons"
    adds nothing to the test for "pros". *)
Theorem dispatch_order_without_suggest :
  forall group_id text st s rest,
    suggestions_of group_id st = s :: rest ->
    Py.str_in "suggest" (Py.lower text) = false ->
    (Py.str_in "safety" (Py.lower text) = true ->
     handle_planpal_query group_id text st = Some (Fixed SAFETY))
    /\ (Py.str_in "safety" (Py.lower text) = false ->
        Py.str_in "compare" (Py.lower text) = true ->
        handle_planpal_query group_id text st
        = Some (match rest with
                | s2 :: _ => Comparison s s2
                | [] => Fixed NEED_TWO
                end))
    /\ (Py.str_in "safety" (Py.lower text) = false ->
        Py.str_in "compare" (Py.lower text) = false ->
        handle_planpal_query group_id text st
        = Some (if Py.str_in "pros" (Py.lower text)
                then ProsCons s else Fixed HELP)).
Proof.
  intros group_id text st s rest Hsug Hns. unfold handle_planpal_query.
  rewrite Hsug, Hns. split; [|split].
  - intros ->. reflexivity.
  - intros -> ->. destruct rest; reflexivity.
  - intros -> ->.
    destruct (Py.str_in "pros" (Py.lower text)) eqn:Ep.
    + rewrite orb_true_r. reflexivity.
    + destruct (Py.str_in "proscons" (Py.lower text)) eqn:Epc;
        [|reflexivity].
      apply str_in_proscons_pros in Epc. congruence.
Qed.

Lemma find_some_by_id (g : Group) (gs : list Group) :
  In g gs ->
  exists g', List.find (fun x => (g_id x =? g_id g)%Z) gs = Some g'.
Proof.
  induction gs as [|x gs IH]; [contradiction|]. intros [->|Hin]; cbn.
  - rewrite Z.eqb_refl. eauto.
  - destruct (g_id x =? g_id g)%Z; [eauto | apply IH; exact Hin].
Qed.

Lemma group_by_code_has_row code st group :
  group_by_code code st = Some group ->
  exists g', group_by_id (g_id group) st = Some g'.
Proof.
  intros H. unfold group_by_code in H. apply find_some in H as [Hin _].
  apply find_some_by_id. exact Hin.
Qed.

Lemma handle_with_group_row group_id text st g :
  group_by_id group_id st = Some g ->
  exists reply, handle_planpal_query group_id text st = Some reply.
Proof.
  intros Hg. unfold handle_planpal_query. rewrite Hg.
  destruct (suggestions_of group_id st) as [|s [|s2 rest]]; [eauto|..];
    destruct (Py.str_in "suggest" _); [eauto| |eauto|];
    (destruct (Py.str_in "safety" _); [eauto|]);
    (destruct (Py.str_in "compare" _); [eauto|]);
    (destruct (_ || _); eauto).
Qed.

(** X24.  Chat.  Through a code that names no group the message is refused
    with 404 and not logged.  Otherwise the message is appended to the log
    exactly once and the call never fails: without the literal "@PlanPal"
    in the message there is no bot response, and with it the bot response
    is the reply of [bot_query] for the group and the message. *)
Theorem post_chat_logs_and_replies :
  forall (code : string) (req : ChatRequest) (st : Store)
         (log : list ChatMessage),
    (group_by_code code st = None ->
     post_chat code req st log
     = (Some (HTTPException 404 "Group not found"), log))
    /\ (forall group,
          group_by_code code st = Some group ->
          (post_chat code req st log).2
          = log ++ [ {| cm_group_id := g_id group;
                        cm_member_id := Some (cr_member_id req);
                        cm_message := cr_message req |} ]
          /\ (Py.str_in "@PlanPal" (cr_message req) = false ->
              (post_chat code req st log).1 = Some (Ok None))
          /\ (Py.str_in "@PlanPal" (cr_message req) = true ->
              exists reply,
                bot_query (g_id group) (cr_message req) st = Some reply
                /\ (post_chat code req st log).1 = Some (Ok (Some reply)))).
Proof.
  intros code req st log. split.
  - intros H. unfold post_chat. rewrite H. reflexivity.
  - intros group H.
    destruct (group_by_code_has_row _ _ _ H) as [g' Hg'].
    destruct (handle_with_group_row _ (cr_message req) _ _ Hg')
      as [reply Hreply].
    unfold post_chat, bot_query. rewrite H, Hreply.
    destruct (Py.str_in "@PlanPal" (cr_message req)); cbn.
    + split; [reflexivity|]. split; [discriminate|]. intros _. eauto.
    + split; [reflexivity|]. split; [reflexivity | discriminate].
Qed.

End AssistantFacts.

(** ** Normalised movies *)

Section MovieFacts.

Local Open Scope Q_scope.

(** X26.  A movie row has the provider's 10-point average halved as its
    rating, 3.5 when the average is missing, so a rating within 0..5 for an
    average within 0..10; its price 600 is within every budget, so its
    budget sub-score is 1 for every budget level. *)
Theorem movie_rows_fit_every_budget :
  forall (group_id : Z) (movie : Candidate) (b : string),
    (c_vote_average movie = None ->
     exists r, rating (movie_to_suggestion group_id movie) = Some r
               /\ r == 3.5)
    /\ (forall v, c_vote_average movie = Some v -> 0 <= v <= 10 ->
                  exists r, rating (movie_to_suggestion group_id movie) = Some r
                            /\ r == v / 2 /\ 0 <= r <= 5)
    /\ ScoreSpec.budgetMatch (movie_to_suggestion group_id movie) b = 1.
Proof.
  intros group_id movie b. split; [|split].
  - intros H. unfold movie_to_suggestion. rewrite H. cbn.
    eexists. split; [reflexivity | by_evaluation].
  - intros v H [H0 H10]. unfold movie_to_suggestion. rewrite H. cbn.
    eexists. split; [reflexivity|]. split; [reflexivity|]. split.
    + apply Qle_shift_div_l; [reflexivity | lra].
    + apply Qle_shift_div_r; [reflexivity | lra].
  - rewrite <- budget_match_price_or. cbn.
    destruct (limit_cases b) as [-> | [-> | ->]]; reflexivity.
Qed.

End MovieFacts.

(** ** Part III at concrete inputs *)

Lemma calculate_score_bounds_witness :
  (0.02 <= calculate_score Sample.top_rated "low" 2 3 4 8 <= 1)%Q.
Proof.
  apply calculate_score_bounds.
  - cbn. split; by_evaluation.
  - lia.
  - by_evaluation.
Defined.

Lemma calculate_score_monotone_witness :
  (calculate_score Sample.top_rated "low" 1 3 4 8
   <= calculate_score Sample.top_rated "low" 2 3 2 8)%Q.
Proof. apply calculate_score_monotone; [lia | by_evaluation]. Defined.

Lemma calculate_score_cheaper_not_worse_witness :
  (calculate_score SampleStore.resort "low" 1 3 4 8
   <= calculate_score SampleStore.park "low" 1 3 4 8)%Q.
Proof.
  apply (calculate_score_cheaper_not_worse SampleStore.park SampleStore.resort
           700 3000); [reflexivity | reflexivity | reflexivity | lia].
Defined.

Lemma calculate_distance_arc_length_witness :
  (calculate_distance 10 77 40 77 = 6371 * radians (40 - 10)
   /\ calculate_distance 0 20 0 110 = 6371 * radians (110 - 20))%R.
Proof.
  destruct calculate_distance_arc_length as [Hmeridian Hequator].
  split; [apply Hmeridian; lra | apply Hequator; lra].
Defined.

Lemma cache_round_trip_witness :
  get_cached "k" 1799 (set_cache "k" (get_mock_movies "chill") 0 ∅)
  = (Some (get_mock_movies "chill"),
     set_cache "k" (get_mock_movies "chill") 0 ∅)
  /\ get_cached "k" 1800 (set_cache "k" (get_mock_movies "chill") 0 ∅)
     = (None, delete "k"%string (∅ : Cache)).
Proof.
  destruct (cache_round_trip "k"%string (get_mock_movies "chill") 0 1799 ∅)
    as [Hfresh _].
  destruct (cache_round_trip "k"%string (get_mock_movies "chill") 0 1800 ∅)
    as [_ Hstale].
  split; [apply Hfresh; by_evaluation | apply Hstale; by_evaluation].
Defined.

Lemma cache_read_effects_witness :
  (get_cached SampleRuns.places_key 5000 SampleRuns.warm).2
    !! SampleRuns.movies_key
  = SampleRuns.warm !! SampleRuns.movies_key
  /\ get_cached SampleRuns.places_key 0
       (get_cached SampleRuns.places_key 5000 SampleRuns.warm).2
     = (None, (get_cached SampleRuns.places_key 5000 SampleRuns.warm).2).
Proof.
  destruct (cache_read_effects SampleRuns.places_key 5000 SampleRuns.warm)
    as [Hother Hmiss].
  split; [apply Hother; discriminate | apply Hmiss; reflexivity].
Defined.

Lemma fetch_served_from_cache_witness :
  fetch_google_places (fun s => s) SampleStore.str_float SampleRuns.broken
    "chill" "low" 0 0 SampleRuns.warm
  = (get_mock_places "chill" "low", SampleRuns.warm)
  /\ fetch_tmdb_movies (fun s => s) SampleRuns.broken "chill" SampleRuns.warm
     = (get_mock_movies "chill", SampleRuns.warm).
Proof.
  destruct (fetch_served_from_cache (fun s => s) SampleStore.str_float
              SampleRuns.broken "chill"%string "low"%string 0%Q 0%Q
              SampleRuns.warm
              (mock_place "Cubbon Park" 4.5 0 "mock_1")
              (tl (get_mock_places "chill" "low")) 0%Q)
    as [Hplaces _]; [by_evaluation|].
  destruct (fetch_served_from_cache (fun s => s) SampleStore.str_float
              SampleRuns.broken "chill"%string "low"%string 0%Q 0%Q
              SampleRuns.warm
              (mock_movie "Zindagi Na Milegi Dobara" 8.1 12345)
              (tl (get_mock_movies "chill")) 0%Q)
    as [_ Hmovies]; [by_evaluation|].
  split; [apply Hplaces; reflexivity | apply Hmovies; reflexivity].
Defined.

Lemma fetch_falls_back_on_failure_witness :
  fetch_google_places (fun s => s) SampleStore.str_float SampleRuns.broken
    "chill" "low" 0 0 ∅
  = (get_mock_places "chill" "low",
     (get_cached SampleRuns.places_key 200 ∅).2)
  /\ fetch_tmdb_movies (fun s => s) SampleRuns.broken "chill" ∅
     = (get_mock_movies "chill", (get_cached SampleRuns.movies_key 200 ∅).2).
Proof.
  destruct (fetch_falls_back_on_failure (fun s => s) SampleStore.str_float
              SampleRuns.broken "chill"%string "low"%string 0%Q 0%Q ∅)
    as [Hplaces Hmovies].
  split; [apply Hplaces; reflexivity | apply Hmovies; reflexivity].
Defined.

Lemma fetch_again_within_ttl_witness :
  fetch_google_places (fun s => s) SampleStore.str_float SampleRuns.broken
    "chill" "low" 0 0
    (fetch_google_places (fun s => s) SampleStore.str_float SampleStore.online
       "chill" "low" 0 0 ∅).2
  = (take 10 (get_mock_places "any" "any"),
     (fetch_google_places (fun s => s) SampleStore.str_float
        SampleStore.online "chill" "low" 0 0 ∅).2)
  /\ fetch_tmdb_movies (fun s => s) SampleRuns.broken "chill"
       (fetch_tmdb_movies (fun s => s) SampleStore.online "chill" ∅).2
     = (take 10 (get_mock_movies "any"),
        (fetch_tmdb_movies (fun s => s) SampleStore.online "chill" ∅).2).
Proof.
  destruct (fetch_again_within_ttl (fun s => s) SampleStore.str_float
              SampleStore.online SampleRuns.broken "chill"%string
              "low"%string 0%Q 0%Q ∅ (get_mock_places "any" "any"))
    as [Hplaces _]; [discriminate | by_evaluation |].
  destruct (fetch_again_within_ttl (fun s => s) SampleStore.str_float
              SampleStore.online SampleRuns.broken "chill"%string
              "low"%string 0%Q 0%Q ∅ (get_mock_movies "any"))
    as [_ Hmovies]; [discriminate | by_evaluation |].
  split.
  - apply Hplaces; reflexivity.
  - apply Hmovies; try reflexivity. exists None. reflexivity.
Defined.

Lemma fetch_results_bounded_witness :
  (length (fetch_google_places (fun s => s) SampleStore.str_float
             SampleStore.online "chill" "low" 0 0 ∅).1 <= 10)%nat
  /\ (length (fetch_tmdb_movies (fun s => s) SampleStore.online "chill" ∅).1
      <= 10)%nat.
Proof.
  destruct (fetch_results_bounded (fun s => s) SampleStore.str_float
              SampleStore.online "chill"%string "low"%string 0%Q 0%Q ∅)
    as [[Hplaces _] [Hmovies _]].
  - intros k data t H. rewrite lookup_empty in H. discriminate H.
  - split; assumption.
Defined.

Lemma empty_result_not_served_witness :
  (fetch_tmdb_movies (fun s => s) SampleRuns.nothing_found "chill" ∅).1 = []
  /\ (fetch_tmdb_movies (fun s => s) SampleRuns.broken "chill"
        SampleRuns.hollow).1
     = (fetch_tmdb_movies (fun s => s) SampleRuns.broken "chill"
          (delete SampleRuns.movies_key SampleRuns.hollow)).1
  /\ (fetch_google_places (fun s => s) SampleStore.str_float SampleRuns.broken
        "chill" "low" 0 0 SampleRuns.hollow).1
     = (fetch_google_places (fun s => s) SampleStore.str_float
          SampleRuns.broken "chill" "low" 0 0
          (delete SampleRuns.places_key SampleRuns.hollow)).1.
Proof.
  destruct (empty_result_not_served (fun s => s) SampleStore.str_float
              SampleRuns.nothing_found "chill"%string "low"%string 0%Q 0%Q
              ∅ 0%Q) as (Hempty & _ & _).
  destruct (empty_result_not_served (fun s => s) SampleStore.str_float
              SampleRuns.broken "chill"%string "low"%string 0%Q 0%Q
              SampleRuns.hollow 0%Q) as (_ & Hmovies & Hplaces).
  split; [|split].
  - apply Hempty; try reflexivity. exists None. reflexivity.
  - apply Hmovies. reflexivity.
  - apply Hplaces. reflexivity.
Defined.

Lemma create_suggestions_appends_at_most_four_witness :
  exists new st' cache',
    create_suggestions (fun s => s) SampleStore.str_float SampleStore.offline
      "ABC123" "google" SampleStore.store ∅
    = (Ok new, st', cache')
    /\ (length new <= 4)%nat
    /\ suggestions st' = suggestions SampleStore.store ++ new.
Proof.
  destruct (create_suggestions_appends_at_most_four (fun s => s)
              SampleStore.str_float SampleStore.offline "ABC123"%string
              "google"%string SampleStore.store ∅ SampleStore.friday)
    as (new & st' & cache' & E & Hlen & _ & Happ & _); [reflexivity|].
  exists new, st', cache'. auto.
Defined.

Lemma create_suggestions_nothing_to_do_witness :
  create_suggestions (fun s => s) SampleStore.str_float SampleStore.online
    "NOSUCH" "google" SampleStore.store SampleRuns.warm
  = (HTTPException 404 "Group not found", SampleStore.store, SampleRuns.warm)
  /\ create_suggestions (fun s => s) SampleStore.str_float SampleStore.online
       "ABC123" "yelp" SampleStore.store SampleRuns.warm
     = (Ok [], SampleStore.store, SampleRuns.warm).
Proof.
  destruct (create_suggestions_nothing_to_do (fun s => s)
              SampleStore.str_float SampleStore.online "NOSUCH"%string
              "google"%string SampleStore.store SampleRuns.warm)
    as [Hmissing _].
  destruct (create_suggestions_nothing_to_do (fun s => s)
              SampleStore.str_float SampleStore.online "ABC123"%string
              "yelp"%string SampleStore.store SampleRuns.warm)
    as [_ Hsource].
  split; [apply Hmissing; reflexivity|].
  apply (Hsource SampleStore.friday); [reflexivity | discriminate..].
Defined.

Lemma get_suggestions_after_create_witness :
  get_suggestions "ABC123"
    (create_suggestions (fun s => s) SampleStore.str_float SampleStore.offline
       "ABC123" "tmdb" SampleStore.store ∅).1.2
  = Ok (suggestions_of 1 SampleStore.store
        ++ map (movie_to_suggestion 1) (get_mock_movies "chill"))
  /\ get_suggestions "XYZ789"
       (create_suggestions (fun s => s) SampleStore.str_float
          SampleStore.offline "ABC123" "tmdb" SampleStore.store ∅).1.2
     = get_suggestions "XYZ789" SampleStore.store.
Proof.
  destruct (get_suggestions_after_create (fun s => s) SampleStore.str_float
              SampleStore.offline "ABC123"%string "tmdb"%string
              SampleStore.store
              (create_suggestions (fun s => s) SampleStore.str_float
                 SampleStore.offline "ABC123" "tmdb" SampleStore.store ∅).1.2
              ∅ ∅ SampleStore.friday
              (map (movie_to_suggestion 1) (get_mock_movies "chill")))
    as [Hown Hother]; [reflexivity | reflexivity |].
  split; [exact Hown|].
  apply (Hother "XYZ789"%string SampleStore.sunday); [reflexivity | discriminate].
Defined.

Lemma join_group_adds_member_witness :
  join_group "NOSUCH" SampleRuns.asha SampleStore.store
  = (HTTPException 404 "Group not found", SampleStore.store)
  /\ members_of 1 (join_group "ABC123" SampleRuns.asha SampleStore.store).2
     = members_of 1 SampleStore.store
       ++ [ {| m_group_id := 1; m_name := "Asha";
               location_lat := Some 12.5%Q; location_lng := Some 77.5%Q |} ].
Proof.
  destruct (join_group_adds_member "NOSUCH"%string SampleRuns.asha
              SampleStore.store) as [Hmissing _].
  destruct (join_group_adds_member "ABC123"%string SampleRuns.asha
              SampleStore.store) as [_ Hfound].
  split; [apply Hmissing; reflexivity|].
  destruct (Hfound SampleStore.friday) as (_ & Hmembers & _); [reflexivity|].
  exact Hmembers.
Defined.

Lemma create_poll_then_vote_witness :
  create_poll 8 "NOSUCH" SampleRuns.lunch SampleStore.store
  = (HTTPException 404 "Group not found", SampleStore.store)
  /\ (vote_poll "ABC123" 8 (SampleRuns.vote 1 "a")
        (create_poll 8 "ABC123" SampleRuns.lunch SampleStore.store).2).1
     = Ok (set_votes
             {| p_group_id := 1; p_title := "Lunch?";
                p_options := cp_options SampleRuns.lunch; p_votes := ∅ |}
             {[ "a"%string := [ {| ve_member_id := 1; ve_emoji := "+1" |} ] ]}).
Proof.
  destruct (create_poll_then_vote 8 "NOSUCH"%string SampleRuns.lunch
              SampleStore.store) as [Hmissing _].
  destruct (create_poll_then_vote 8 "ABC123"%string SampleRuns.lunch
              SampleStore.store) as [_ Hfound].
  split; [apply Hmissing; reflexivity|].
  destruct (Hfound SampleStore.friday "ABC123"%string (SampleRuns.vote 1 "a"))
    as (_ & _ & _ & Hvote); [reflexivity | reflexivity |].
  exact Hvote.
Defined.

Lemma cast_votes_stores_first_vote_only_witness :
  cast_votes "ABC123" 7
    [SampleRuns.vote 2 "opt1"; SampleRuns.vote 3 "opt2";
     SampleRuns.vote 2 "opt1"]
    SampleStore.store
  = SampleStore.store
  /\ polls (cast_votes "ABC123" 8
              [SampleRuns.vote 2 "a"; SampleRuns.vote 3 "b"]
              (create_poll 8 "ABC123" SampleRuns.lunch SampleStore.store).2)
       !! 8%Z
     = Some {| p_group_id := 1; p_title := "Lunch?";
               p_options := cp_options SampleRuns.lunch;
               p_votes :=
                 {[ "a"%string :=
                      [ {| ve_member_id := 2; ve_emoji := "+1" |} ] ]} |}.
Proof.
  split.
  - destruct (cast_votes_stores_first_vote_only "ABC123"%string 7%Z
                [SampleRuns.vote 2 "opt1"; SampleRuns.vote 3 "opt2";
                 SampleRuns.vote 2 "opt1"]
                SampleStore.store SampleStore.where_to_go)
      as [Hkept _]; [reflexivity|].
    apply Hkept. intros E.
    apply (f_equal (fun m => m !! "opt1"%string)) in E. discriminate E.
  - destruct (cast_votes_stores_first_vote_only "ABC123"%string 8%Z
                [SampleRuns.vote 2 "a"; SampleRuns.vote 3 "b"]
                (create_poll 8 "ABC123" SampleRuns.lunch SampleStore.store).2
                {| p_group_id := 1; p_title := "Lunch?";
                   p_options := cp_options SampleRuns.lunch; p_votes := ∅ |})
      as [_ Hfirst]; [reflexivity|].
    rewrite (Hfirst eq_refl (SampleRuns.vote 2 "a") [SampleRuns.vote 3 "b"]
               eq_refl).
    reflexivity.
Defined.


Lemma dispatch_order_without_suggest_witness :
  handle_planpal_query 1 "@PlanPal SAFETY, then compare the pros"
    SampleStore.store = Some (Fixed SAFETY)
  /\ handle_planpal_query 1 "@PlanPal compare the pros" SampleStore.store
     = Some (Comparison SampleStore.cafe SampleStore.park)
  /\ handle_planpal_query 1 "@PlanPal ProsCons" SampleStore.store
     = Some (ProsCons SampleStore.cafe).
Proof.
  destruct (dispatch_order_without_suggest 1
              "@PlanPal SAFETY, then compare the pros" SampleStore.store
              SampleStore.cafe
              [SampleStore.park; SampleStore.diner; SampleStore.resort])
    as (Hsafety & _ & _); [reflexivity | reflexivity |].
  destruct (dispatch_order_without_suggest 1 "@PlanPal compare the pros"
              SampleStore.store SampleStore.cafe
              [SampleStore.park; SampleStore.diner; SampleStore.resort])
    as (_ & Hcompare & _); [reflexivity | reflexivity |].
  destruct (dispatch_order_without_suggest 1 "@PlanPal ProsCons"
              SampleStore.store SampleStore.cafe
              [SampleStore.park; SampleStore.diner; SampleStore.resort])
    as (_ & _ & Hpros); [reflexivity | reflexivity |].
  split; [apply Hsafety; reflexivity|].
  split; [apply Hcompare; reflexivity | apply Hpros; reflexivity].
Defined.

Lemma post_chat_logs_and_replies_witness :
  post_chat "NOSUCH" SampleRuns.ask_compare SampleStore.store []
  = (Some (HTTPException 404 "Group not found"), [])
  /\ (post_chat "ABC123" SampleRuns.small_talk SampleStore.store []).1
     = Some (Ok None)
  /\ exists reply,
      (post_chat "ABC123" SampleRuns.ask_compare SampleStore.store []).1
      = Some (Ok (Some reply)).
Proof.
  destruct (post_chat_logs_and_replies "NOSUCH"%string SampleRuns.ask_compare
              SampleStore.store []) as [Hmissing _].
  destruct (post_chat_logs_and_replies "ABC123"%string SampleRuns.small_talk
              SampleStore.store []) as [_ Hquiet].
  destruct (post_chat_logs_and_replies "ABC123"%string SampleRuns.ask_compare
              SampleStore.store []) as [_ Hbot].
  split; [apply Hmissing; reflexivity|]. split.
  - destruct (Hquiet SampleStore.friday) as (_ & Hnone & _); [reflexivity|].
    apply Hnone. reflexivity.
  - destruct (Hbot SampleStore.friday) as (_ & _ & Hsome); [reflexivity|].
    destruct Hsome as (reply & _ & Hreply); [reflexivity|].
    exists reply. exact Hreply.
Defined.

Lemma movie_rows_fit_every_budget_witness :
  exists r,
    rating (movie_to_suggestion 1 (mock_movie "Queen" 7.8 12347)) = Some r
    /\ (0 <= r <= 5)%Q.
Proof.
  destruct (movie_rows_fit_every_budget 1 (mock_movie "Queen" 7.8 12347)
              "low"%string) as (_ & Hrange & _).
  destruct (Hrange 7.8%Q) as (r & Hr & _ & Hb);
    [reflexivity | split; by_evaluation |].
  exists r. split; assumption.
Defined.

(** ** The group view and group creation *)

Section GroupFacts.

Implicit Types (st : Store).

Lemma polls_of_lookup (group_id poll_id : Z) st :
  polls_of group_id st !! poll_id
  = match polls st !! poll_id with
    | Some p => if decide (p_group_id p = group_id) then Some p else None
    | None => None
    end.
Proof.
  unfold polls_of. destruct (polls st !! poll_id) as [p|] eqn:E.
  - destruct (decide (p_group_id p = group_id)) as [Hp|Hp].
    + apply map_lookup_filter_Some. split; [exact E | exact Hp].
    + apply map_lookup_filter_None. right. intros x Hx.
      rewrite E in Hx. injection Hx as <-. exact Hp.
  - apply map_lookup_filter_None. left. exact E.
Qed.

(** X27.  Reading after voting.  For a poll of a group whose ledger is not
    empty, the group view after a vote, cast through any code, is the view
    before the vote: the vote is not shown.  For a poll whose ledger is
    empty, the view after the vote lists that poll with the single entry
    under the voted option; the members, the suggestions and the other
    polls of the view are as before the vote. *)
Theorem get_group_after_vote :
  forall (code vcode : string) (poll_id : Z) (req : VoteRequest) (st : Store)
         (group : Group) (poll : Poll),
    group_by_code code st = Some group ->
    polls st !! poll_id = Some poll ->
    p_group_id poll = g_id group ->
    (p_votes poll <> ∅ ->
     get_group code (vote_poll vcode poll_id req st).2 = get_group code st)
    /\ (p_votes poll = ∅ ->
        exists view,
          get_group code (vote_poll vcode poll_id req st).2 = Ok view
          /\ gv_group view = group
          /\ gv_polls view !! poll_id
             = Some (set_votes poll {[ option_id req := [entry_of req] ]})
          /\ gv_members view = members_of (g_id group) st
          /\ gv_suggestions view = suggestions_of (g_id group) st
          /\ (forall other, other <> poll_id ->
                            gv_polls view !! other
                            = polls_of (g_id group) st !! other)).
Proof.
  intros code vcode poll_id req st group poll Hg Hp Hown. split.
  { intros Hne. rewrite (vote_poll_later _ _ _ _ _ Hp Hne). reflexivity. }
  intros Hempty.
  rewrite (vote_poll_first _ _ _ _ _ Hp Hempty). cbn [snd].
  set (poll' := set_votes poll _).
  exists {| gv_group := group;
            gv_members := members_of (g_id group) st;
            gv_suggestions := suggestions_of (g_id group) st;
            gv_polls := polls_of (g_id group) (put_poll poll_id poll' st) |}.
  split.
  { unfold get_group.
    change (group_by_code code (put_poll poll_id poll' st))
      with (group_by_code code st).
    rewrite Hg. reflexivity. }
  split; [reflexivity|]. cbn [gv_polls gv_members gv_suggestions]. split.
  { rewrite polls_of_lookup. cbn. rewrite lookup_insert_eq.
    destruct (decide (p_group_id poll' = g_id group)) as [_|Hn];
      [reflexivity|]. exfalso. apply Hn. exact Hown. }
  split; [reflexivity|]. split; [reflexivity|].
  intros other Hne. rewrite !polls_of_lookup. cbn.
  rewrite lookup_insert_ne by congruence. reflexivity.
Qed.

Lemma find_snoc {A} (f : A -> bool) (l : list A) (x : A) :
  List.find f (l ++ [x])
  = match List.find f l with
    | Some y => Some y
    | None => if f x then Some x else None
    end.
Proof.
  induction l as [|y l IH]; cbn; [reflexivity|].
  destruct (f y); [reflexivity | exact IH].
Qed.

(** X28.  Creating a group under a code that is taken fails at the unique
    code column and stores nothing.  Under a free code the group is stored
    with the request's name, mood and budget level, the link is the base
    URL followed by "/g/" and the code, the code resolves to the new group,
    every code that resolved before resolves to the same group, and a join
    through the new code yields a member of the new group. *)
Theorem create_group_then_join :
  forall (base_url : string) (new_id : Z) (code : string)
         (req : CreateGroupRequest) (st : Store),
    (forall g, group_by_code code st = Some g ->
               create_group base_url new_id code req st = (None, st))
    /\ (group_by_code code st = None ->
        let group :=
          {| g_id := new_id; g_code := code; g_name := cg_name req;
             g_mood := cg_mood req; g_budget_level := cg_budget_level req |} in
        let st' := (create_group base_url new_id code req st).2 in
        (create_group base_url new_id code req st).1
        = Some (code, (base_url ++ "/g/" ++ code)%string, group)
        /\ group_by_code code st' = Some group
        /\ (forall c g, group_by_code c st = Some g ->
                        group_by_code c st' = Some g)
        /\ (forall jreq,
              (join_group code jreq st').1
              = Ok {| m_group_id := new_id; m_name := jr_name jreq;
                      location_lat := jr_lat jreq;
                      location_lng := jr_lng jreq |})).
Proof.
  intros base_url new_id code req st. split.
  - intros g H. unfold create_group. rewrite H. reflexivity.
  - intros H group st'. unfold st', create_group. rewrite H. cbn [fst snd].
    fold group.
    assert (Hnew : group_by_code code (add_group group st) = Some group).
    { unfold group_by_code in *. cbn [groups add_group].
      rewrite find_snoc, H. cbn. rewrite String.eqb_refl. reflexivity. }
    split; [reflexivity|]. split; [exact Hnew|]. split.
    + intros c g Hc. unfold group_by_code in *. cbn [groups add_group].
      rewrite find_snoc, Hc. reflexivity.
    + intros jreq. unfold join_group. rewrite Hnew. reflexivity.
Qed.

End GroupFacts.

Lemma get_group_after_vote_witness :
  get_group "ABC123"
    (vote_poll "XYZ789" 7 SampleStore.second_vote SampleStore.store).2
  = get_group "ABC123" SampleStore.store
  /\ exists view,
      get_group "ABC123"
        (vote_poll "XYZ789" 8 SampleStore.second_vote
           (create_poll 8 "ABC123" SampleRuns.lunch SampleStore.store).2).2
      = Ok view
      /\ gv_polls view !! 8%Z
         = Some {| p_group_id := 1; p_title := "Lunch?";
                   p_options := cp_options SampleRuns.lunch;
                   p_votes :=
                     {[ "opt1"%string :=
                          [ {| ve_member_id := 2; ve_emoji := "heart" |} ] ]} |}.
Proof.
  split.
  - destruct (get_group_after_vote "ABC123"%string "XYZ789"%string 7%Z
                SampleStore.second_vote SampleStore.store SampleStore.friday
                SampleStore.where_to_go)
      as [Hkept _]; [reflexivity | reflexivity | reflexivity |].
    apply Hkept. intros E.
    apply (f_equal (fun m => m !! "opt1"%string)) in E. discriminate E.
  - destruct (get_group_after_vote "ABC123"%string "XYZ789"%string 8%Z
                SampleStore.second_vote
                (create_poll 8 "ABC123" SampleRuns.lunch SampleStore.store).2
                SampleStore.friday
                {| p_group_id := 1; p_title := "Lunch?";
                   p_options := cp_options SampleRuns.lunch; p_votes := ∅ |})
      as [_ Hshown]; [reflexivity | reflexivity | reflexivity |].
    destruct (Hshown eq_refl) as (view & Hview & _ & Hpoll & _).
    exists view. split; [exact Hview | exact Hpoll].
Defined.

Lemma create_group_then_join_witness :
  create_group "http://localhost:5173" 3 "ABC123"
    {| cg_name := "Again"; cg_mood := None; cg_budget_level := None |}
    SampleStore.store
  = (None, SampleStore.store)
  /\ (join_group "NEW001" SampleRuns.asha
        (create_group "http://localhost:5173" 3 "NEW001"
           {| cg_name := "Again"; cg_mood := None; cg_budget_level := None |}
           SampleStore.store).2).1
     = Ok {| m_group_id := 3; m_name := "Asha";
             location_lat := Some 12.5%Q; location_lng := Some 77.5%Q |}.
Proof.
  destruct (create_group_then_join "http://localhost:5173"%string 3%Z
              "ABC123"%string
              {| cg_name := "Again"; cg_mood := None; cg_budget_level := None |}
              SampleStore.store) as [Htaken _].
  destruct (create_group_then_join "http://localhost:5173"%string 3%Z
              "NEW001"%string
              {| cg_name := "Again"; cg_mood := None; cg_budget_level := None |}
              SampleStore.store) as [_ Hfree].
  split; [apply (Htaken SampleStore.friday); reflexivity|].
  destruct Hfree as (_ & _ & _ & Hjoin); [reflexivity|].
  apply (Hjoin SampleRuns.asha).
Defined.
